(** * Backtesting and strategy-evaluation engine

    A shallow embedding of the backtesting core of the trading dashboard:
    - [IndicatorService.calculateIndicators]   (lib/trading/indicators.ts)
    - [BacktestingEngine.generateSignal] and
      [BacktestingEngine.runBacktest]          (lib/trading-agent-integration.ts)
    - [StrategyEngine.validateStrategies] and
      [StrategyEngine.backtest]                (strategy engine)

    Numbers are JavaScript numbers under exact arithmetic: a finite value is
    a rational, and the three special values [Infinity], [-Infinity] and
    [NaN] follow the IEEE rules the engine can observe (division by zero,
    [Infinity * 0], comparisons with [NaN]).  Neither the rounding of finite
    results nor their overflow to an infinity is modelled, and there is one
    zero (it behaves as [+0]).  The results of [+], [*] and [/]
    are kept in lowest terms ([Qred]), which does not change their value. *)

From Stdlib Require Import String.
From Stdlib Require Import QArith Qabs ZArith List Bool Lia Lqa.
From Stdlib Require Import Setoid Morphisms.
Import ListNotations.

Set Implicit Arguments.

(** ** JavaScript numbers *)

Module JsNum.

Inductive num : Type :=
| Fin (q : Q)
| PInf
| NInf
| NaN.

Definition Qltb (a b : Q) : bool :=
  match a ?= b with Lt => true | _ => false end.

Definition zero : num := Fin 0.

Definition of_nat (n : nat) : num := Fin (inject_Z (Z.of_nat n)).

Definition neg (a : num) : num :=
  match a with
  | Fin x => Fin (- x)
  | PInf => NInf
  | NInf => PInf
  | NaN => NaN
  end.

Definition add (a b : num) : num :=
  match a, b with
  | NaN, _ | _, NaN => NaN
  | Fin x, Fin y => Fin (Qred (x + y))
  | PInf, NInf | NInf, PInf => NaN
  | PInf, _ | _, PInf => PInf
  | NInf, _ | _, NInf => NInf
  end.

Definition sub (a b : num) : num := add a (neg b).

(** [inf_signed q] is the infinity carrying the sign of [q]; [NaN] at zero. *)
Definition inf_signed (q : Q) : num :=
  if Qltb 0 q then PInf else if Qltb q 0 then NInf else NaN.

Definition mul (a b : num) : num :=
  match a, b with
  | NaN, _ | _, NaN => NaN
  | Fin x, Fin y => Fin (Qred (x * y))
  | Fin x, PInf | PInf, Fin x => inf_signed x
  | Fin x, NInf | NInf, Fin x => inf_signed (- x)
  | PInf, PInf | NInf, NInf => PInf
  | PInf, NInf | NInf, PInf => NInf
  end.

(** Division; a zero divisor is [+0]: [x / 0] is an infinity of the sign
    of [x], and [0 / 0] is [NaN]. *)
Definition div (a b : num) : num :=
  match a, b with
  | NaN, _ | _, NaN => NaN
  | Fin x, Fin y => if Qeq_bool y 0 then inf_signed x else Fin (Qred (x / y))
  | Fin _, (PInf | NInf) => Fin 0
  | PInf, Fin y => if Qltb y 0 then NInf else PInf
  | NInf, Fin y => if Qltb y 0 then PInf else NInf
  | (PInf | NInf), (PInf | NInf) => NaN
  end.

(** [Math.abs] *)
Definition abs (a : num) : num :=
  match a with
  | Fin x => Fin (Qabs x)
  | PInf | NInf => PInf
  | NaN => NaN
  end.

(** The relational operators; every comparison with [NaN] is [false]. *)
Definition lt (a b : num) : bool :=
  match a, b with
  | NaN, _ | _, NaN => false
  | Fin x, Fin y => Qltb x y
  | _, NInf => false
  | NInf, _ => true
  | PInf, _ => false
  | Fin _, PInf => true
  end.

Definition le (a b : num) : bool :=
  match a, b with
  | NaN, _ | _, NaN => false
  | Fin x, Fin y => Qle_bool x y
  | NInf, _ => true
  | _, PInf => true
  | _, NInf => false
  | PInf, Fin _ => false
  end.

Definition gt (a b : num) : bool := lt b a.
Definition ge (a b : num) : bool := le b a.

(** [===] and [!==] on numbers *)
Definition strict_eq (a b : num) : bool :=
  match a, b with
  | Fin x, Fin y => Qeq_bool x y
  | PInf, PInf | NInf, NInf => true
  | _, _ => false
  end.

Definition strict_neq (a b : num) : bool := negb (strict_eq a b).

(** [Math.max] and [Math.min] of two numbers *)
Definition max (a b : num) : num :=
  match a, b with
  | NaN, _ | _, NaN => NaN
  | _, _ => if lt a b then b else a
  end.

Definition min (a b : num) : num :=
  match a, b with
  | NaN, _ | _, NaN => NaN
  | _, _ => if lt b a then b else a
  end.

(** [Math.max(...xs)] and [Math.min(...xs)] *)
Definition max_list (xs : list num) : num := fold_left max xs NInf.
Definition min_list (xs : list num) : num := fold_left min xs PInf.

(** ToBoolean on a number: [0] and [NaN] are falsy. *)
Definition truthy (a : num) : bool :=
  match a with
  | Fin x => negb (Qeq_bool x 0)
  | PInf | NInf => true
  | NaN => false
  end.

Definition is_finite (a : num) : bool :=
  match a with Fin _ => true | _ => false end.

(** ToNumber on a possibly [undefined] value *)
Definition unum (o : option num) : num :=
  match o with Some x => x | None => NaN end.

(** [a || b] where [a] may be [undefined] *)
Definition or_else (a : option num) (b : num) : num :=
  match a with
  | Some x => if truthy x then x else b
  | None => b
  end.

(** ToBoolean on a possibly [undefined] number *)
Definition otruthy (a : option num) : bool :=
  match a with Some x => truthy x | None => false end.

(** Comparison of possibly [undefined] operands ([undefined] becomes [NaN]). *)
Definition ogt (a b : option num) : bool := gt (unum a) (unum b).
Definition olt (a b : option num) : bool := lt (unum a) (unum b).

(** [xs.reduce((sum, v) => sum + v, 0)] *)
Definition sum (xs : list num) : num := fold_left add xs zero.

(** The same value: equal rationals, or the same special value. *)
Definition same (a b : num) : Prop :=
  match a, b with
  | Fin x, Fin y => x == y
  | PInf, PInf | NInf, NInf | NaN, NaN => True
  | _, _ => False
  end.

End JsNum.

Import JsNum.

Declare Scope num_scope.
Delimit Scope num_scope with num.
Bind Scope num_scope with num.
Infix "+" := add : num_scope.
Infix "-" := sub : num_scope.
Infix "*" := mul : num_scope.
Infix "/" := div : num_scope.
Infix "<?" := lt : num_scope.
Infix "<=?" := le : num_scope.
Infix ">?" := gt : num_scope.
Infix ">=?" := ge : num_scope.
Infix "=~=" := same (at level 70, no associativity) : num_scope.


Local Open Scope string_scope.
Local Open Scope list_scope.
Local Open Scope num_scope.

(** ** Data model (lib/types.ts) *)

Inductive Timeframe : Type :=
| TF_1m | TF_5m | TF_15m | TF_30m | TF_1h | TF_4h | TF_1d | TF_1w.

Inductive MarketRegime : Type := TRENDING | RANGING | VOLATILE.

(** One OHLCV candle; [timestamp] is a millisecond epoch. *)
Record MarketData : Type := mkMarketData {
  symbol : string;
  timestamp : Z;
  open : num;
  high : num;
  low : num;
  close : num;
  volume : num;
  timeframe : Timeframe
}.

Inductive TradeSignal : Type := LONG | SHORT | NEUTRAL.

Inductive Style : Type := TREND | MEAN_REVERSION | BREAKOUT.

Inductive StopLossType : Type := SL_atr | SL_percentage.

Record BackTestMetrics : Type := mkBackTestMetrics {
  bt_winRate : num;
  bt_expectancy : num;
  bt_trades : nat;
  bt_avgWin : num;
  bt_avgLoss : num
}.

Record StrategyConfig : Type := mkStrategyConfig {
  id : string;
  name : string;
  style : Style;
  riskPerTrade : num;
  takeProfitRatio : num;
  stopLossType : StopLossType;
  primary : list string;
  confirmation : list string;
  suitableRegimes : list MarketRegime;
  backTestResult : option BackTestMetrics
}.

Inductive Side : Type := long | short.

Record Trade : Type := mkTrade {
  entryTime : Z;
  entryPrice : num;
  exitTime : Z;
  exitPrice : num;
  type : Side;
  pnl : num;
  pnlPercentage : num;
  exitReason : string
}.

Record BacktestResult : Type := mkBacktestResult {
  initialCapital : num;
  finalCapital : num;
  totalPnL : num;
  totalPnLPercentage : num;
  trades : list Trade;
  winRate : num;
  averageWin : num;
  averageLoss : num;
  profitFactor : num;
  maxDrawdown : num;
  sharpeRatio : num;
  equity : list num;
  drawdowns : list num;
  strategyId : string;
  strategyName : string;
  startTime : Z;
  endTime : Z;
  res_symbol : string;
  res_timeframe : Timeframe
}.

(** The outcome of an [async] function: the promise resolves with a value
    or rejects with the thrown error. *)
Inductive result (A : Type) : Type :=
| Ok (a : A)
| Throw (msg : string).
Arguments Ok {A} a.
Arguments Throw {A} msg.

Definition bind {A B : Type} (r : result A) (k : A -> result B) : result B :=
  match r with
  | Ok a => k a
  | Throw m => Throw m
  end.

Notation "'await' x <- r ;; k" := (bind r (fun x => k))
  (at level 61, x name, r at next level, right associativity).

(** ** The indicator bag

    [calculateIndicators] returns an untyped object; a key that is not set
    reads as [undefined], here [None]. *)

Record Macd : Type := mkMacd { line : num; signal : num; histogram : num }.
Record Bands : Type := mkBands { upper : num; middle : num; lower : num }.
Record Stoch : Type := mkStoch { k : num; d : num }.

Record Indicators : Type := mkIndicators {
  price : option num;
  priceChange : option num;
  volatility : option num;
  sma50 : option num;
  ema20 : option num;
  adx : option num;
  macd : option Macd;
  bollinger : option Bands;
  rsi : option num;
  stochastic : option Stoch;
  atr : option num;
  donchian : option Bands;
  volumeChange : option num
}.

(** ** External collaborators

    The [technicalindicators] package is not part of the repository.  Each
    [X.calculate] is a function of its input object; [None] stands for a
    call that throws (every call site is wrapped in [try]/[catch]).  The
    element types are those the call sites declare. *)

Record MacdOutput : Type := mkMacdOutput {
  out_MACD : num; out_signal : num; out_histogram : num
}.

Class TechnicalIndicators : Type := {
  SMA : nat -> list num -> option (list num);
  EMA : nat -> list num -> option (list num);
  RSI : nat -> list num -> option (list num);
  MACD : nat -> nat -> nat -> list num -> option (list MacdOutput);
  BollingerBands : nat -> list num -> num -> option (list Bands);
  ATR : list num -> list num -> list num -> nat -> option (list num);
  ADX : list num -> list num -> list num -> nat -> option (list num);
  Stochastic : list num -> list num -> list num -> nat -> nat -> option (list Stoch)
}.

(** [Math.sqrt].  Exact arithmetic has no square root, so the function is
    left open; all that is fixed is that it propagates [NaN]. *)
Class JsMath : Type := {
  sqrt : num -> num;
  sqrt_NaN : sqrt NaN = NaN
}.

(** ** Array helpers *)

(** [xs[xs.length - 1]] *)
Definition last_opt {A : Type} (xs : list A) : option A :=
  match rev xs with
  | [] => None
  | x :: _ => Some x
  end.

(** The index a negative bound [-n] of [slice] stands for: [-0] is [0],
    the start of the array. *)
Definition fromEnd {A : Type} (n : nat) (xs : list A) : nat :=
  match n with
  | O => 0
  | S _ => length xs - n
  end.

(** [xs.slice(-n)] *)
Definition slice_last {A : Type} (n : nat) (xs : list A) : list A :=
  skipn (fromEnd n xs) xs.

(** [xs.slice(-m, -n)] *)
Definition slice_between {A : Type} (m n : nat) (xs : list A) : list A :=
  firstn (fromEnd n xs - fromEnd m xs) (skipn (fromEnd m xs) xs).

(** The per-step returns [(xs[i] - xs[i-1]) / xs[i-1]] for [i = 1 ..]. *)
Fixpoint stepReturns (xs : list num) : list num :=
  match xs with
  | a :: (b :: _) as rest => ((b - a) / a) :: stepReturns rest
  | _ => []
  end.

(** [Math.pow(x, 2)] *)
Definition sq (x : num) : num := x * x.

(** [xs.reduce((sum, v) => sum + Math.pow(v - mean, 2), 0)] *)
Definition sumSqDev (mean : num) (xs : list num) : num :=
  fold_left (fun acc v => acc + sq (v - mean)) xs zero.

Definition style_eqb (a b : Style) : bool :=
  match a, b with
  | TREND, TREND | MEAN_REVERSION, MEAN_REVERSION | BREAKOUT, BREAKOUT => true
  | _, _ => false
  end.

(** ** IndicatorService (lib/trading/indicators.ts) *)

Section IndicatorService.

Context {TI : TechnicalIndicators} {JM : JsMath}.

(** [result.length > 0 ? result[result.length - 1] : dflt], and [dflt] when
    the library call throws. *)
Definition latestOr {A : Type} (dflt : A) (r : option (list A)) : A :=
  match r with
  | Some res => match last_opt res with Some x => x | None => dflt end
  | None => dflt
  end.

Definition calculatePriceChange (closes : list num) : num :=
  if (length closes <? 2)%nat then zero
  else
    let oldPrice :=
      if (length closes <? 25)%nat then NaN
      else unum (nth_error closes (length closes - 25)) in
    let newPrice := unum (last_opt closes) in
    ((newPrice - oldPrice) / oldPrice) * Fin 100.

Definition calculateVolatility (closes : list num) : num :=
  if (length closes <? 20)%nat then zero
  else
    let returns := stepReturns closes in
    let mean := sum returns / of_nat (length returns) in
    let variance := sumSqDev mean returns / of_nat (length returns) in
    sqrt variance * Fin 100 * sqrt (Fin 24).

Definition calculateSMA (values : list num) (period : nat) : num :=
  latestOr zero (SMA period values).

Definition calculateEMA (values : list num) (period : nat) : num :=
  latestOr zero (EMA period values).

Definition calculateRSI (values : list num) (period : nat) : num :=
  latestOr (Fin 50) (RSI period values).

Definition calculateMACD (values : list num) : Macd :=
  match MACD 12 26 9 values with
  | Some res =>
      match last_opt res with
      | Some latest =>
          mkMacd (out_MACD latest) (out_signal latest) (out_histogram latest)
      | None => mkMacd zero zero zero
      end
  | None => mkMacd zero zero zero
  end.

Definition calculateBollingerBands (values : list num) (period : nat)
    (stdDev : num) : Bands :=
  let avg :=
    if (0 <? length values)%nat then sum values / of_nat (length values)
    else zero in
  let dflt := mkBands (avg * Fin 1.02) avg (avg * Fin 0.98) in
  match BollingerBands period values stdDev with
  | Some res =>
      match last_opt res with
      | Some latest => mkBands (upper latest) (middle latest) (lower latest)
      | None => dflt
      end
  | None => dflt
  end.

Definition calculateATR (highs lows closes : list num) (period : nat) : num :=
  latestOr zero (ATR highs lows closes period).

Definition calculateADX (highs lows closes : list num) (period : nat) : num :=
  latestOr zero (ADX highs lows closes period).

Definition calculateStochastic (highs lows closes : list num)
    (period signalPeriod : nat) : Stoch :=
  match Stochastic highs lows closes period signalPeriod with
  | Some res =>
      match last_opt res with
      | Some latest => mkStoch (k latest) (d latest)
      | None => mkStoch (Fin 50) (Fin 50)
      end
  | None => mkStoch (Fin 50) (Fin 50)
  end.

Definition calculateDonchianChannels (highs lows : list num) (period : nat)
    : Bands :=
  if ((length highs <? period) || (length lows <? period))%nat then
    mkBands zero zero zero
  else
    let highsSlice := slice_last period highs in
    let lowsSlice := slice_last period lows in
    let upper := max_list highsSlice in
    let lower := min_list lowsSlice in
    let middle := (upper + lower) / Fin 2 in
    mkBands upper middle lower.

Definition calculateVolumeChange (volumes : list num) : num :=
  if (length volumes <? 20)%nat then zero
  else
    let recentAvg := calculateSMA (slice_last 5 volumes) 5 in
    let previousAvg := calculateSMA (slice_between 20 5 volumes) 15 in
    if previousAvg >? zero
    then ((recentAvg - previousAvg) / previousAvg) * Fin 100
    else zero.

Definition calculateIndicators (data : list MarketData)
    (strategy : StrategyConfig) : Indicators :=
  if (length data <? 50)%nat then
    {| price := Some (match last_opt data with
                      | Some c => close c
                      | None => zero
                      end);
       priceChange := None; volatility := None;
       sma50 := None; ema20 := None; adx := None; macd := None;
       bollinger := None; rsi := None; stochastic := None;
       atr := None; donchian := None; volumeChange := None |}
  else
    let closes := map close data in
    let highs := map high data in
    let lows := map low data in
    let volumes := map volume data in
    let when (st : Style) {A : Type} (v : A) : option A :=
      if style_eqb (style strategy) st then Some v else None in
    {| price := last_opt closes;
       priceChange := Some (calculatePriceChange closes);
       volatility := Some (calculateVolatility closes);
       sma50 := when TREND (calculateSMA closes 50);
       ema20 := when TREND (calculateEMA closes 20);
       adx := when TREND (calculateADX highs lows closes 14);
       macd := when TREND (calculateMACD closes);
       bollinger :=
         when MEAN_REVERSION (calculateBollingerBands closes 20 (Fin 2));
       rsi := when MEAN_REVERSION (calculateRSI closes 14);
       stochastic :=
         when MEAN_REVERSION (calculateStochastic highs lows closes 14 3);
       atr := when BREAKOUT (calculateATR highs lows closes 14);
       donchian := when BREAKOUT (calculateDonchianChannels highs lows 20);
       volumeChange := when BREAKOUT (calculateVolumeChange volumes) |}.

End IndicatorService.

(** ** BacktestingEngine (lib/trading-agent-integration.ts) *)

(** The default of the [initialCapital] parameter. *)
Definition defaultInitialCapital : num := Fin 10000.

Definition generateTrendSignal (candle : MarketData) (indicators : Indicators)
    : TradeSignal :=
  if otruthy (ema20 indicators) && otruthy (sma50 indicators) then
    match macd indicators with
    | Some m =>
        if ogt (ema20 indicators) (sma50 indicators)
           && (histogram m >? zero)
           && ogt (adx indicators) (Some (Fin 25))
        then LONG
        else if olt (ema20 indicators) (sma50 indicators)
                && (histogram m <? zero)
                && ogt (adx indicators) (Some (Fin 25))
        then SHORT
        else NEUTRAL
    | None => NEUTRAL
    end
  else NEUTRAL.

Definition generateMeanReversionSignal (candle : MarketData)
    (indicators : Indicators) : TradeSignal :=
  if otruthy (rsi indicators) then
    match bollinger indicators with
    | Some b =>
        if olt (rsi indicators) (Some (Fin 30))
           && (close candle <? lower b * Fin 1.01)
        then LONG
        else if ogt (rsi indicators) (Some (Fin 70))
                && (close candle >? upper b * Fin 0.99)
        then SHORT
        else NEUTRAL
    | None => NEUTRAL
    end
  else NEUTRAL.

Definition generateBreakoutSignal (candle : MarketData)
    (indicators : Indicators) : TradeSignal :=
  match donchian indicators with
  | Some dc =>
      if otruthy (volumeChange indicators) then
        if (close candle >? upper dc)
           && ogt (volumeChange indicators) (Some (Fin 20))
        then LONG
        else if (close candle <? lower dc)
                && ogt (volumeChange indicators) (Some (Fin 20))
        then SHORT
        else NEUTRAL
      else NEUTRAL
  | None => NEUTRAL
  end.

Definition generateSignal (candle : MarketData) (indicators : Indicators)
    (strategy : StrategyConfig) : TradeSignal :=
  match style strategy with
  | TREND => generateTrendSignal candle indicators
  | MEAN_REVERSION => generateMeanReversionSignal candle indicators
  | BREAKOUT => generateBreakoutSignal candle indicators
  end.

(** The mutable locals of [runBacktest]. *)
Record BtState : Type := mkBtState {
  st_trades : list Trade;
  st_capital : num;
  st_position : option Side;
  st_entryPrice : num;
  st_entryTime : Z;
  st_positionSize : num;
  st_stopLoss : num;
  st_takeProfit : num;
  st_equity : list num;
  st_drawdowns : list num;
  st_maxEquity : num;
  st_maxDrawdown : num
}.

Definition initState (initialCapital : num) : BtState :=
  {| st_trades := []; st_capital := initialCapital; st_position := None;
     st_entryPrice := zero; st_entryTime := 0%Z; st_positionSize := zero;
     st_stopLoss := zero; st_takeProfit := zero;
     st_equity := [initialCapital]; st_drawdowns := [zero];
     st_maxEquity := initialCapital; st_maxDrawdown := zero |}.

Definition side_eqb (a b : Side) : bool :=
  match a, b with
  | long, long | short, short => true
  | _, _ => false
  end.

Definition signal_eqb (a b : TradeSignal) : bool :=
  match a, b with
  | LONG, LONG | SHORT, SHORT | NEUTRAL, NEUTRAL => true
  | _, _ => false
  end.

(** ToBoolean on a string: only the empty string is falsy. *)
Definition nonEmpty (s : string) : bool := negb (String.eqb s EmptyString).

(** The volatility proxy of an entry: [indicators.atr || high - low]. *)
Definition atrValueOf (indicators : Indicators) (currentCandle : MarketData)
    : num :=
  or_else (atr indicators) (high currentCandle - low currentCandle).

Section Entry.

Variable strategy : StrategyConfig.

(** Stop, target and size of a new position (the entry branch). *)
Definition entryStopLoss (signal : TradeSignal) (atrValue : num)
    (currentCandle : MarketData) : num :=
  if signal_eqb signal LONG
  then close currentCandle - atrValue * Fin 2
  else close currentCandle + atrValue * Fin 2.

Definition entryTakeProfit (signal : TradeSignal) (atrValue : num)
    (currentCandle : MarketData) : num :=
  if signal_eqb signal LONG
  then close currentCandle + atrValue * Fin 2 * takeProfitRatio strategy
  else close currentCandle - atrValue * Fin 2 * takeProfitRatio strategy.

Definition riskPerUnitOf (signal : TradeSignal) (atrValue : num)
    (currentCandle : MarketData) : num :=
  abs (close currentCandle - entryStopLoss signal atrValue currentCandle).

Definition entryPositionSize (capital : num) (signal : TradeSignal)
    (atrValue : num) (currentCandle : MarketData) : num :=
  let riskAmount := capital * riskPerTrade strategy in
  riskAmount / riskPerUnitOf signal atrValue currentCandle.

Definition enterPosition (st : BtState) (signal : TradeSignal)
    (indicators : Indicators) (currentCandle : MarketData) : BtState :=
  let atrValue := atrValueOf indicators currentCandle in
  {| st_trades := st_trades st;
     st_capital := st_capital st;
     st_position := Some (if signal_eqb signal LONG then long else short);
     st_entryPrice := close currentCandle;
     st_entryTime := timestamp currentCandle;
     st_positionSize :=
       entryPositionSize (st_capital st) signal atrValue currentCandle;
     st_stopLoss := entryStopLoss signal atrValue currentCandle;
     st_takeProfit := entryTakeProfit signal atrValue currentCandle;
     st_equity := st_equity st; st_drawdowns := st_drawdowns st;
     st_maxEquity := st_maxEquity st; st_maxDrawdown := st_maxDrawdown st |}.

End Entry.

(** The exit checks, in priority order; the result is [(exitReason, pnl)]
    with the empty [exitReason] when no exit applies. *)
Definition exitCheck (st : BtState) (position : Side) (signal : TradeSignal)
    (currentPrice : num) : string * num :=
  let isLong := side_eqb position long in
  let isShort := side_eqb position short in
  if (isLong && (currentPrice <=? st_stopLoss st))
     || (isShort && (currentPrice >=? st_stopLoss st))
  then ("Stop Loss",
        if isLong then st_stopLoss st - st_entryPrice st
        else st_entryPrice st - st_stopLoss st)
  else if (isLong && (currentPrice >=? st_takeProfit st))
          || (isShort && (currentPrice <=? st_takeProfit st))
  then ("Take Profit",
        if isLong then st_takeProfit st - st_entryPrice st
        else st_entryPrice st - st_takeProfit st)
  else if (isLong && signal_eqb signal SHORT)
          || (isShort && signal_eqb signal LONG)
  then ("Signal Reversal",
        if isLong then currentPrice - st_entryPrice st
        else st_entryPrice st - currentPrice)
  else (EmptyString, zero).

Definition closedTrade (st : BtState) (position : Side) (exitReason : string)
    (currentCandle : MarketData) (pnlAmount : num) : Trade :=
  let currentPrice := close currentCandle in
  {| entryTime := st_entryTime st;
     entryPrice := st_entryPrice st;
     exitTime := timestamp currentCandle;
     exitPrice :=
       if side_eqb position long then
         if String.eqb exitReason "Stop Loss" then st_stopLoss st
         else if String.eqb exitReason "Take Profit" then st_takeProfit st
         else currentPrice
       else
         if String.eqb exitReason "Stop Loss" then st_stopLoss st
         else if String.eqb exitReason "Take Profit" then st_takeProfit st
         else currentPrice;
     type := position;
     pnl := pnlAmount;
     pnlPercentage :=
       (pnlAmount / (st_entryPrice st * st_positionSize st)) * Fin 100;
     exitReason := exitReason |}.

Definition managePosition (st : BtState) (position : Side)
    (signal : TradeSignal) (currentCandle : MarketData) : BtState :=
  let '(exitReason, pnl) := exitCheck st position signal (close currentCandle) in
  if nonEmpty exitReason then
    let pnlAmount := pnl * st_positionSize st in
    {| st_trades :=
         st_trades st
           ++ [closedTrade st position exitReason currentCandle pnlAmount];
       st_capital := st_capital st + pnlAmount;
       st_position := None;
       st_entryPrice := zero; st_entryTime := 0%Z; st_positionSize := zero;
       st_stopLoss := zero; st_takeProfit := zero;
       st_equity := st_equity st; st_drawdowns := st_drawdowns st;
       st_maxEquity := st_maxEquity st; st_maxDrawdown := st_maxDrawdown st |}
  else st.

(** [equity.push(capital)] and the drawdown bookkeeping that ends every
    iteration. *)
Definition trackEquity (st : BtState) : BtState :=
  let capital := st_capital st in
  let maxEquity := max (st_maxEquity st) capital in
  let currentDrawdown := ((maxEquity - capital) / maxEquity) * Fin 100 in
  {| st_trades := st_trades st; st_capital := capital;
     st_position := st_position st;
     st_entryPrice := st_entryPrice st; st_entryTime := st_entryTime st;
     st_positionSize := st_positionSize st;
     st_stopLoss := st_stopLoss st; st_takeProfit := st_takeProfit st;
     st_equity := st_equity st ++ [capital];
     st_drawdowns := st_drawdowns st ++ [currentDrawdown];
     st_maxEquity := maxEquity;
     st_maxDrawdown := max (st_maxDrawdown st) currentDrawdown |}.

(** The forced close after the loop. *)
Definition closeAtEnd (st : BtState) (lastCandle : MarketData) : BtState :=
  match st_position st with
  | Some position =>
      let pnl :=
        if side_eqb position long
        then close lastCandle - st_entryPrice st
        else st_entryPrice st - close lastCandle in
      let pnlAmount := pnl * st_positionSize st in
      {| st_trades :=
           st_trades st
             ++ [ {| entryTime := st_entryTime st;
                     entryPrice := st_entryPrice st;
                     exitTime := timestamp lastCandle;
                     exitPrice := close lastCandle;
                     type := position;
                     pnl := pnlAmount;
                     pnlPercentage :=
                       (pnlAmount / (st_entryPrice st * st_positionSize st))
                       * Fin 100;
                     exitReason := "End of Test" |} ];
         st_capital := st_capital st + pnlAmount;
         st_position := st_position st;
         st_entryPrice := st_entryPrice st; st_entryTime := st_entryTime st;
         st_positionSize := st_positionSize st;
         st_stopLoss := st_stopLoss st; st_takeProfit := st_takeProfit st;
         st_equity := st_equity st; st_drawdowns := st_drawdowns st;
         st_maxEquity := st_maxEquity st;
         st_maxDrawdown := st_maxDrawdown st |}
  | None => st
  end.

(** [trades.reduce((sum, trade) => sum + trade.pnl, 0)] *)
Definition sumPnl (ts : list Trade) : num :=
  fold_left (fun acc trade => acc + pnl trade) ts zero.

Section BacktestingEngine.

Context {TI : TechnicalIndicators} {JM : JsMath}.

Variable marketData : list MarketData.
Variable strategy : StrategyConfig.

(** The body of the loop for candle [i]. *)
Definition processCandle (i : nat) (currentCandle : MarketData)
    (st : BtState) : BtState :=
  let previousCandles := firstn (i + 1) marketData in
  let indicators := calculateIndicators previousCandles strategy in
  let signal := generateSignal currentCandle indicators strategy in
  let st' :=
    match st_position st with
    | None =>
        if signal_eqb signal LONG || signal_eqb signal SHORT
        then enterPosition strategy st signal indicators currentCandle
        else st
    | Some position => managePosition st position signal currentCandle
    end in
  trackEquity st'.

(** [for (let i = start; i < marketData.length; i++)], with [remaining]
    the candles from index [i] on. *)
Fixpoint simulate (i : nat) (remaining : list MarketData) (st : BtState)
    : BtState :=
  match remaining with
  | [] => st
  | currentCandle :: rest =>
      simulate (S i) rest (processCandle i currentCandle st)
  end.

Definition runBacktest (initialCapital : num) : result BacktestResult :=
  if (length marketData <? 50)%nat then
    Throw "Not enough data for backtesting. Need at least 50 candles."
  else
    match marketData, last_opt marketData with
    | firstCandle :: _, Some lastCandle =>
        let looped :=
          simulate 50 (skipn 50 marketData) (initState initialCapital) in
        let final := closeAtEnd looped lastCandle in
        let trades := st_trades final in
        let capital := st_capital final in
        let equity := st_equity final in
        let winningTrades := filter (fun t => pnl t >? zero) trades in
        let losingTrades := filter (fun t => pnl t <=? zero) trades in
        let totalPnL := sumPnl trades in
        let winRate := of_nat (length winningTrades) / of_nat (length trades) in
        let averageWin :=
          if (0 <? length winningTrades)%nat
          then sumPnl winningTrades / of_nat (length winningTrades)
          else zero in
        let averageLoss :=
          if (0 <? length losingTrades)%nat
          then sumPnl losingTrades / of_nat (length losingTrades)
          else zero in
        let profitFactor :=
          if strict_neq averageLoss zero
          then abs (averageWin / averageLoss)
          else zero in
        let returns := stepReturns equity in
        let averageReturn := sum returns / of_nat (length returns) in
        let stdDeviation :=
          sqrt (sumSqDev averageReturn returns / of_nat (length returns)) in
        let sharpeRatio :=
          if strict_neq stdDeviation zero
          then (averageReturn / stdDeviation) * sqrt (Fin 252)
          else zero in
        Ok {| initialCapital := initialCapital;
              finalCapital := capital;
              totalPnL := totalPnL;
              totalPnLPercentage := (totalPnL / initialCapital) * Fin 100;
              trades := trades;
              winRate := winRate;
              averageWin := averageWin;
              averageLoss := averageLoss;
              profitFactor := profitFactor;
              maxDrawdown := st_maxDrawdown final;
              sharpeRatio := sharpeRatio;
              equity := equity;
              drawdowns := st_drawdowns final;
              strategyId := id strategy;
              strategyName := name strategy;
              startTime := timestamp firstCandle;
              endTime := timestamp lastCandle;
              res_symbol := symbol firstCandle;
              res_timeframe := timeframe firstCandle |}
    | _, _ => Throw "TypeError: Cannot read properties of undefined"
    end.

End BacktestingEngine.

(** ** StrategyEngine: validation of candidate strategies *)

(** [Array.prototype.sort] with a comparator: a stable insertion sort; an
    element moves behind another only when the comparator is positive. *)
Section Sort.

Variable A : Type.
Variable compare : A -> A -> num.

Fixpoint insertSorted (x : A) (sorted : list A) : list A :=
  match sorted with
  | [] => [x]
  | y :: rest =>
      if compare x y >? zero then y :: insertSorted x rest
      else x :: sorted
  end.

Definition sortBy (xs : list A) : list A :=
  fold_right insertSorted [] xs.

End Sort.

(** The counters of the quick backtest. *)
Record Tally : Type := mkTally {
  wins : nat;
  losses : nat;
  totalProfit : num;
  totalLoss : num
}.

Definition generateSignalFromIndicators (strategy : StrategyConfig)
    (indicators : Indicators) : TradeSignal :=
  match style strategy with
  | TREND =>
      if ogt (ema20 indicators) (sma50 indicators) then LONG
      else if olt (ema20 indicators) (sma50 indicators) then SHORT
      else NEUTRAL
  | MEAN_REVERSION =>
      if olt (rsi indicators) (Some (Fin 30)) then LONG
      else if ogt (rsi indicators) (Some (Fin 70)) then SHORT
      else NEUTRAL
  | BREAKOUT =>
      let price := price indicators in
      if ogt price (option_map upper (donchian indicators)) then LONG
      else if olt price (option_map lower (donchian indicators)) then SHORT
      else NEUTRAL
  end.

(** [{ ...strategy, backTestResult }] *)
Definition withBackTestResult (strategy : StrategyConfig)
    (backTestResult : BackTestMetrics) : StrategyConfig :=
  {| id := id strategy; name := name strategy; style := style strategy;
     riskPerTrade := riskPerTrade strategy;
     takeProfitRatio := takeProfitRatio strategy;
     stopLossType := stopLossType strategy;
     primary := primary strategy; confirmation := confirmation strategy;
     suitableRegimes := suitableRegimes strategy;
     backTestResult := Some backTestResult |}.

(** [s.backTestResult?.expectancy || 0] *)
Definition expectancyOrZero (s : StrategyConfig) : num :=
  or_else (option_map bt_expectancy (backTestResult s)) zero.

Definition byExpectancy (a b : StrategyConfig) : num :=
  expectancyOrZero b - expectancyOrZero a.

Section StrategyEngine.

Context {TI : TechnicalIndicators} {JM : JsMath}.

Section Backtest.

Variable strategy : StrategyConfig.
Variable testingData : list MarketData.

(** The body of the scoring loop: the signal at [i] against the move from
    [testingData[i]] to [testingData[i + 1]]. *)
Definition scoreCandle (i : nat) (current next : MarketData) (t : Tally)
    : Tally :=
  let dataSlice := firstn i testingData in
  let indicators := calculateIndicators dataSlice strategy in
  let signal := generateSignalFromIndicators strategy indicators in
  if signal_eqb signal LONG && (close next >? close current) then
    {| wins := S (wins t); losses := losses t;
       totalProfit :=
         totalProfit t + (close next - close current) / close current;
       totalLoss := totalLoss t |}
  else if signal_eqb signal SHORT && (close next <? close current) then
    {| wins := S (wins t); losses := losses t;
       totalProfit :=
         totalProfit t + (close current - close next) / close current;
       totalLoss := totalLoss t |}
  else if negb (signal_eqb signal NEUTRAL) then
    {| wins := wins t; losses := S (losses t);
       totalProfit := totalProfit t;
       totalLoss :=
         totalLoss t + abs ((close next - close current) / close current) |}
  else t.

(** [for (let i = start; i < testingData.length - 1; i++)], with
    [remaining] the candles from index [i] on. *)
Fixpoint score (i : nat) (remaining : list MarketData) (t : Tally) : Tally :=
  match remaining with
  | current :: (next :: _) as rest =>
      score (S i) rest (scoreCandle i current next t)
  | _ => t
  end.

End Backtest.

(** A positive integer rounded to 53 significant bits, ties to even: the
    significand the nearest double keeps. *)
Definition round53 (m : Z) : Z :=
  if (m <? 2 ^ 53)%Z then m
  else
    let shift := (Z.log2 m - 52)%Z in
    let q := Z.shiftr m shift in
    let r := (m - Z.shiftl q shift)%Z in
    let half := Z.shiftl 1 (shift - 1) in
    let up := (half <? r)%Z || ((r =? half)%Z && Z.odd q) in
    Z.shiftl (if up then q + 1 else q)%Z shift.

(** [Math.floor(n * 0.7)].  The literal [0.7] is the double
    [6305039478318694 / 2^53]; the product is rounded to the nearest double
    before it is floored, so that 170 gives 118 and not 119. *)
Definition splitPoint (n : nat) : nat :=
  Z.to_nat (Z.shiftr (round53 (Z.of_nat n * 6305039478318694)) 53).

Definition backtest (strategy : StrategyConfig) (marketData : list MarketData)
    : result BackTestMetrics :=
  let testingData := skipn (splitPoint (length marketData)) marketData in
  let t := score strategy testingData 50 (skipn 50 testingData)
             (mkTally 0 0 zero zero) in
  let winRate :=
    or_else (Some (of_nat (wins t) / of_nat (wins t + losses t))) zero in
  let avgWin :=
    if (0 <? wins t)%nat then totalProfit t / of_nat (wins t) else zero in
  let avgLoss :=
    if (0 <? losses t)%nat then totalLoss t / of_nat (losses t) else zero in
  let expectancy := winRate * avgWin - (Fin 1 - winRate) * avgLoss in
  Ok {| bt_winRate := winRate;
        bt_expectancy := expectancy;
        bt_trades := (wins t + losses t)%nat;
        bt_avgWin := avgWin;
        bt_avgLoss := avgLoss |}.

(** [for (const strategy of strategies)], accumulating the kept ones. *)
Fixpoint validateEach (marketData : list MarketData)
    (strategies validatedStrategies : list StrategyConfig)
    : result (list StrategyConfig) :=
  match strategies with
  | [] => Ok validatedStrategies
  | strategy :: rest =>
      await backTestResult <- backtest strategy marketData ;;
      if bt_expectancy backTestResult >? zero
      then validateEach marketData rest
             (validatedStrategies
                ++ [withBackTestResult strategy backTestResult])
      else validateEach marketData rest validatedStrategies
  end.

Definition validateStrategies (symbol : string) (marketData : list MarketData)
    (timeframe : Timeframe) (strategies : list StrategyConfig)
    : result (list StrategyConfig) :=
  if (length marketData <? 100)%nat then Ok strategies
  else
    await validatedStrategies <- validateEach marketData strategies [] ;;
    Ok (sortBy byExpectancy validatedStrategies).

End StrategyEngine.

(** ** StrategyEngine: market regime and the strategy list *)

Definition regime_eqb (a b : MarketRegime) : bool :=
  match a, b with
  | TRENDING, TRENDING | RANGING, RANGING | VOLATILE, VOLATILE => true
  | _, _ => false
  end.

(** [regimes.includes(regime)] *)
Definition includes (regime : MarketRegime) (regimes : list MarketRegime)
    : bool :=
  existsb (regime_eqb regime) regimes.

(** The [upMoves] and [downMoves] arrays of [calculateTrendStrength]. *)
Fixpoint upMovesOf (closes : list num) : list num :=
  match closes with
  | a :: (b :: _) as rest =>
      (let diff := b - a in if diff >? zero then diff else zero)
      :: upMovesOf rest
  | _ => []
  end.

Fixpoint downMovesOf (closes : list num) : list num :=
  match closes with
  | a :: (b :: _) as rest =>
      (let diff := b - a in if diff <? zero then abs diff else zero)
      :: downMovesOf rest
  | _ => []
  end.

Module Regime.

(** The volatility of the strategy engine: the standard deviation of the
    step returns, in percent. *)
Definition calculateVolatility {JM : JsMath} (closes : list num) : num :=
  if (length closes <? 20)%nat then zero
  else
    let returns := stepReturns closes in
    let mean := sum returns / of_nat (length returns) in
    let variance := sumSqDev mean returns / of_nat (length returns) in
    sqrt variance * Fin 100.

Definition calculateTrendStrength (closes : list num) : num :=
  let period := 14%nat in
  if (length closes <? period * 2)%nat then zero
  else
    let upMoves := upMovesOf closes in
    let downMoves := downMovesOf closes in
    let avgUp := sum (slice_last period upMoves) / of_nat period in
    let avgDown := sum (slice_last period downMoves) / of_nat period in
    if strict_eq avgDown zero then Fin 100
    else
      let rs := avgUp / avgDown in
      let rsi := Fin 100 - Fin 100 / (Fin 1 + rs) in
      abs (rsi - Fin 50) * Fin 2.

Definition calculateVolumeTrend (volumes : list num) : num :=
  if (length volumes <? 20)%nat then zero
  else
    let recentAvg := sum (slice_last 5 volumes) / Fin 5 in
    let previousAvg := sum (slice_between 20 5 volumes) / Fin 15 in
    ((recentAvg - previousAvg) / previousAvg) * Fin 100.

Definition detectMarketRegime {JM : JsMath} (marketData : list MarketData)
    : MarketRegime :=
  if (length marketData <? 50)%nat then RANGING
  else
    let closes := map close marketData in
    let volumes := map volume marketData in
    let volatility := calculateVolatility closes in
    let trendStrength := calculateTrendStrength closes in
    let volumeTrend := calculateVolumeTrend volumes in
    if (trendStrength >? Fin 25) && (volatility <? Fin 2.5) then TRENDING
    else if (volatility >? Fin 3.5)
            || ((volumeTrend >? Fin 20) && (volatility >? Fin 2))
    then VOLATILE
    else RANGING.

(** [this.predefinedStrategies.filter(s => s.suitableRegimes.includes(regime))] *)
Definition getStrategiesForRegime (predefinedStrategies : list StrategyConfig)
    (regime : MarketRegime) : list StrategyConfig :=
  filter (fun strategy => includes regime (suitableRegimes strategy))
    predefinedStrategies.

Definition analyzeInstrument {TI : TechnicalIndicators} {JM : JsMath}
    (predefinedStrategies : list StrategyConfig)
    (symbol : string) (marketData : list MarketData) (timeframe : Timeframe)
    : result (list StrategyConfig) :=
  let marketRegime := detectMarketRegime marketData in
  let suitableStrategies :=
    getStrategiesForRegime predefinedStrategies marketRegime in
  await validatedStrategies <-
    validateStrategies symbol marketData timeframe suitableStrategies ;;
  Ok validatedStrategies.

(** The four presets. *)
Definition initializeStrategies : list StrategyConfig :=
  [ {| id := "trend-following"; name := "Trend Following"; style := TREND;
       riskPerTrade := Fin 0.01; takeProfitRatio := Fin 2.0;
       stopLossType := SL_atr;
       primary := ["ema20"; "sma50"; "macd"];
       confirmation := ["adx"; "volume"];
       suitableRegimes := [TRENDING]; backTestResult := None |};
    {| id := "mean-reversion"; name := "Mean Reversion";
       style := MEAN_REVERSION;
       riskPerTrade := Fin 0.01; takeProfitRatio := Fin 1.5;
       stopLossType := SL_percentage;
       primary := ["rsi"; "bollinger"];
       confirmation := ["stochastic"; "volume"];
       suitableRegimes := [RANGING]; backTestResult := None |};
    {| id := "breakout"; name := "Breakout"; style := BREAKOUT;
       riskPerTrade := Fin 0.015; takeProfitRatio := Fin 2.5;
       stopLossType := SL_atr;
       primary := ["donchian"; "atr"];
       confirmation := ["volume"; "adx"];
       suitableRegimes := [VOLATILE; TRENDING]; backTestResult := None |};
    {| id := "volatility-trend"; name := "Volatility Trend"; style := TREND;
       riskPerTrade := Fin 0.02; takeProfitRatio := Fin 1.8;
       stopLossType := SL_atr;
       primary := ["ema20"; "atr"];
       confirmation := ["macd"; "volume"];
       suitableRegimes := [VOLATILE]; backTestResult := None |} ].

End Regime.

(** ** StrategyEngine: editing the strategy list

    The engine holds the list of strategies and hands it to the storage
    service after each change.  The calls it makes are kept as a log. *)

Inductive StorageCall : Type :=
| SaveItem (key : string) (data : list StrategyConfig)
| RemoveItem (key : string).

Record Engine : Type := mkEngine {
  predefinedStrategies : list StrategyConfig;
  storageCalls : list StorageCall
}.

(** [Partial<StrategyConfig>]: a field is present or left out. *)
Record StrategyUpdates : Type := mkStrategyUpdates {
  u_id : option string;
  u_name : option string;
  u_style : option Style;
  u_riskPerTrade : option num;
  u_takeProfitRatio : option num;
  u_stopLossType : option StopLossType;
  u_indicators : option (list string * list string);
  u_suitableRegimes : option (list MarketRegime);
  u_backTestResult : option BackTestMetrics
}.

Definition orKeep {A : Type} (update : option A) (old : A) : A :=
  match update with Some v => v | None => old end.

(** [{ ...strategy, ...updates }] *)
Definition spread (strategy : StrategyConfig) (updates : StrategyUpdates)
    : StrategyConfig :=
  {| id := orKeep (u_id updates) (id strategy);
     name := orKeep (u_name updates) (name strategy);
     style := orKeep (u_style updates) (style strategy);
     riskPerTrade := orKeep (u_riskPerTrade updates) (riskPerTrade strategy);
     takeProfitRatio :=
       orKeep (u_takeProfitRatio updates) (takeProfitRatio strategy);
     stopLossType := orKeep (u_stopLossType updates) (stopLossType strategy);
     primary := orKeep (option_map fst (u_indicators updates))
                  (primary strategy);
     confirmation := orKeep (option_map snd (u_indicators updates))
                       (confirmation strategy);
     suitableRegimes :=
       orKeep (u_suitableRegimes updates) (suitableRegimes strategy);
     backTestResult :=
       match u_backTestResult updates with
       | Some m => Some m
       | None => backTestResult strategy
       end |}.

(** [xs.findIndex(p)]; [None] stands for [-1]. *)
Fixpoint findIndex {A : Type} (p : A -> bool) (xs : list A) : option nat :=
  match xs with
  | [] => None
  | x :: rest =>
      if p x then Some 0%nat else option_map S (findIndex p rest)
  end.

(** [xs[index] = x] for an index inside the array. *)
Fixpoint setAt {A : Type} (index : nat) (x : A) (xs : list A) : list A :=
  match xs, index with
  | [], _ => []
  | _ :: rest, O => x :: rest
  | y :: rest, S k => y :: setAt k x rest
  end.

Definition hasId (wanted : string) (s : StrategyConfig) : bool :=
  String.eqb (id s) wanted.

Definition saveStrategies (engine : Engine) : Engine :=
  {| predefinedStrategies := predefinedStrategies engine;
     storageCalls :=
       storageCalls engine
       ++ [SaveItem "strategies" (predefinedStrategies engine)] |}.

Definition updateStrategy (wanted : string) (updates : StrategyUpdates)
    (engine : Engine) : Engine :=
  match findIndex (hasId wanted) (predefinedStrategies engine) with
  | Some index =>
      match nth_error (predefinedStrategies engine) index with
      | Some old =>
          saveStrategies
            {| predefinedStrategies :=
                 setAt index (spread old updates)
                   (predefinedStrategies engine);
               storageCalls := storageCalls engine |}
      | None => engine
      end
  | None => engine
  end.

(** [createStrategy(name)]; [now] is [Date.now()] as the template literal
    prints it, and a [name] left out is "New Strategy". *)
Definition createStrategy (name : option string) (now : string)
    (engine : Engine) : StrategyConfig * Engine :=
  let newStrategy :=
    {| id := "strategy-" ++ now;
       name := match name with Some n => n | None => "New Strategy" end;
       style := TREND;
       riskPerTrade := Fin 0.01; takeProfitRatio := Fin 2.0;
       stopLossType := SL_atr;
       primary := ["ema20"; "sma50"];
       confirmation := ["adx"; "volume"];
       suitableRegimes := [TRENDING]; backTestResult := None |} in
  (newStrategy,
   saveStrategies
     {| predefinedStrategies := predefinedStrategies engine ++ [newStrategy];
        storageCalls := storageCalls engine |}).

Definition deleteStrategy (wanted : string) (engine : Engine)
    : bool * Engine :=
  let initialLength := length (predefinedStrategies engine) in
  let engine' :=
    {| predefinedStrategies :=
         filter (fun s => negb (hasId wanted s)) (predefinedStrategies engine);
       storageCalls := storageCalls engine |} in
  if (length (predefinedStrategies engine') <? initialLength)%nat
  then (true, saveStrategies engine')
  else (false, engine').

Definition getStrategies (engine : Engine) : list StrategyConfig :=
  predefinedStrategies engine.

Definition resetStrategiesToDefaults (engine : Engine) : Engine :=
  saveStrategies
    {| predefinedStrategies := Regime.initializeStrategies;
       storageCalls := storageCalls engine |}.

Definition clearStorageData (engine : Engine) : Engine :=
  {| predefinedStrategies := Regime.initializeStrategies;
     storageCalls := storageCalls engine ++ [RemoveItem "strategies"] |}.

(** ** LocalStorageService *)

(** [JSON.stringify] and [JSON.parse] on the values of one type; [None]
    stands for a thrown error. *)
Class Json (T : Type) : Type := {
  stringify : T -> option string;
  parse : string -> option T
}.

(** The entries of [localStorage], in the order [key(i)] lists them. *)
Definition Entries : Type := list (string * string).

(** [localStorage.getItem(key)]; [None] is [null]. *)
Fixpoint getEntry (key : string) (entries : Entries) : option string :=
  match entries with
  | [] => None
  | (k, v) :: rest => if String.eqb k key then Some v else getEntry key rest
  end.

(** [localStorage.removeItem(key)] *)
Definition removeEntry (key : string) (entries : Entries) : Entries :=
  filter (fun e => negb (String.eqb (fst e) key)) entries.

(** The entries after [localStorage.setItem(key, value)] went through. *)
Fixpoint putEntry (key value : string) (entries : Entries) : Entries :=
  match entries with
  | [] => [(key, value)]
  | (k, v) :: rest =>
      if String.eqb k key then (key, value) :: rest
      else (k, v) :: putEntry key value rest
  end.

Section LocalStorageService.

(** Whether the browser takes the entries within its quota; [setItem]
    throws when it does not.  Reading and removing do not throw. *)
Variable withinQuota : Entries -> bool.

Variable prefix : string.

Context {T : Type} {J : Json T}.

(** The storage of the page is [None] when there is no [window]. *)
Definition saveItem (key : string) (data : T) (page : option Entries)
    : option Entries :=
  match page with
  | None => None
  | Some entries =>
      match stringify data with
      | Some serialized =>
          let entries' := putEntry (prefix ++ key) serialized entries in
          if withinQuota entries' then Some entries' else Some entries
      | None => Some entries
      end
  end.

Definition getItem (key : string) (defaultValue : T) (page : option Entries)
    : T :=
  match page with
  | None => defaultValue
  | Some entries =>
      match getEntry (prefix ++ key) entries with
      | None => defaultValue
      | Some serialized =>
          match parse serialized with
          | Some value => value
          | None => defaultValue
          end
      end
  end.

Definition removeItem (key : string) (page : option Entries)
    : option Entries :=
  match page with
  | None => None
  | Some entries => Some (removeEntry (prefix ++ key) entries)
  end.

Definition clear (page : option Entries) : option Entries :=
  match page with
  | None => None
  | Some entries =>
      let keysToRemove :=
        filter (fun key => nonEmpty key && String.prefix prefix key)
          (map fst entries) in
      Some (fold_left (fun es key => removeEntry key es) keysToRemove entries)
  end.

End LocalStorageService.

(** ** SignalValidationService *)

(** The fields of a signal that validation reads. *)
Record TradingSignalResult : Type := mkTradingSignalResult {
  sig_signal : TradeSignal;
  sig_confidence : num;
  sig_stopLoss : option num;
  sig_takeProfit : option num
}.

(** The messages pushed on [reasons], by the check that pushes them. *)
Inductive Reason : Type :=
| LowConfidence (confidence : num)
| TrendOutOfRegime (marketRegime : MarketRegime)
| MeanReversionOutOfRegime (marketRegime : MarketRegime)
| BreakoutOutOfRegime
| EmaNotAbove
| EmaNotBelow
| RsiNotOversold
| RsiNotOverbought
| MissingLevels.

Record ValidationResult : Type := mkValidationResult {
  vr_isValid : bool;
  vr_reasons : list Reason;
  vr_score : num
}.

(** [reasons.push(reason); validationScore *= factor] on the pair
    [(reasons, validationScore)]. *)
Definition flag (reason : Reason) (factor : num) (v : list Reason * num)
    : list Reason * num :=
  (fst v ++ [reason], snd v * factor).

(** 1. The confidence against the threshold. *)
Definition checkConfidence (signal : TradingSignalResult)
    (v : list Reason * num) : list Reason * num :=
  let confidenceThreshold := Fin 0.75 in
  if sig_confidence signal <? confidenceThreshold
  then flag (LowConfidence (sig_confidence signal))
         (sig_confidence signal / confidenceThreshold) v
  else v.

(** 2. The strategy style against the market regime. *)
Definition checkRegime (strategy : StrategyConfig)
    (marketRegime : MarketRegime) (v : list Reason * num)
    : list Reason * num :=
  if style_eqb (style strategy) TREND
     && negb (regime_eqb marketRegime TRENDING)
  then flag (TrendOutOfRegime marketRegime) (Fin 0.8) v
  else if style_eqb (style strategy) MEAN_REVERSION
          && negb (regime_eqb marketRegime RANGING)
  then flag (MeanReversionOutOfRegime marketRegime) (Fin 0.8) v
  else if style_eqb (style strategy) BREAKOUT
          && negb (regime_eqb marketRegime VOLATILE)
  then flag BreakoutOutOfRegime (Fin 0.9) v
  else v.

(** 3. The indicators, on at least 50 candles. *)
Definition checkIndicators {TI : TechnicalIndicators} {JM : JsMath}
    (signal : TradingSignalResult) (strategy : StrategyConfig)
    (marketData : list MarketData) (v : list Reason * num)
    : list Reason * num :=
  if (50 <=? length marketData)%nat then
    let indicators := calculateIndicators marketData strategy in
    if style_eqb (style strategy) TREND then
      if signal_eqb (sig_signal signal) LONG
         && negb (ogt (ema20 indicators) (sma50 indicators))
      then flag EmaNotAbove (Fin 0.7) v
      else if signal_eqb (sig_signal signal) SHORT
              && negb (olt (ema20 indicators) (sma50 indicators))
      then flag EmaNotBelow (Fin 0.7) v
      else v
    else if style_eqb (style strategy) MEAN_REVERSION then
      if signal_eqb (sig_signal signal) LONG
         && negb (olt (rsi indicators) (Some (Fin 40)))
      then flag RsiNotOversold (Fin 0.7) v
      else if signal_eqb (sig_signal signal) SHORT
              && negb (ogt (rsi indicators) (Some (Fin 60)))
      then flag RsiNotOverbought (Fin 0.7) v
      else v
    else v
  else v.

(** 4. The stop loss and take profit levels. *)
Definition checkLevels (signal : TradingSignalResult)
    (v : list Reason * num) : list Reason * num :=
  if negb (otruthy (sig_stopLoss signal))
     || negb (otruthy (sig_takeProfit signal))
  then flag MissingLevels (Fin 0.9) v
  else v.

Definition validateSignal {TI : TechnicalIndicators} {JM : JsMath}
    (signal : TradingSignalResult) (strategy : StrategyConfig)
    (marketData : list MarketData) (marketRegime : MarketRegime)
    : ValidationResult :=
  if signal_eqb (sig_signal signal) NEUTRAL then
    {| vr_isValid := true; vr_reasons := []; vr_score := Fin 1 |}
  else
    let v :=
      checkLevels signal
        (checkIndicators signal strategy marketData
           (checkRegime strategy marketRegime
              (checkConfidence signal ([], Fin 1)))) in
    {| vr_isValid := (snd v >=? Fin 0.6) && (length (fst v) <=? 2)%nat;
       vr_reasons := fst v;
       vr_score := snd v |}.

(** ** Fixtures

    A small stand-in for the [technicalindicators] package and for
    [Math.sqrt], used to run the engine on concrete series.  The SMA is the
    mean of the last window; the other series are reduced to one value of
    the right shape. *)

Module Fixtures.

Definition windowMean (period : nat) (values : list num) : list num :=
  if (length values <? period)%nat then []
  else [sum (slice_last period values) / of_nat period].

Definition latestValue (values : list num) : list num :=
  match last_opt values with
  | Some x => [x]
  | None => []
  end.

Definition momentum (slow : nat) (values : list num) : list MacdOutput :=
  match last_opt values, windowMean slow values with
  | Some x, [m] => [mkMacdOutput (x - m) zero (x - m)]
  | _, _ => []
  end.

#[export] Instance fixtureIndicators : TechnicalIndicators := {|
  SMA := fun period values => Some (windowMean period values);
  EMA := fun period values => Some (latestValue values);
  RSI := fun period values => Some [Fin 50];
  MACD := fun fast slow sig values => Some (momentum slow values);
  BollingerBands := fun period values stdDev => None;
  ATR := fun highs lows closes period => Some [Fin 1];
  ADX := fun highs lows closes period => Some [Fin 30];
  Stochastic := fun highs lows closes period signalPeriod => Some []
|}.

(** Exact on squares of rationals, rounded down on the numerator and the
    denominator otherwise. *)
Definition sqrtFloor (a : num) : num :=
  match a with
  | Fin (n # dn) =>
      if (n <? 0)%Z then NaN else Fin (Z.sqrt n # Pos.sqrt dn)
  | PInf => PInf
  | NInf | NaN => NaN
  end.

#[export] Instance fixtureMath : JsMath :=
  {| sqrt := sqrtFloor; sqrt_NaN := eq_refl |}.

Definition candle (ts : Z) (h l c : Q) : MarketData :=
  {| symbol := "BTCUSDT"; timestamp := ts; open := Fin c; high := Fin h;
     low := Fin l; close := Fin c; volume := Fin 1000; timeframe := TF_1h |}.

(** [n] candles at 100, with timestamps [0 .. n-1]. *)
Definition warmup (n : nat) : list MarketData :=
  map (fun i => candle (Z.of_nat i) 101 99 100) (seq 0 n).

Definition trendFollowing : StrategyConfig :=
  {| id := "trend-following"; name := "Trend Following"; style := TREND;
     riskPerTrade := Fin 0.01; takeProfitRatio := Fin 2;
     stopLossType := SL_atr;
     primary := ["ema20"; "sma50"; "macd"];
     confirmation := ["adx"; "volume"];
     suitableRegimes := [TRENDING]; backTestResult := None |}.

Definition meanReversion : StrategyConfig :=
  {| id := "mean-reversion"; name := "Mean Reversion";
     style := MEAN_REVERSION;
     riskPerTrade := Fin 0.01; takeProfitRatio := Fin 1.5;
     stopLossType := SL_percentage;
     primary := ["rsi"; "bollinger"];
     confirmation := ["stochastic"; "volume"];
     suitableRegimes := [RANGING]; backTestResult := None |}.

(** A rally candle after the warm-up, then a drop through the stop. *)
Definition stoppedOut : list MarketData :=
  warmup 50 ++ [candle 50 112 108 110; candle 51 101 99 100].

(** The series ends on a rally candle whose high equals its low. *)
Definition flatEntry : list MarketData :=
  warmup 50 ++ [candle 50 110 110 110].

(** Indicator bags for the rule engine. *)
Definition uptrend : Indicators :=
  {| price := Some (Fin 110); priceChange := Some (Fin 10);
     volatility := Some (Fin 1);
     sma50 := Some (Fin 100); ema20 := Some (Fin 105);
     adx := Some (Fin 30); macd := Some (mkMacd (Fin 2) (Fin 1) (Fin 1));
     bollinger := None; rsi := None; stochastic := None;
     atr := None; donchian := None; volumeChange := None |}.

(** [calculateEMA] fell back to 0 while the average is above it and the
    momentum is negative. *)
Definition emaUnavailable : Indicators :=
  {| price := Some (Fin 90); priceChange := Some (Fin (-10));
     volatility := Some (Fin 1);
     sma50 := Some (Fin 100); ema20 := Some (Fin 0);
     adx := Some (Fin 30);
     macd := Some (mkMacd (Fin (-2)) (Fin (-1)) (Fin (-1)));
     bollinger := None; rsi := None; stochastic := None;
     atr := None; donchian := None; volumeChange := None |}.

(** Fourteen falling closes: the RSI is 0 and the close is below the band. *)
Definition fullyOversold : Indicators :=
  {| price := Some (Fin 80); priceChange := Some (Fin (-20));
     volatility := Some (Fin 1);
     sma50 := None; ema20 := None; adx := None; macd := None;
     bollinger := Some (mkBands (Fin 110) (Fin 100) (Fin 90));
     rsi := Some (Fin 0);
     stochastic := Some (mkStoch (Fin 5) (Fin 5));
     atr := None; donchian := None; volumeChange := None |}.

(** 175 candles at 100, then five candles climbing by 10 each. *)
Definition lateRally : list MarketData :=
  warmup 175
  ++ [candle 175 111 109 110; candle 176 121 119 120;
      candle 177 131 129 130; candle 178 141 139 140;
      candle 179 151 149 150].

(** A stopped-out long followed by a short that is open at the end. *)
Definition twoTrades : list MarketData :=
  warmup 50
  ++ [candle 50 112 108 110; candle 51 101 99 100; candle 52 92 88 90].

(** A rally candle whose high equals its low, then one more candle. *)
Definition flatThenDrop : list MarketData :=
  warmup 50 ++ [candle 50 110 110 110; candle 51 101 99 100].

(** The breakout preset of the strategy engine. *)
Definition breakout : StrategyConfig :=
  {| id := "breakout"; name := "Breakout"; style := BREAKOUT;
     riskPerTrade := Fin 0.015; takeProfitRatio := Fin 2.5;
     stopLossType := SL_atr;
     primary := ["donchian"; "atr"];
     confirmation := ["volume"; "adx"];
     suitableRegimes := [VOLATILE; TRENDING]; backTestResult := None |}.

(** An indicator package whose every call throws. *)
Definition failingIndicators : TechnicalIndicators := {|
  SMA := fun period values => None;
  EMA := fun period values => None;
  RSI := fun period values => None;
  MACD := fun fast slow sig values => None;
  BollingerBands := fun period values stdDev => None;
  ATR := fun highs lows closes period => None;
  ADX := fun highs lows closes period => None;
  Stochastic := fun highs lows closes period signalPeriod => None
|}.

(** The volatility-trend preset of the strategy engine. *)
Definition volatilityTrend : StrategyConfig :=
  {| id := "volatility-trend"; name := "Volatility Trend"; style := TREND;
     riskPerTrade := Fin 0.02; takeProfitRatio := Fin 1.8;
     stopLossType := SL_atr;
     primary := ["ema20"; "atr"];
     confirmation := ["macd"; "volume"];
     suitableRegimes := [VOLATILE]; backTestResult := None |}.

Definition customStrategy : StrategyConfig :=
  {| id := "strategy-1700000000000"; name := "Mine"; style := TREND;
     riskPerTrade := Fin 0.01; takeProfitRatio := Fin 2.0;
     stopLossType := SL_atr;
     primary := ["ema20"; "sma50"]; confirmation := ["adx"; "volume"];
     suitableRegimes := [TRENDING]; backTestResult := None |}.

(** An engine holding the four presets, with nothing stored yet. *)
Definition freshEngine : Engine :=
  {| predefinedStrategies := Regime.initializeStrategies;
     storageCalls := [] |}.

(** JSON on booleans. *)
#[export] Instance jsonBool : Json bool := {|
  stringify := fun b : bool => Some (if b then "true" else "false");
  parse := fun text : string =>
    if String.eqb text "true" then Some true
    else if String.eqb text "false" then Some false
    else None
|}.

(** A browser that never runs out of storage. *)
Definition unlimited : Entries -> bool := fun _ => true.

(** A page with one entry of the dashboard and one of another application. *)
Definition somePage : option Entries :=
  Some [("trading-dashboard-dark", "false"); ("other-app", "1")].

(** A confident long signal with both levels set. *)
Definition confidentLong : TradingSignalResult :=
  {| sig_signal := LONG; sig_confidence := Fin 0.9;
     sig_stopLoss := Some (Fin 95); sig_takeProfit := Some (Fin 110) |}.

End Fixtures.

Import Fixtures.

(** ** Vocabulary of the properties *)

(** The state after the loop and the forced close. *)
Definition finalState {TI : TechnicalIndicators} {JM : JsMath}
    (marketData : list MarketData) (strategy : StrategyConfig)
    (initialCapital : num) (lastCandle : MarketData) : BtState :=
  closeAtEnd
    (simulate marketData strategy 50 (skipn 50 marketData)
       (initState initialCapital))
    lastCandle.

(** The object [{ price: p }]. *)
Definition priceOnly (p : num) : Indicators :=
  {| price := Some p;
     priceChange := None; volatility := None;
     sma50 := None; ema20 := None; adx := None; macd := None;
     bollinger := None; rsi := None; stochastic := None;
     atr := None; donchian := None; volumeChange := None |}.

(** [indicators.macd.histogram], absent when [macd] is. *)
Definition histogramOf (indicators : Indicators) : option num :=
  option_map histogram (macd indicators).

(** The rule table of the signal engine as the specification words it:
    per style, LONG on the long condition, SHORT on the mirrored one,
    NEUTRAL otherwise.  A comparison on an absent value is false. *)
Definition ruleTable (candle : MarketData) (indicators : Indicators)
    (st : Style) : TradeSignal :=
  match st with
  | TREND =>
      if ogt (ema20 indicators) (sma50 indicators)
         && ogt (histogramOf indicators) (Some zero)
         && ogt (adx indicators) (Some (Fin 25))
      then LONG
      else if olt (ema20 indicators) (sma50 indicators)
              && olt (histogramOf indicators) (Some zero)
              && ogt (adx indicators) (Some (Fin 25))
      then SHORT
      else NEUTRAL
  | MEAN_REVERSION =>
      if olt (rsi indicators) (Some (Fin 30))
         && olt (Some (close candle))
              (option_map (fun b => lower b * Fin 1.01) (bollinger indicators))
      then LONG
      else if ogt (rsi indicators) (Some (Fin 70))
              && ogt (Some (close candle))
                   (option_map (fun b => upper b * Fin 0.99)
                      (bollinger indicators))
      then SHORT
      else NEUTRAL
  | BREAKOUT =>
      if ogt (Some (close candle)) (option_map upper (donchian indicators))
         && ogt (volumeChange indicators) (Some (Fin 20))
      then LONG
      else if olt (Some (close candle))
                (option_map lower (donchian indicators))
              && ogt (volumeChange indicators) (Some (Fin 20))
      then SHORT
      else NEUTRAL
  end.

(** A value that is present and zero. *)
Definition isZero (a : option num) : bool :=
  match a with
  | Some (Fin x) => Qeq_bool x 0
  | _ => false
  end.

(** The indicator values the engine tests for truthiness before it applies
    its rules: [ema20] and [sma50] for TREND, [rsi] for MEAN_REVERSION. *)
Definition guardedNonZero (indicators : Indicators) (st : Style) : bool :=
  match st with
  | TREND => negb (isZero (ema20 indicators)) && negb (isZero (sma50 indicators))
  | MEAN_REVERSION => negb (isZero (rsi indicators))
  | BREAKOUT => true
  end.

(** What validation promises about a strategy it keeps: it is a candidate
    with the metrics of its quick backtest attached, and the expectancy
    among them is positive. *)
Definition Kept {TI : TechnicalIndicators} {JM : JsMath}
    (marketData : list MarketData) (candidates : list StrategyConfig)
    (v : StrategyConfig) : Prop :=
  exists s m,
    In s candidates
    /\ backtest s marketData = Ok m
    /\ v = withBackTestResult s m
    /\ gt (bt_expectancy m) zero = true
    /\ bt_expectancy m
       = bt_winRate m * bt_avgWin m - (Fin 1 - bt_winRate m) * bt_avgLoss m.

(** The loop invariant of capital conservation. *)
Definition Conserved (startCapital : num) (st : BtState) : Prop :=
  st_capital st =~= startCapital + sumPnl (st_trades st).

(** Strictly increasing timestamps. *)
Fixpoint strictlyIncreasing (ts : list Z) : bool :=
  match ts with
  | a :: (b :: _) as rest => (a <? b)%Z && strictlyIncreasing rest
  | _ => true
  end.

(** No two consecutive trades overlap in time. *)
Definition NonOverlapping (ts : list Trade) : Prop :=
  forall i t1 t2,
    nth_error ts i = Some t1 ->
    nth_error ts (S i) = Some t2 ->
    (exitTime t1 <= entryTime t2)%Z.

(** The loop invariant of the single-position property: the log does not
    overlap, every recorded exit is at or before [now], and an open
    position was entered at or after every recorded exit. *)
Definition Sequential (now : Z) (st : BtState) : Prop :=
  NonOverlapping (st_trades st)
  /\ Forall (fun t => (exitTime t <= now)%Z) (st_trades st)
  /\ (st_position st <> None ->
      Forall (fun t => (exitTime t <= st_entryTime st)%Z) (st_trades st)).




(** A candle whose close lies between its low and its high. *)
Definition wellFormed (c : MarketData) : bool :=
  le (low c) (close c) && le (close c) (high c).

(** Every call into the indicator package throws. *)
Definition AlwaysThrows (TI : TechnicalIndicators) : Prop :=
  (forall period values, SMA period values = None)
  /\ (forall period values, EMA period values = None)
  /\ (forall period values, RSI period values = None)
  /\ (forall fast slow sig values, MACD fast slow sig values = None)
  /\ (forall period values stdDev, BollingerBands period values stdDev = None)
  /\ (forall highs lows closes period, ATR highs lows closes period = None)
  /\ (forall highs lows closes period, ADX highs lows closes period = None)
  /\ (forall highs lows closes period signalPeriod,
        Stochastic highs lows closes period signalPeriod = None).

(** The rule engine stays NEUTRAL on every candle the loop processes from
    index [i] on. *)
Fixpoint allNeutral {TI : TechnicalIndicators} {JM : JsMath}
    (marketData : list MarketData) (strategy : StrategyConfig)
    (i : nat) (remaining : list MarketData) : bool :=
  match remaining with
  | [] => true
  | c :: rest =>
      signal_eqb
        (generateSignal c
           (calculateIndicators (firstn (i + 1) marketData) strategy)
           strategy)
        NEUTRAL
      && allNeutral marketData strategy (S i) rest
  end.

(** The loop state of a run that has not traded: no trade, no position,
    the capital untouched and a constant equity curve. *)
Definition Idle (startCapital : num) (st : BtState) : Prop :=
  st_trades st = []
  /\ st_capital st = startCapital
  /\ st_position st = None
  /\ Forall (eq startCapital) (st_equity st).

(** The exit reasons the loop can record. *)
Definition loopReason (t : Trade) : Prop :=
  exitReason t = "Stop Loss"
  \/ exitReason t = "Take Profit"
  \/ exitReason t = "Signal Reversal".

(** The bookkeeping the loop keeps between its arrays: the drawdowns run
    parallel to the equity curve, [maxDrawdown] is their maximum, every
    closed trade took an entry candle and a later exit candle, and every
    recorded exit has one of the three loop reasons. *)
Definition Ledger (st : BtState) : Prop :=
  length (st_drawdowns st) = length (st_equity st)
  /\ st_maxDrawdown st = max_list (st_drawdowns st)
  /\ (2 * length (st_trades st)
      + (match st_position st with Some _ => 1 | None => 0 end) + 1
      <= length (st_equity st))%nat
  /\ Forall loopReason (st_trades st).

(** Every recorded trade exits at or after its entry, and an open position
    was entered at or before [now]. *)
Definition Timed (now : Z) (st : BtState) : Prop :=
  Forall (fun t => (entryTime t <= exitTime t)%Z) (st_trades st)
  /\ (st_position st <> None -> (st_entryTime st <= now)%Z).

(** Consecutive elements of a list are related. *)
Fixpoint Chain {A : Type} (R : A -> A -> Prop) (xs : list A) : Prop :=
  match xs with
  | a :: (b :: _) as rest => R a b /\ Chain R rest
  | _ => True
  end.

(** [a] ranks at or above [b]: its expectancy is at least that of [b]. *)
Definition ranksAbove (a b : StrategyConfig) : Prop :=
  ge (expectancyOrZero a) (expectancyOrZero b) = true.

(** A strategy whose recorded expectancy is greater than 0. *)
Definition positiveExpectancy (v : StrategyConfig) : Prop :=
  gt (expectancyOrZero v) zero = true.

(** A series in which no value is below the one before it. *)
Fixpoint neverFalls (xs : list num) : bool :=
  match xs with
  | a :: (b :: _) as rest => le a b && neverFalls rest
  | _ => true
  end.

(** A price of zero. *)
Definition zeroPrice (a : num) : bool := isZero (Some a).


(** The largest factor a reason can have put on the score. *)
Definition penalty (reason : Reason) : Q :=
  match reason with
  | LowConfidence _ => 1
  | TrendOutOfRegime _ | MeanReversionOutOfRegime _ => 0.8
  | BreakoutOutOfRegime => 0.9
  | EmaNotAbove | EmaNotBelow | RsiNotOversold | RsiNotOverbought => 0.7
  | MissingLevels => 0.9
  end.

(** The product of the penalties of the reasons. *)
Definition ceiling (reasons : list Reason) : Q :=
  fold_right (fun reason acc => (penalty reason * acc)%Q) 1%Q reasons.

(** A trend or mean-reversion strategy used outside its regime. *)
Definition regimeFlag (reason : Reason) : bool :=
  match reason with
  | TrendOutOfRegime _ | MeanReversionOutOfRegime _ => true
  | _ => false
  end.

(** A signal the indicators do not confirm. *)
Definition indicatorFlag (reason : Reason) : bool :=
  match reason with
  | EmaNotAbove | EmaNotBelow | RsiNotOversold | RsiNotOverbought => true
  | _ => false
  end.

(** The invariant of the four checks: the score is 1 while no reason is
    recorded and below 1 afterwards, and never above the product of the
    penalties of the reasons recorded. *)
Definition Graded (v : list Reason * num) : Prop :=
  ((fst v = [] /\ snd v = Fin 1) \/ (fst v <> [] /\ lt (snd v) (Fin 1) = true))
  /\ le (snd v) (Fin (ceiling (fst v))) = true.



(** [Number.isNaN] *)
Definition isNaN (a : num) : bool :=
  match a with NaN => true | _ => false end.

(** The largest value of a window: a member at or above every member, or
    [fallback] for an empty window. *)
Definition Greatest (fallback : num) (window : list num) (m : num) : Prop :=
  Forall (fun x => le x m = true) window
  /\ match window with [] => m = fallback | _ => In m window end.

(** The smallest value of a window, likewise. *)
Definition Least (fallback : num) (window : list num) (m : num) : Prop :=
  Forall (fun x => le m x = true) window
  /\ match window with [] => m = fallback | _ => In m window end.

(** * Properties *)

(** ** Arrays *)

Lemma last_opt_app {A : Type} (init : list A) (x : A) :
  last_opt (init ++ [x]) = Some x.
Proof.
  unfold last_opt. rewrite rev_app_distr. reflexivity.
Qed.

Lemma slice_last_skipn {A : Type} (n : nat) (xs : list A) :
  (0 < n)%nat -> slice_last n xs = skipn (length xs - n) xs.
Proof.
  intros Hn. unfold slice_last, fromEnd.
  destruct n; [lia | reflexivity].
Qed.

Lemma last_opt_nonempty {A : Type} (xs : list A) :
  xs <> [] -> exists x, last_opt xs = Some x.
Proof.
  intros Hne. destruct (exists_last Hne) as (init & x & ->).
  exists x. apply last_opt_app.
Qed.

(** ** Shape of a completed run *)

Section RunShape.

Context {TI : TechnicalIndicators} {JM : JsMath}.

Variable marketData : list MarketData.
Variable strategy : StrategyConfig.
Variable startCapital : num.

Lemma runBacktest_inv (r : BacktestResult) :
  runBacktest marketData strategy startCapital = Ok r ->
  (50 <= length marketData)%nat /\
  exists lastCandle,
    last_opt marketData = Some lastCandle /\
    trades r = st_trades (finalState marketData strategy startCapital lastCandle) /\
    finalCapital r = st_capital (finalState marketData strategy startCapital lastCandle) /\
    equity r = st_equity (finalState marketData strategy startCapital lastCandle) /\
    drawdowns r = st_drawdowns (finalState marketData strategy startCapital lastCandle) /\
    initialCapital r = startCapital.
Proof.
  unfold runBacktest.
  destruct (Nat.ltb_spec (length marketData) 50) as [Hlt | Hge];
    [discriminate |].
  destruct marketData as [| firstCandle rest] eqn:Hdata; [discriminate |].
  rewrite <- Hdata in *.
  destruct (last_opt marketData) as [lastCandle |] eqn:Hlast;
    [| discriminate].
  intros Heq. injection Heq as <-.
  cbn [trades finalCapital equity drawdowns initialCapital].
  split; [exact Hge |].
  exists lastCandle. unfold finalState. repeat split; reflexivity.
Qed.

Lemma runBacktest_total :
  (50 <= length marketData)%nat ->
  exists r, runBacktest marketData strategy startCapital = Ok r.
Proof.
  intros Hge. unfold runBacktest.
  destruct (Nat.ltb_spec (length marketData) 50) as [Hlt | _]; [lia |].
  destruct marketData as [| firstCandle rest] eqn:Hdata;
    [cbn in Hge; lia |].
  rewrite <- Hdata.
  destruct (last_opt_nonempty (xs := marketData)) as [lastCandle Hlast];
    [rewrite Hdata; discriminate |].
  rewrite Hlast. eexists. reflexivity.
Qed.

End RunShape.

(** ** The equity curve *)

Section EquityCurve.

Context {TI : TechnicalIndicators} {JM : JsMath}.

Variable marketData : list MarketData.
Variable strategy : StrategyConfig.

Lemma managePosition_equity st position signal c :
  st_equity (managePosition st position signal c) = st_equity st.
Proof.
  unfold managePosition.
  destruct (exitCheck st position signal (close c)) as [reason p].
  destruct (nonEmpty reason); reflexivity.
Qed.

Lemma processCandle_equity i c st :
  exists cap,
    st_equity (processCandle marketData strategy i c st)
    = st_equity st ++ [cap].
Proof.
  unfold processCandle.
  destruct (st_position st) as [position |].
  - eexists. cbn [trackEquity st_equity].
    rewrite managePosition_equity. reflexivity.
  - destruct (signal_eqb _ LONG || signal_eqb _ SHORT);
      eexists; reflexivity.
Qed.

Lemma simulate_equity remaining : forall i st,
  exists pushed,
    st_equity (simulate marketData strategy i remaining st)
    = st_equity st ++ pushed
    /\ length pushed = length remaining.
Proof.
  induction remaining as [| c rest IH]; intros i st; cbn [simulate].
  - exists []. rewrite app_nil_r. split; reflexivity.
  - destruct (IH (S i) (processCandle marketData strategy i c st))
      as (pushed & Heq & Hlen).
    destruct (processCandle_equity i c st) as (cap & Hcap).
    exists (cap :: pushed). rewrite Heq, Hcap, <- app_assoc.
    split; [reflexivity | cbn; lia].
Qed.

Lemma closeAtEnd_equity st lastCandle :
  st_equity (closeAtEnd st lastCandle) = st_equity st.
Proof.
  unfold closeAtEnd. destruct (st_position st); reflexivity.
Qed.

End EquityCurve.

(** C6. For a series of [n >= 50] candles the run completes, the equity
    array has [n - 50 + 1] entries, and its first entry is the initial
    capital, the capital entering the loop. *)
Theorem equity_length_invariant
    {TI : TechnicalIndicators} {JM : JsMath}
    (marketData : list MarketData) (strategy : StrategyConfig)
    (initialCapital : num) :
  (50 <= length marketData)%nat ->
  exists r,
    runBacktest marketData strategy initialCapital = Ok r
    /\ length (equity r) = (length marketData - 50 + 1)%nat
    /\ nth_error (equity r) 0 = Some initialCapital
    /\ st_capital (initState initialCapital) = initialCapital.
Proof.
  intros Hge.
  destruct (runBacktest_total marketData strategy initialCapital Hge)
    as [r Hr].
  exists r. split; [exact Hr |].
  destruct (runBacktest_inv _ _ _ Hr) as (_ & lastCandle & _ & _ & _ & Heq & _).
  unfold finalState in Heq. rewrite closeAtEnd_equity in Heq.
  destruct (simulate_equity marketData strategy (skipn 50 marketData) 50
              (initState initialCapital)) as (pushed & Hpushed & Hlen).
  rewrite Hpushed in Heq. cbn [initState st_equity] in Heq.
  rewrite Heq. cbn. rewrite Hlen, length_skipn.
  repeat split. lia.
Qed.

Lemma equity_length_invariant_witness :
  exists r,
    runBacktest stoppedOut trendFollowing defaultInitialCapital = Ok r
    /\ length (equity r) = 3%nat
    /\ nth_error (equity r) 0 = Some defaultInitialCapital
    /\ st_capital (initState defaultInitialCapital) = defaultInitialCapital.
Proof.
  apply (equity_length_invariant stoppedOut trendFollowing
           defaultInitialCapital).
  vm_compute. lia.
Defined.

(** ** Insufficient data *)

Lemma validateStrategies_short
    {TI : TechnicalIndicators} {JM : JsMath}
    (sym : string) (marketData : list MarketData) (tf : Timeframe)
    (strategies : list StrategyConfig) :
  (length marketData < 100)%nat ->
  validateStrategies sym marketData tf strategies = Ok strategies.
Proof.
  intros Hlt. unfold validateStrategies.
  destruct (Nat.ltb_spec (length marketData) 100); [reflexivity | lia].
Qed.

(** C3, as the code has it.  On a series of fewer than 50 candles
    [runBacktest] rejects with the error "Not enough data for backtesting.
    Need at least 50 candles." (nothing is retried), while validation does
    not raise: it hands the candidate list back unchanged. *)
Theorem insufficient_data
    {TI : TechnicalIndicators} {JM : JsMath}
    (marketData : list MarketData) (strategy : StrategyConfig)
    (initialCapital : num) (sym : string) (tf : Timeframe)
    (strategies : list StrategyConfig) :
  (length marketData < 50)%nat ->
  runBacktest marketData strategy initialCapital
  = Throw "Not enough data for backtesting. Need at least 50 candles."
  /\ validateStrategies sym marketData tf strategies = Ok strategies.
Proof.
  intros Hlt. split.
  - unfold runBacktest.
    destruct (Nat.ltb_spec (length marketData) 50); [reflexivity | lia].
  - apply validateStrategies_short. lia.
Qed.

Lemma insufficient_data_witness :
  runBacktest (warmup 49) trendFollowing defaultInitialCapital
  = Throw "Not enough data for backtesting. Need at least 50 candles."
  /\ validateStrategies "BTCUSDT" (warmup 49) TF_1h [trendFollowing]
     = Ok [trendFollowing].
Proof.
  apply (insufficient_data (warmup 49) trendFollowing defaultInitialCapital
           "BTCUSDT" TF_1h [trendFollowing]).
  vm_compute. lia.
Defined.

(** C3 as stated fails for validation: on 49 candles it returns normally. *)
Lemma validate_does_not_raise :
  (length (warmup 49) < 50)%nat
  /\ validateStrategies "BTCUSDT" (warmup 49) TF_1h [trendFollowing]
     = Ok [trendFollowing]
  /\ forall msg,
       validateStrategies "BTCUSDT" (warmup 49) TF_1h [trendFollowing]
       <> Throw msg.
Proof.
  split; [vm_compute; lia |].
  split; [reflexivity | intros msg H; discriminate H].
Qed.

(** ** The degenerate indicator bag *)

(** C9, as the code has it.  On fewer than 50 candles [calculateIndicators]
    returns the object whose only key is [price]; its value is the close of
    the last candle, and 0 when there is no candle at all. *)
Theorem calculateIndicators_short
    {TI : TechnicalIndicators} {JM : JsMath}
    (data : list MarketData) (strategy : StrategyConfig) :
  (length data < 50)%nat ->
  (data = [] -> calculateIndicators data strategy = priceOnly zero)
  /\ (forall init c,
        data = init ++ [c] ->
        calculateIndicators data strategy = priceOnly (close c)).
Proof.
  intros Hlt. unfold calculateIndicators.
  destruct (Nat.ltb_spec (length data) 50) as [_ | Hge]; [| lia].
  split.
  - intros ->. reflexivity.
  - intros init c ->. rewrite last_opt_app. reflexivity.
Qed.

Lemma calculateIndicators_short_witness :
  calculateIndicators (warmup 3) trendFollowing = priceOnly (Fin 100).
Proof.
  assert (Hlt : (length (warmup 3) < 50)%nat) by (vm_compute; lia).
  apply (proj2 (calculateIndicators_short (warmup 3) trendFollowing Hlt)
           (warmup 2) (candle 2 101 99 100)).
  reflexivity.
Defined.

(** C9 as stated fails on the empty series: the result is [{ price: 0 }]
    although no candle supplies a close. *)
Lemma empty_series_price_is_zero :
  (length (@nil MarketData) < 50)%nat
  /\ calculateIndicators [] trendFollowing = priceOnly zero
  /\ ~ (exists init c,
          @nil MarketData = init ++ [c]
          /\ calculateIndicators [] trendFollowing = priceOnly (close c)).
Proof.
  split; [cbn; lia |]. split; [reflexivity |].
  intros (init & c & Heq & _). destruct init; discriminate Heq.
Qed.

(** ** The signal rule engine *)

Lemma lt_NaN_r (a : num) : (a <? NaN) = false.
Proof. destruct a; reflexivity. Qed.

Lemma lt_NaN_l (a : num) : (NaN <? a) = false.
Proof. reflexivity. Qed.

(** C8, as the code has it.  Whenever the values the engine guards on are
    not zero ([ema20] and [sma50] for TREND, [rsi] for MEAN_REVERSION), the
    signal is the one of the rule table. *)
Theorem generateSignal_rule_table
    (candle : MarketData) (indicators : Indicators)
    (strategy : StrategyConfig) :
  guardedNonZero indicators (style strategy) = true ->
  generateSignal candle indicators strategy
  = ruleTable candle indicators (style strategy).
Proof.
  unfold generateSignal, ruleTable, guardedNonZero.
  destruct (style strategy); intros Hguard.
  - unfold generateTrendSignal, histogramOf.
    apply andb_prop in Hguard. destruct Hguard as [He Hs].
    destruct (ema20 indicators) as [[e | | |] |];
      destruct (sma50 indicators) as [[s | | |] |];
      cbn in He, Hs |- *;
      try (apply negb_true_iff in He; rewrite He);
      try (apply negb_true_iff in Hs; rewrite Hs);
      cbn;
      destruct (macd indicators) as [m |]; cbn;
      rewrite ?lt_NaN_r, ?lt_NaN_l, ?andb_false_r; cbn;
      reflexivity.
  - unfold generateMeanReversionSignal.
    destruct (rsi indicators) as [[r | | |] |];
      cbn in Hguard |- *;
      try (apply negb_true_iff in Hguard; rewrite Hguard);
      cbn;
      destruct (bollinger indicators) as [b |];
      unfold olt, ogt, gt, unum; cbn;
      rewrite ?lt_NaN_r, ?lt_NaN_l, ?andb_false_r; cbn;
      reflexivity.
  - unfold generateBreakoutSignal.
    destruct (donchian indicators) as [dc |]; cbn.
    + destruct (volumeChange indicators) as [[v | | |] |];
        unfold olt, ogt, gt, unum; cbn;
        rewrite ?andb_false_r; try reflexivity.
      destruct (Qeq_bool v 0) eqn:Hv; cbn; [| reflexivity].
      apply Qeq_bool_iff in Hv.
      assert (Hlt : Qltb 20 v = false).
      { unfold Qltb. destruct (20 ?= v)%Q eqn:Hc; try reflexivity.
        apply Qlt_alt in Hc. lra. }
      rewrite Hlt, !andb_false_r. reflexivity.
    + unfold olt, ogt, gt, unum; cbn.
      rewrite ?lt_NaN_r, ?lt_NaN_l; cbn. reflexivity.
Qed.

Lemma generateSignal_rule_table_witness :
  generateSignal (candle 50 112 108 110) uptrend trendFollowing = LONG.
Proof.
  rewrite (generateSignal_rule_table (candle 50 112 108 110) uptrend
             trendFollowing); reflexivity.
Defined.

(** C8 as stated fails when a guarded value is zero: with [ema20 = 0] below
    [sma50], a negative histogram and [adx > 25] the table says SHORT and
    the engine says NEUTRAL. *)
Lemma zero_ema_is_neutral :
  ruleTable (candle 50 91 89 90) emaUnavailable (style trendFollowing) = SHORT
  /\ generateSignal (candle 50 91 89 90) emaUnavailable trendFollowing
     = NEUTRAL.
Proof. split; reflexivity. Qed.

(** The same guard hides the most oversold reading, [rsi = 0]. *)
Lemma zero_rsi_is_neutral :
  ruleTable (candle 50 81 79 80) fullyOversold (style meanReversion) = LONG
  /\ generateSignal (candle 50 81 79 80) fullyOversold meanReversion
     = NEUTRAL.
Proof. split; reflexivity. Qed.

(** ** Performance metrics *)

Section Metrics.

Context {TI : TechnicalIndicators} {JM : JsMath}.

Variable marketData : list MarketData.
Variable strategy : StrategyConfig.
Variable startCapital : num.

Lemma runBacktest_metrics (r : BacktestResult) :
  runBacktest marketData strategy startCapital = Ok r ->
  let winningTrades := filter (fun t => gt (pnl t) zero) (trades r) in
  let losingTrades := filter (fun t => le (pnl t) zero) (trades r) in
  let returns := stepReturns (equity r) in
  let averageReturn := sum returns / of_nat (length returns) in
  let stdDeviation :=
    sqrt (sumSqDev averageReturn returns / of_nat (length returns)) in
  totalPnL r = sumPnl (trades r)
  /\ winRate r = of_nat (length winningTrades) / of_nat (length (trades r))
  /\ averageLoss r
     = (if (0 <? length losingTrades)%nat
        then sumPnl losingTrades / of_nat (length losingTrades)
        else zero)
  /\ profitFactor r
     = (if strict_neq (averageLoss r) zero
        then abs (averageWin r / averageLoss r)
        else zero)
  /\ sharpeRatio r
     = (if strict_neq stdDeviation zero
        then (averageReturn / stdDeviation) * sqrt (Fin 252)
        else zero).
Proof.
  unfold runBacktest.
  destruct (length marketData <? 50)%nat; [discriminate |].
  destruct marketData as [| firstCandle rest]; [discriminate |].
  destruct (last_opt (firstCandle :: rest)) as [lastCandle |];
    [| discriminate].
  intros Heq. injection Heq as <-.
  cbn [trades totalPnL winRate averageLoss averageWin profitFactor
       sharpeRatio equity].
  repeat split; reflexivity.
Qed.

(** A run without trades: the win rate is [0 / 0]. *)
Lemma zero_trades_metrics (r : BacktestResult) :
  runBacktest marketData strategy startCapital = Ok r ->
  trades r = [] ->
  winRate r = NaN /\ profitFactor r = zero.
Proof.
  intros Hr Hnone.
  destruct (runBacktest_metrics Hr) as (_ & Hw & Hl & Hp & _).
  rewrite Hnone in Hw, Hl. cbn in Hw, Hl.
  rewrite Hp, Hl. split; [exact Hw | reflexivity].
Qed.

(** A run that processes no candle: the mean return is [0 / 0], and so is
    the Sharpe ratio. *)
Lemma single_point_sharpe (r : BacktestResult) (e : num) :
  runBacktest marketData strategy startCapital = Ok r ->
  equity r = [e] ->
  sharpeRatio r = NaN.
Proof.
  intros Hr He.
  destruct (runBacktest_metrics Hr) as (_ & _ & _ & _ & Hs).
  rewrite He in Hs. cbn [stepReturns length sum sumSqDev fold_left] in Hs.
  assert (Hnan : zero / of_nat 0 = NaN) by reflexivity.
  rewrite Hnan, sqrt_NaN in Hs. exact Hs.
Qed.

End Metrics.

(** C1 at the failing input.  Fifty candles are accepted, no candle is
    processed and no trade is recorded; the profit factor is guarded and
    is 0, the win rate and the mean return are not and are [0 / 0]: the
    win rate and the Sharpe ratio are [NaN], whatever the indicator
    package computes. *)
Theorem zero_trades_winRate_is_NaN
    {TI : TechnicalIndicators} {JM : JsMath} :
  exists r,
    runBacktest (warmup 50) trendFollowing defaultInitialCapital = Ok r
    /\ trades r = []
    /\ winRate r = NaN
    /\ profitFactor r = zero
    /\ sharpeRatio r = NaN.
Proof.
  destruct (runBacktest_total (warmup 50) trendFollowing
              defaultInitialCapital) as [r Hr]; [vm_compute; lia |].
  exists r. split; [exact Hr |].
  destruct (runBacktest_inv _ _ _ Hr)
    as (_ & lastCandle & _ & Ht & _ & He & _).
  assert (Hnone : trades r = []) by (rewrite Ht; reflexivity).
  split; [exact Hnone |].
  destruct (zero_trades_metrics _ _ _ Hr Hnone) as [Hw Hp].
  split; [exact Hw |]. split; [exact Hp |].
  apply single_point_sharpe
    with (marketData := warmup 50) (strategy := trendFollowing)
         (startCapital := defaultInitialCapital)
         (e := defaultInitialCapital);
    [exact Hr | rewrite He; reflexivity].
Qed.

(** ** Strategy validation *)

Section Validation.

Context {TI : TechnicalIndicators} {JM : JsMath}.

Variable marketData : list MarketData.

Lemma backtest_expectancy (s : StrategyConfig) :
  exists m,
    backtest s marketData = Ok m
    /\ bt_expectancy m
       = bt_winRate m * bt_avgWin m - (Fin 1 - bt_winRate m) * bt_avgLoss m.
Proof.
  unfold backtest. eexists. split; reflexivity.
Qed.

Lemma validateEach_kept (candidates : list StrategyConfig) :
  forall strategies validated,
    (forall s, In s strategies -> In s candidates) ->
    Forall (Kept marketData candidates) validated ->
    exists out,
      validateEach marketData strategies validated = Ok out
      /\ Forall (Kept marketData candidates) out.
Proof.
  induction strategies as [| s rest IH]; intros validated Hsub Hacc;
    cbn [validateEach].
  - exists validated. split; [reflexivity | exact Hacc].
  - destruct (backtest_expectancy s) as (m & Hm & Hexp).
    rewrite Hm. cbn [bind].
    assert (Hrest : forall x, In x rest -> In x candidates)
      by (intros x Hx; apply Hsub; right; exact Hx).
    destruct (gt (bt_expectancy m) zero) eqn:Hpos.
    + apply IH; [exact Hrest |].
      apply Forall_app. split; [exact Hacc |].
      constructor; [| constructor].
      exists s, m. repeat split; try assumption.
      apply Hsub. left. reflexivity.
    + apply IH; assumption.
Qed.

End Validation.

Lemma insertSorted_In (A : Type) (compare : A -> A -> num) (x : A) :
  forall sorted y, In y (insertSorted compare x sorted) -> y = x \/ In y sorted.
Proof.
  induction sorted as [| z rest IH]; intros y Hy; cbn [insertSorted] in Hy.
  - destruct Hy as [<- | []]. left. reflexivity.
  - destruct (gt (compare x z) zero).
    + destruct Hy as [<- | Hy]; [right; left; reflexivity |].
      destruct (IH _ Hy) as [-> | Hin]; [left | right; right]; auto.
    + destruct Hy as [<- | Hy]; [left; reflexivity | right; exact Hy].
Qed.

Lemma sortBy_In (A : Type) (compare : A -> A -> num) :
  forall xs y, In y (sortBy compare xs) -> In y xs.
Proof.
  induction xs as [| x rest IH]; intros y Hy;
    cbn [sortBy fold_right] in Hy; [exact Hy |].
  destruct (insertSorted_In _ _ _ _ Hy) as [-> | Hin];
    [left; reflexivity | right; apply IH; exact Hin].
Qed.

(** C2, as the code has it.  On a series of at least 100 candles validation
    completes, and every strategy it returns is a candidate carrying the
    metrics of its quick backtest, whose expectancy
    [winRate * avgWin - (1 - winRate) * avgLoss] is greater than 0. *)
Theorem validate_keeps_positive_expectancy
    {TI : TechnicalIndicators} {JM : JsMath}
    (sym : string) (marketData : list MarketData) (tf : Timeframe)
    (strategies : list StrategyConfig) :
  (100 <= length marketData)%nat ->
  exists out,
    validateStrategies sym marketData tf strategies = Ok out
    /\ forall v, In v out -> Kept marketData strategies v.
Proof.
  intros Hge. unfold validateStrategies.
  destruct (Nat.ltb_spec (length marketData) 100) as [Hlt | _]; [lia |].
  destruct (@validateEach_kept TI JM marketData strategies strategies []
              (fun s H => H) (Forall_nil _)) as (out & Hout & Hkept).
  rewrite Hout. cbn [bind].
  eexists. split; [reflexivity |].
  intros v Hv. apply sortBy_In in Hv.
  rewrite Forall_forall in Hkept. apply Hkept. exact Hv.
Qed.

Lemma validate_keeps_positive_expectancy_witness :
  exists out,
    validateStrategies "BTCUSDT" lateRally TF_1h
      [trendFollowing; meanReversion] = Ok out
    /\ forall v,
         In v out -> Kept lateRally [trendFollowing; meanReversion] v.
Proof.
  apply (validate_keeps_positive_expectancy "BTCUSDT" lateRally TF_1h
           [trendFollowing; meanReversion]).
  vm_compute. lia.
Defined.

(** On [lateRally] the trend strategy wins its three scored candles and is
    kept; the mean-reversion strategy never trades and is dropped. *)
Example validate_lateRally :
  validateStrategies "BTCUSDT" lateRally TF_1h [trendFollowing; meanReversion]
  = Ok [withBackTestResult trendFollowing
          (mkBackTestMetrics (Fin 1) (Fin (253 # 3276)) 3
             (Fin (253 # 3276)) (Fin 0))].
Proof. vm_compute. reflexivity. Qed.

(** C2 as stated fails on a short series: with 49 candles the candidate is
    returned although its quick backtest scores nothing and its
    expectancy is 0. *)
Lemma short_series_returns_unvalidated :
  validateStrategies "BTCUSDT" (warmup 49) TF_1h [trendFollowing]
  = Ok [trendFollowing]
  /\ exists m,
       backtest trendFollowing (warmup 49) = Ok m
       /\ bt_expectancy m = Fin 0
       /\ gt (bt_expectancy m) zero = false.
Proof.
  split; [reflexivity |].
  eexists. split; [vm_compute; reflexivity |]. split; reflexivity.
Qed.

(** ** Arithmetic of the number model *)

Lemma same_refl (a : num) : a =~= a.
Proof. destruct a; cbn [same add zero]; [reflexivity | exact I ..]. Qed.

Lemma same_sym (a b : num) : a =~= b -> b =~= a.
Proof. destruct a, b; cbn [same add strict_eq is_finite]; auto. intros H. symmetry. exact H. Qed.

Lemma same_trans (a b c : num) : a =~= b -> b =~= c -> a =~= c.
Proof.
  destruct a, b, c; cbn [same add]; auto; try contradiction.
  intros H1 H2. rewrite H1. exact H2.
Qed.

Lemma add_same (a a' b b' : num) :
  a =~= a' -> b =~= b' -> a + b =~= a' + b'.
Proof.
  destruct a, a', b, b'; cbn [same add]; auto; try contradiction.
  intros H1 H2. rewrite !Qred_correct, H1, H2. reflexivity.
Qed.

Lemma add_assoc_same (a b c : num) : (a + b) + c =~= a + (b + c).
Proof.
  destruct a, b, c; cbn [same add]; auto.
  rewrite !Qred_correct. ring.
Qed.

Lemma add_zero_same (a : num) : a + zero =~= a.
Proof.
  destruct a; cbn [same add zero]; auto. rewrite Qred_correct. ring.
Qed.

Lemma sumPnl_push (ts : list Trade) (t : Trade) :
  sumPnl (ts ++ [t]) = sumPnl ts + pnl t.
Proof. unfold sumPnl. rewrite fold_left_app. reflexivity. Qed.

(** ** Capital conservation *)

Section Conservation.

Context {TI : TechnicalIndicators} {JM : JsMath}.

Variable marketData : list MarketData.
Variable strategy : StrategyConfig.
Variable startCapital : num.

Lemma conserved_push (st : BtState) (t : Trade) :
  Conserved startCapital st ->
  st_capital st + pnl t =~= startCapital + sumPnl (st_trades st ++ [t]).
Proof.
  unfold Conserved. intros Hinv. rewrite sumPnl_push.
  eapply same_trans; [| apply add_assoc_same].
  apply add_same; [exact Hinv | apply same_refl].
Qed.

Lemma managePosition_conserved st position signal c :
  Conserved startCapital st ->
  Conserved startCapital (managePosition st position signal c).
Proof.
  intros Hinv. unfold managePosition.
  destruct (exitCheck st position signal (close c)) as [reason p].
  destruct (nonEmpty reason); [| exact Hinv].
  unfold Conserved. cbn [st_capital st_trades].
  match goal with
  | |- context [st_trades st ++ [?t]] => exact (@conserved_push st t Hinv)
  end.
Qed.

Lemma processCandle_conserved i c st :
  Conserved startCapital st ->
  Conserved startCapital (processCandle marketData strategy i c st).
Proof.
  intros Hinv. unfold processCandle, Conserved.
  cbn [trackEquity st_capital st_trades].
  destruct (st_position st) as [position |].
  - apply managePosition_conserved. exact Hinv.
  - destruct (signal_eqb _ LONG || signal_eqb _ SHORT); exact Hinv.
Qed.

Lemma simulate_conserved remaining : forall i st,
  Conserved startCapital st ->
  Conserved startCapital (simulate marketData strategy i remaining st).
Proof.
  induction remaining as [| c rest IH]; intros i st Hinv; cbn [simulate].
  - exact Hinv.
  - apply IH. apply processCandle_conserved. exact Hinv.
Qed.

Lemma closeAtEnd_conserved st lastCandle :
  Conserved startCapital st ->
  Conserved startCapital (closeAtEnd st lastCandle).
Proof.
  intros Hinv. unfold closeAtEnd.
  destruct (st_position st) as [position |]; [| exact Hinv].
  unfold Conserved. cbn [st_capital st_trades].
  match goal with
  | |- context [st_trades st ++ [?t]] => exact (@conserved_push st t Hinv)
  end.
Qed.

End Conservation.

Lemma same_strict_eq_iff (a b : num) :
  a =~= b -> (strict_eq a b = true <-> a <> NaN).
Proof.
  destruct a, b; cbn [same strict_eq]; try contradiction; intros H.
  - split; [discriminate |]. intros _. apply Qeq_bool_iff. exact H.
  - split; [discriminate | reflexivity].
  - split; [discriminate | reflexivity].
  - split; [discriminate |]. intros Hne. elim Hne. reflexivity.
Qed.

(** C4, as the code has it.  Under exact arithmetic a completed run ends
    with the initial capital plus the sum of the recorded pnl, the forced
    End-of-Test close included: the two sides are the same value.  They
    compare equal ([===]) exactly when the final capital is not [NaN]; a
    run whose capital turned [NaN] ends with both sides [NaN], which
    compare unequal. *)
Theorem capital_conservation
    {TI : TechnicalIndicators} {JM : JsMath}
    (marketData : list MarketData) (strategy : StrategyConfig)
    (startCapital : num) (r : BacktestResult) :
  runBacktest marketData strategy startCapital = Ok r ->
  initialCapital r = startCapital
  /\ finalCapital r =~= initialCapital r + sumPnl (trades r)
  /\ (strict_eq (finalCapital r) (initialCapital r + sumPnl (trades r))
      = true
      <-> finalCapital r <> NaN).
Proof.
  intros Hr.
  destruct (runBacktest_inv _ _ _ Hr)
    as (_ & lastCandle & _ & Ht & Hc & _ & _ & Hinit).
  assert (Hsame : finalCapital r =~= initialCapital r + sumPnl (trades r)).
  { rewrite Hinit, Hc, Ht. unfold finalState.
    apply closeAtEnd_conserved, simulate_conserved.
    unfold Conserved. cbn. apply same_sym, add_zero_same. }
  split; [exact Hinit |]. split; [exact Hsame |].
  apply same_strict_eq_iff. exact Hsame.
Qed.

Lemma capital_conservation_witness :
  exists r,
    runBacktest stoppedOut trendFollowing defaultInitialCapital = Ok r
    /\ finalCapital r = Fin 9900
    /\ sumPnl (trades r) = Fin (-100)
    /\ finalCapital r =~= initialCapital r + sumPnl (trades r).
Proof.
  eexists. split; [vm_compute; reflexivity |].
  split; [reflexivity |]. split; [reflexivity |].
  refine (proj1 (proj2 (capital_conservation stoppedOut trendFollowing
                          defaultInitialCapital _))).
  vm_compute. reflexivity.
Defined.

(** C4 as stated fails on a run that completes with a [NaN] capital: after
    an entry on a candle whose high equals its low the forced close records
    a [NaN] pnl, and the final capital does not compare equal to the initial
    capital plus the sum of the pnl. *)
Lemma nan_capital_is_not_conserved :
  exists r,
    runBacktest flatEntry trendFollowing defaultInitialCapital = Ok r
    /\ finalCapital r = NaN
    /\ initialCapital r + sumPnl (trades r) = NaN
    /\ strict_eq (finalCapital r) (initialCapital r + sumPnl (trades r))
       = false.
Proof.
  eexists. split; [vm_compute; reflexivity |].
  repeat split; reflexivity.
Qed.

(** ** Single position *)

Lemma strictlyIncreasing_tail (a : Z) (ts : list Z) :
  strictlyIncreasing (a :: ts) = true -> strictlyIncreasing ts = true.
Proof.
  destruct ts as [| b rest]; [reflexivity |].
  cbn [strictlyIncreasing]. intros H.
  apply andb_prop in H. exact (proj2 H).
Qed.

Lemma strictlyIncreasing_skipn (n : nat) : forall ts,
  strictlyIncreasing ts = true -> strictlyIncreasing (skipn n ts) = true.
Proof.
  induction n as [| n IH]; intros ts H; [exact H |].
  destruct ts as [| a rest]; [reflexivity |].
  cbn [skipn]. apply IH. exact (strictlyIncreasing_tail _ _ H).
Qed.

Lemma nonOverlapping_push (ts : list Trade) (t : Trade) :
  NonOverlapping ts ->
  Forall (fun t' => (exitTime t' <= entryTime t)%Z) ts ->
  NonOverlapping (ts ++ [t]).
Proof.
  intros Hts Hall i t1 t2 H1 H2.
  destruct (Nat.lt_ge_cases (S i) (length ts)) as [Hin | Hout].
  - rewrite nth_error_app1 in H1 by lia.
    rewrite nth_error_app1 in H2 by lia.
    exact (Hts i t1 t2 H1 H2).
  - rewrite nth_error_app2 in H2 by lia.
    destruct (S i - length ts)%nat as [| j] eqn:Hj.
    + cbn in H2. injection H2 as <-.
      rewrite nth_error_app1 in H1 by lia.
      rewrite Forall_forall in Hall. apply Hall.
      exact (nth_error_In _ _ H1).
    + destruct j; discriminate H2.
Qed.

Lemma Forall_exit_le (ts : list Trade) (a b : Z) :
  (a <= b)%Z ->
  Forall (fun t => (exitTime t <= a)%Z) ts ->
  Forall (fun t => (exitTime t <= b)%Z) ts.
Proof.
  intros Hab. apply Forall_impl. intros t Ht. lia.
Qed.

Section SinglePosition.

Context {TI : TechnicalIndicators} {JM : JsMath}.

Variable marketData : list MarketData.
Variable strategy : StrategyConfig.

Lemma managePosition_sequential now st position signal c :
  st_position st = Some position ->
  (now < timestamp c)%Z ->
  Sequential now st ->
  Sequential (timestamp c) (managePosition st position signal c).
Proof.
  intros Hpos Hnow (Hno & Hexit & Hentry).
  assert (Hopen : st_position st <> None) by (rewrite Hpos; discriminate).
  unfold managePosition.
  destruct (exitCheck st position signal (close c)) as [reason p].
  destruct (nonEmpty reason).
  - unfold Sequential. cbn [st_trades st_position st_entryTime].
    split; [| split].
    + apply nonOverlapping_push; [exact Hno |].
      cbn [closedTrade entryTime]. exact (Hentry Hopen).
    + apply Forall_app. split.
      * apply Forall_exit_le with (a := now); [lia | exact Hexit].
      * constructor; [cbn; lia | constructor].
    + intros Habs. contradiction Habs. reflexivity.
  - split; [exact Hno |]. split; [| exact Hentry].
    apply Forall_exit_le with (a := now); [lia | exact Hexit].
Qed.

Lemma processCandle_sequential now i c st :
  (now < timestamp c)%Z ->
  Sequential now st ->
  Sequential (timestamp c) (processCandle marketData strategy i c st).
Proof.
  intros Hnow Hseq. unfold processCandle.
  match goal with
  | |- Sequential _ (trackEquity ?s) =>
      cut (Sequential (timestamp c) s); [intros H; exact H |]
  end.
  destruct (st_position st) as [position |] eqn:Hpos.
  - apply managePosition_sequential with (now := now); assumption.
  - destruct Hseq as (Hno & Hexit & Hentry).
    assert (Hle : Forall (fun t => (exitTime t <= timestamp c)%Z)
                    (st_trades st))
      by (apply Forall_exit_le with (a := now); [lia | exact Hexit]).
    destruct (signal_eqb _ LONG || signal_eqb _ SHORT).
    + unfold Sequential. cbn [enterPosition st_trades st_position st_entryTime].
      split; [exact Hno |]. split; [exact Hle |]. intros _. exact Hle.
    + split; [exact Hno |]. split; [exact Hle |].
      intros Habs. rewrite Hpos in Habs. contradiction Habs. reflexivity.
Qed.

Lemma simulate_sequential remaining : forall now i st,
  strictlyIncreasing (now :: map timestamp remaining) = true ->
  Sequential now st ->
  exists now',
    Sequential now' (simulate marketData strategy i remaining st).
Proof.
  induction remaining as [| c rest IH]; intros now i st Hinc Hseq;
    cbn [simulate].
  - exists now. exact Hseq.
  - cbn [map strictlyIncreasing] in Hinc.
    apply andb_prop in Hinc. destruct Hinc as [Hlt Hrest].
    apply Z.ltb_lt in Hlt.
    apply (IH (timestamp c)); [exact Hrest |].
    apply processCandle_sequential with (now := now); assumption.
Qed.

Lemma closeAtEnd_nonOverlapping now st lastCandle :
  Sequential now st ->
  NonOverlapping (st_trades (closeAtEnd st lastCandle)).
Proof.
  intros (Hno & _ & Hentry). unfold closeAtEnd.
  destruct (st_position st) as [position |] eqn:Hpos; [| exact Hno].
  cbn [st_trades]. apply nonOverlapping_push; [exact Hno |].
  cbn [entryTime]. apply Hentry. discriminate.
Qed.

End SinglePosition.

(** C7. When the candle timestamps are strictly increasing, consecutive
    trades of a completed run do not overlap:
    [trades[i].exitTime <= trades[i+1].entryTime]. *)
Theorem single_position
    {TI : TechnicalIndicators} {JM : JsMath}
    (marketData : list MarketData) (strategy : StrategyConfig)
    (startCapital : num) (r : BacktestResult) :
  strictlyIncreasing (map timestamp marketData) = true ->
  runBacktest marketData strategy startCapital = Ok r ->
  forall i t1 t2,
    nth_error (trades r) i = Some t1 ->
    nth_error (trades r) (S i) = Some t2 ->
    (exitTime t1 <= entryTime t2)%Z.
Proof.
  intros Hinc Hr.
  destruct (runBacktest_inv _ _ _ Hr) as (_ & lastCandle & _ & Ht & _).
  rewrite Ht. unfold finalState.
  assert (Hinit : forall now, Sequential now (initState startCapital)).
  { intros now. unfold Sequential. cbn [initState st_trades st_position].
    split; [| split; [constructor | intros _; constructor]].
    intros i t1 t2 H1. destruct i; discriminate H1. }
  assert (Hsuffix : strictlyIncreasing (map timestamp (skipn 50 marketData))
                    = true).
  { rewrite <- skipn_map. apply strictlyIncreasing_skipn. exact Hinc. }
  destruct (skipn 50 marketData) as [| c rest] eqn:Hskip.
  - cbn [simulate]. apply closeAtEnd_nonOverlapping with (now := 0%Z).
    apply Hinit.
  - destruct (@simulate_sequential TI JM marketData strategy (c :: rest)
                (timestamp c - 1)%Z 50 (initState startCapital))
      as (now' & Hseq).
    + cbn [map strictlyIncreasing] in Hsuffix |- *.
      rewrite Hsuffix, andb_true_r. apply Z.ltb_lt. lia.
    + apply Hinit.
    + apply closeAtEnd_nonOverlapping with (now := now'). exact Hseq.
Qed.

Lemma single_position_witness :
  exists r,
    runBacktest twoTrades trendFollowing defaultInitialCapital = Ok r
    /\ map (fun t => (entryTime t, exitTime t)) (trades r)
       = [(50, 51); (52, 52)]%Z
    /\ forall i t1 t2,
         nth_error (trades r) i = Some t1 ->
         nth_error (trades r) (S i) = Some t2 ->
         (exitTime t1 <= entryTime t2)%Z.
Proof.
  eexists. split; [vm_compute; reflexivity |].
  split; [reflexivity |].
  apply (single_position twoTrades trendFollowing defaultInitialCapital).
  - reflexivity.
  - vm_compute. reflexivity.
Defined.

(** ** Comparisons and signs in the number model *)

Lemma Qltb_lt (a b : Q) : Qltb a b = true <-> (a < b)%Q.
Proof.
  unfold Qltb. rewrite Qlt_alt.
  destruct (a ?= b)%Q; split; intros H; try reflexivity; discriminate H.
Qed.

Lemma Qltb_ge (a b : Q) : Qltb a b = false <-> (b <= a)%Q.
Proof.
  split; intros H.
  - apply Qnot_lt_le. intros Hlt. apply Qltb_lt in Hlt. congruence.
  - destruct (Qltb a b) eqn:E; [| reflexivity].
    apply Qltb_lt in E. lra.
Qed.

Lemma Qeq_bool_false (a b : Q) : Qeq_bool a b = false <-> ~ (a == b)%Q.
Proof.
  split; intros H.
  - intros Heq. apply Qeq_bool_iff in Heq. congruence.
  - destruct (Qeq_bool a b) eqn:E; [| reflexivity].
    apply Qeq_bool_iff in E. contradiction.
Qed.

Lemma inf_signed_pos (q : Q) : (0 < q)%Q -> inf_signed q = PInf.
Proof.
  intros H. unfold inf_signed. apply Qltb_lt in H. rewrite H. reflexivity.
Qed.

Lemma inf_signed_zero (q : Q) : (q == 0)%Q -> inf_signed q = NaN.
Proof.
  intros H. unfold inf_signed.
  assert (H1 : Qltb 0 q = false) by (apply Qltb_ge; lra).
  assert (H2 : Qltb q 0 = false) by (apply Qltb_ge; lra).
  rewrite H1, H2. reflexivity.
Qed.

Lemma div_by_zero_pos (x y : Q) :
  (0 < x)%Q -> (y == 0)%Q -> Fin x / Fin y = PInf.
Proof.
  intros Hx Hy. cbn [div]. apply Qeq_bool_iff in Hy. rewrite Hy.
  apply inf_signed_pos. exact Hx.
Qed.

Lemma mul_zero_PInf (x : Q) : (x == 0)%Q -> Fin x * PInf = NaN.
Proof. intros H. cbn [mul]. apply inf_signed_zero. exact H. Qed.

(** ** The unguarded position size *)

Lemma atr_absent {TI : TechnicalIndicators} {JM : JsMath}
    (data : list MarketData) (strategy : StrategyConfig) :
  style strategy <> BREAKOUT ->
  atr (calculateIndicators data strategy) = None.
Proof.
  intros Hstyle. unfold calculateIndicators.
  destruct (length data <? 50)%nat; [reflexivity |].
  cbn [atr]. destruct (style strategy); try reflexivity.
  contradiction Hstyle. reflexivity.
Qed.

Section FlatEntry.

Variable strategy : StrategyConfig.
Variable indicators : Indicators.
Variable c : MarketData.
Variables p hl cap rpt : Q.

Hypothesis Hclose : close c = Fin p.
Hypothesis Hhigh : high c = Fin hl.
Hypothesis Hlow : low c = Fin hl.
Hypothesis Hatr : otruthy (atr indicators) = false.
Hypothesis Hrisk : riskPerTrade strategy = Fin rpt.
Hypothesis Hcap : (0 < cap)%Q.
Hypothesis Hrpt : (0 < rpt)%Q.

Lemma flat_atrValue :
  exists z, atrValueOf indicators c = Fin z /\ (z == 0)%Q.
Proof.
  unfold atrValueOf, or_else. rewrite Hhigh, Hlow.
  assert (Hz : Fin hl - Fin hl = Fin (Qred (hl + - hl))) by reflexivity.
  unfold otruthy in Hatr.
  destruct (atr indicators) as [a |];
    [rewrite Hatr |]; rewrite Hz; eexists;
    (split; [reflexivity | rewrite Qred_correct; ring]).
Qed.

Lemma flat_riskPerUnit (signal : TradeSignal) :
  exists y,
    riskPerUnitOf signal (atrValueOf indicators c) c = Fin y /\ (y == 0)%Q.
Proof.
  destruct flat_atrValue as (z & -> & Hz).
  unfold riskPerUnitOf, entryStopLoss. rewrite Hclose.
  destruct (signal_eqb signal LONG); cbn [mul sub add neg abs];
    eexists; (split; [reflexivity |]);
    rewrite !Qred_correct;
    match goal with
    | |- (Qabs ?e == 0)%Q =>
        assert (He : (e == 0)%Q)
          by (rewrite ?Qred_correct, Hz; ring);
        rewrite He; reflexivity
    end.
Qed.

Lemma flat_positionSize (signal : TradeSignal) :
  entryPositionSize strategy (Fin cap) signal (atrValueOf indicators c) c
  = PInf.
Proof.
  unfold entryPositionSize.
  destruct (flat_riskPerUnit signal) as (y & -> & Hy).
  rewrite Hrisk. cbn [mul].
  apply div_by_zero_pos; [| exact Hy].
  rewrite Qred_correct. apply Qmult_lt_0_compat; assumption.
Qed.

End FlatEntry.

Lemma sub_self_zero (p : Q) : exists w, Fin p - Fin p = Fin w /\ (w == 0)%Q.
Proof.
  eexists. split; [reflexivity |]. rewrite Qred_correct. ring.
Qed.

Lemma signal_fires (signal : TradeSignal) :
  signal <> NEUTRAL -> signal_eqb signal LONG || signal_eqb signal SHORT = true.
Proof.
  destruct signal; intros H; try reflexivity. contradiction H. reflexivity.
Qed.

(** C10. The position-size division is unguarded.  Take any 50 candles,
    then a candle whose high equals its low on which the engine signals an
    entry while the indicator bag carries no truthy [atr] (always so for a
    style other than BREAKOUT, the only one that computes [atr]), a
    positive capital and a positive risk fraction.  Then the risk per unit
    is zero, the position size is [Infinity], and the run does not raise:
    it returns one End-of-Test trade whose pnl is [NaN], and a final
    capital that is [NaN]. *)
Theorem unguarded_position_size
    {TI : TechnicalIndicators} {JM : JsMath}
    (warm : list MarketData) (c : MarketData) (strategy : StrategyConfig)
    (p hl cap rpt : Q) :
  length warm = 50%nat ->
  close c = Fin p -> high c = Fin hl -> low c = Fin hl ->
  riskPerTrade strategy = Fin rpt ->
  (0 < cap)%Q -> (0 < rpt)%Q ->
  otruthy (atr (calculateIndicators (warm ++ [c]) strategy)) = false ->
  generateSignal c (calculateIndicators (warm ++ [c]) strategy) strategy
  <> NEUTRAL ->
  let indicators := calculateIndicators (warm ++ [c]) strategy in
  let signal := generateSignal c indicators strategy in
  (forall data,
     style strategy <> BREAKOUT ->
     atr (calculateIndicators data strategy) = None)
  /\ (exists y,
        riskPerUnitOf signal (atrValueOf indicators c) c = Fin y
        /\ (y == 0)%Q)
  /\ entryPositionSize strategy (Fin cap) signal (atrValueOf indicators c) c
     = PInf
  /\ exists r t,
       runBacktest (warm ++ [c]) strategy (Fin cap) = Ok r
       /\ trades r = [t]
       /\ exitReason t = "End of Test"
       /\ pnl t = NaN
       /\ finalCapital r = NaN.
Proof.
  intros Hlen Hclose Hhigh Hlow Hrisk Hcap Hrpt Hfalsy Hsignal
         indicators signal.
  fold indicators in Hfalsy.
  assert (Hsize :
    entryPositionSize strategy (Fin cap) signal (atrValueOf indicators c) c
    = PInf)
    by (apply flat_positionSize with (p := p) (hl := hl) (rpt := rpt);
        assumption).
  split; [intros data Hstyle; apply atr_absent; exact Hstyle |].
  split; [apply flat_riskPerUnit with (p := p) (hl := hl); assumption |].
  split; [exact Hsize |].
  destruct (runBacktest_total (warm ++ [c]) strategy (Fin cap)) as [r Hr];
    [rewrite length_app, Hlen; cbn; lia |].
  destruct (runBacktest_inv _ _ _ Hr)
    as (_ & lastCandle & Hlast & Ht & Hc & _).
  rewrite last_opt_app in Hlast. injection Hlast as <-.
  assert (Hskip : skipn 50 (warm ++ [c]) = [c]).
  { rewrite skipn_app, Hlen, Nat.sub_diag.
    rewrite skipn_all2 by lia. reflexivity. }
  assert (Hfirst : firstn (50 + 1) (warm ++ [c]) = warm ++ [c]).
  { apply firstn_all2. rewrite length_app, Hlen. cbn. lia. }
  unfold finalState in Ht, Hc. rewrite Hskip in Ht, Hc.
  cbn [simulate] in Ht, Hc. unfold processCandle in Ht, Hc.
  rewrite Hfirst in Ht, Hc.
  fold indicators in Ht, Hc. fold signal in Ht, Hc.
  cbn [initState st_position] in Ht, Hc.
  assert (Hfire : signal_eqb signal LONG || signal_eqb signal SHORT = true)
    by (apply signal_fires; exact Hsignal).
  rewrite Hfire in Ht, Hc.
  unfold closeAtEnd in Ht, Hc.
  cbn [trackEquity enterPosition st_position st_trades st_capital
       st_entryPrice st_positionSize st_entryTime initState] in Ht, Hc.
  rewrite Hsize, Hclose in Ht, Hc.
  destruct (sub_self_zero p) as (w & Hw & Hw0).
  assert (Hpnl :
    (if side_eqb (if signal_eqb signal LONG then long else short) long
     then Fin p - Fin p else Fin p - Fin p) * PInf = NaN).
  { destruct (side_eqb _ long); rewrite Hw; apply mul_zero_PInf; exact Hw0. }
  rewrite Hpnl in Ht, Hc.
  eexists r, _. split; [exact Hr |]. split; [exact Ht |].
  split; [reflexivity |]. split; [reflexivity |].
  rewrite Hc. reflexivity.
Qed.

Lemma unguarded_position_size_witness :
  exists r t,
    runBacktest flatEntry trendFollowing defaultInitialCapital = Ok r
    /\ trades r = [t]
    /\ exitReason t = "End of Test"
    /\ pnl t = NaN
    /\ finalCapital r = NaN.
Proof.
  refine (proj2 (proj2 (proj2
    (unguarded_position_size (warmup 50) (candle 50 110 110 110)
       trendFollowing (p := 110) (hl := 110) (cap := 10000) (rpt := 0.01)
       _ _ _ _ _ _ _ _ _)))).
  - reflexivity.
  - reflexivity.
  - reflexivity.
  - reflexivity.
  - reflexivity.
  - reflexivity.
  - reflexivity.
  - vm_compute. reflexivity.
  - vm_compute. discriminate.
Defined.

(** ** Drawdown bounds *)



Lemma max_list_push (xs : list num) (x : num) :
  max_list (xs ++ [x]) = max (max_list xs) x.
Proof. unfold max_list. rewrite fold_left_app. reflexivity. Qed.






Section EquityBound.

Context {TI : TechnicalIndicators} {JM : JsMath}.

Variable marketData : list MarketData.
Variable strategy : StrategyConfig.



End EquityBound.





(** It also fails with the default capital when a position is entered on a
    candle whose high equals its low: the position size is infinite and
    the next exit turns the capital, and the drawdown, into [NaN]. *)
Lemma flat_entry_drawdown_is_NaN :
  exists r,
    runBacktest flatThenDrop trendFollowing defaultInitialCapital = Ok r
    /\ map exitReason (trades r) = ["Stop Loss"]
    /\ equity r = [Fin 10000; Fin 10000; NaN]
    /\ drawdowns r = [Fin 0; Fin 0; NaN].
Proof.
  eexists. split; [vm_compute; reflexivity |].
  repeat split; reflexivity.
Qed.

(** * Further properties of the engine *)

(** ** Order of the number model *)

Lemma le_trans_num (a b c : num) :
  le a b = true -> le b c = true -> le a c = true.
Proof.
  destruct a, b, c; cbn [le]; try discriminate; try reflexivity.
  rewrite !Qle_bool_iff. intros H1 H2. lra.
Qed.

Lemma le_not_lt (a b : num) : le a b = true -> lt b a = false.
Proof.
  destruct a, b; cbn [le lt]; try discriminate; try reflexivity.
  rewrite Qle_bool_iff. intros H. apply Qltb_ge. exact H.
Qed.

Lemma le_refl_num (a : num) : a <> NaN -> le a a = true.
Proof.
  destruct a; cbn [le]; try reflexivity.
  - intros _. apply Qle_bool_iff. lra.
  - intros H. contradiction H. reflexivity.
Qed.

Lemma max_NaN_l (b : num) : max NaN b = NaN.
Proof. reflexivity. Qed.

Lemma fold_max_NaN (xs : list num) : fold_left max xs NaN = NaN.
Proof. induction xs as [| x rest IH]; [reflexivity | exact IH]. Qed.

Lemma min_NaN_l (b : num) : min NaN b = NaN.
Proof. reflexivity. Qed.

Lemma fold_min_NaN (xs : list num) : fold_left min xs NaN = NaN.
Proof. induction xs as [| x rest IH]; [reflexivity | exact IH]. Qed.

Lemma max_bounds (a b : num) :
  max a b = NaN \/ (le a (max a b) = true /\ le b (max a b) = true).
Proof.
  destruct a as [x | | |], b as [y | | |]; cbn [max lt le]; auto;
    try (destruct (Qltb x y) eqn:E;
         [apply Qltb_lt in E | apply Qltb_ge in E]);
    right; cbn [le]; split; try reflexivity;
    apply Qle_bool_iff; lra.
Qed.

Lemma min_bounds (a b : num) :
  min a b = NaN \/ (le (min a b) a = true /\ le (min a b) b = true).
Proof.
  destruct a as [x | | |], b as [y | | |]; cbn [min lt le]; auto;
    try (destruct (Qltb y x) eqn:E;
         [apply Qltb_lt in E | apply Qltb_ge in E]);
    right; cbn [le]; split; try reflexivity;
    apply Qle_bool_iff; lra.
Qed.

Lemma fold_max_bounds (xs : list num) : forall acc,
  fold_left max xs acc = NaN
  \/ (le acc (fold_left max xs acc) = true
      /\ Forall (fun x => le x (fold_left max xs acc) = true) xs).
Proof.
  induction xs as [| x rest IH]; intros acc; cbn [fold_left].
  - destruct acc; auto; right; (split; [| constructor]);
      try reflexivity.
    apply Qle_bool_iff. lra.
  - destruct (max_bounds acc x) as [Hnan | [Ha Hx]].
    + left. rewrite Hnan. apply fold_max_NaN.
    + destruct (IH (max acc x)) as [Hnan | [Hm Hall]]; [left; exact Hnan |].
      right. split; [exact (le_trans_num _ _ _ Ha Hm) |].
      constructor; [exact (le_trans_num _ _ _ Hx Hm) | exact Hall].
Qed.

Lemma fold_min_bounds (xs : list num) : forall acc,
  fold_left min xs acc = NaN
  \/ (le (fold_left min xs acc) acc = true
      /\ Forall (fun x => le (fold_left min xs acc) x = true) xs).
Proof.
  induction xs as [| x rest IH]; intros acc; cbn [fold_left].
  - destruct acc; auto; right; (split; [| constructor]);
      try reflexivity.
    apply Qle_bool_iff. lra.
  - destruct (min_bounds acc x) as [Hnan | [Ha Hx]].
    + left. rewrite Hnan. apply fold_min_NaN.
    + destruct (IH (min acc x)) as [Hnan | [Hm Hall]]; [left; exact Hnan |].
      right. split; [exact (le_trans_num _ _ _ Hm Ha) |].
      constructor; [exact (le_trans_num _ _ _ Hm Hx) | exact Hall].
Qed.

Lemma max_list_bounds (xs : list num) :
  max_list xs = NaN \/ Forall (fun x => le x (max_list xs) = true) xs.
Proof.
  unfold max_list.
  destruct (fold_max_bounds xs NInf) as [H | [_ H]]; [left | right]; exact H.
Qed.

Lemma min_list_bounds (xs : list num) :
  min_list xs = NaN \/ Forall (fun x => le (min_list xs) x = true) xs.
Proof.
  unfold min_list.
  destruct (fold_min_bounds xs PInf) as [H | [_ H]]; [left | right]; exact H.
Qed.

(** ** Donchian channels *)

Lemma fold_max_has_NaN (xs : list num) : forall acc,
  existsb isNaN xs = true -> fold_left max xs acc = NaN.
Proof.
  induction xs as [| x rest IH]; intros acc H; [discriminate H |].
  cbn [existsb] in H. cbn [fold_left].
  destruct x; cbn [isNaN orb] in H; try (apply IH; exact H).
  destruct acc; apply fold_max_NaN.
Qed.

Lemma fold_min_has_NaN (xs : list num) : forall acc,
  existsb isNaN xs = true -> fold_left min xs acc = NaN.
Proof.
  induction xs as [| x rest IH]; intros acc H; [discriminate H |].
  cbn [existsb] in H. cbn [fold_left].
  destruct x; cbn [isNaN orb] in H; try (apply IH; exact H).
  destruct acc; apply fold_min_NaN.
Qed.

Lemma max_picks (a b : num) :
  a <> NaN -> isNaN b = false ->
  max a b <> NaN /\ (max a b = a \/ max a b = b).
Proof.
  intros Ha Hb.
  destruct a as [x | | |], b as [y | | |]; try discriminate Hb;
    try (elim Ha; reflexivity); cbn [max lt];
    try destruct (Qltb x y); split; try discriminate; auto.
Qed.

Lemma min_picks (a b : num) :
  a <> NaN -> isNaN b = false ->
  min a b <> NaN /\ (min a b = a \/ min a b = b).
Proof.
  intros Ha Hb.
  destruct a as [x | | |], b as [y | | |]; try discriminate Hb;
    try (elim Ha; reflexivity); cbn [min lt];
    try destruct (Qltb y x); split; try discriminate; auto.
Qed.

Lemma fold_max_member (xs : list num) : forall acc,
  acc <> NaN -> existsb isNaN xs = false ->
  fold_left max xs acc <> NaN
  /\ (fold_left max xs acc = acc \/ In (fold_left max xs acc) xs).
Proof.
  induction xs as [| x rest IH]; intros acc Hacc H; cbn [fold_left].
  - split; [exact Hacc | left; reflexivity].
  - cbn [existsb] in H. apply orb_false_elim in H. destruct H as [Hx Hrest].
    destruct (@max_picks _ _ Hacc Hx) as [Hm Hpick].
    destruct (IH _ Hm Hrest) as [Hn [Hsame | Hin]].
    + split; [exact Hn |]. rewrite Hsame.
      destruct Hpick as [-> | ->]; [left; reflexivity | right; left].
      reflexivity.
    + split; [exact Hn | right; right; exact Hin].
Qed.

Lemma fold_min_member (xs : list num) : forall acc,
  acc <> NaN -> existsb isNaN xs = false ->
  fold_left min xs acc <> NaN
  /\ (fold_left min xs acc = acc \/ In (fold_left min xs acc) xs).
Proof.
  induction xs as [| x rest IH]; intros acc Hacc H; cbn [fold_left].
  - split; [exact Hacc | left; reflexivity].
  - cbn [existsb] in H. apply orb_false_elim in H. destruct H as [Hx Hrest].
    destruct (@min_picks _ _ Hacc Hx) as [Hm Hpick].
    destruct (IH _ Hm Hrest) as [Hn [Hsame | Hin]].
    + split; [exact Hn |]. rewrite Hsame.
      destruct Hpick as [-> | ->]; [left; reflexivity | right; left].
      reflexivity.
    + split; [exact Hn | right; right; exact Hin].
Qed.

Lemma le_NInf_only (m x : num) : m = NInf -> le x m = true -> x = NInf.
Proof. intros ->. destruct x; cbn [le]; try discriminate; reflexivity. Qed.

Lemma le_PInf_only (m x : num) : m = PInf -> le m x = true -> x = PInf.
Proof. intros ->. destruct x; cbn [le]; try discriminate; reflexivity. Qed.

(** [Math.max(...window)]: [NaN] when the window holds a [NaN], otherwise
    its greatest member, and [-Infinity] when it is empty. *)
Lemma max_list_greatest (window : list num) :
  if existsb isNaN window then max_list window = NaN
  else Greatest NInf window (max_list window).
Proof.
  destruct (existsb isNaN window) eqn:Hnan;
    [apply fold_max_has_NaN; exact Hnan |].
  unfold max_list, Greatest.
  assert (Hstart : NInf <> NaN) by discriminate.
  destruct (@fold_max_member window NInf Hstart Hnan) as [Hn Hmem].
  destruct (fold_max_bounds window NInf) as [Habs | [_ Hall]];
    [elim (Hn Habs) |].
  split; [exact Hall |].
  destruct window as [| x rest]; [reflexivity |].
  destruct Hmem as [Hlow | Hin]; [| exact Hin].
  inversion Hall as [| ? ? Hx _]; subst.
  left. rewrite Hlow. exact (@le_NInf_only _ _ Hlow Hx).
Qed.

Lemma min_list_least (window : list num) :
  if existsb isNaN window then min_list window = NaN
  else Least PInf window (min_list window).
Proof.
  destruct (existsb isNaN window) eqn:Hnan;
    [apply fold_min_has_NaN; exact Hnan |].
  unfold min_list, Least.
  assert (Hstart : PInf <> NaN) by discriminate.
  destruct (@fold_min_member window PInf Hstart Hnan) as [Hn Hmem].
  destruct (fold_min_bounds window PInf) as [Habs | [_ Hall]];
    [elim (Hn Habs) |].
  split; [exact Hall |].
  destruct window as [| x rest]; [reflexivity |].
  destruct Hmem as [Hhigh | Hin]; [| exact Hin].
  inversion Hall as [| ? ? Hx _]; subst.
  left. rewrite Hhigh. exact (@le_PInf_only _ _ Hhigh Hx).
Qed.

(** X1. With at least [period] highs and lows, the upper channel is [NaN]
    exactly when the window of the last [period] highs ([slice(-period)],
    the whole array for a period of 0) holds a [NaN]; otherwise it is the
    greatest high of the window, at or above every other.  The lower
    channel is likewise [NaN] or the least low of its window, and the
    middle is the mean of the two. *)
Theorem donchian_bounds (highs lows : list num) (period : nat) :
  (period <= length highs)%nat ->
  (period <= length lows)%nat ->
  let dc := calculateDonchianChannels highs lows period in
  (if existsb isNaN (slice_last period highs) then upper dc = NaN
   else Greatest NInf (slice_last period highs) (upper dc))
  /\ (if existsb isNaN (slice_last period lows) then lower dc = NaN
      else Least PInf (slice_last period lows) (lower dc))
  /\ middle dc = (upper dc + lower dc) / Fin 2.
Proof.
  intros Hh Hl. unfold calculateDonchianChannels.
  destruct (Nat.ltb_spec (length highs) period) as [Hlt | _]; [lia |].
  destruct (Nat.ltb_spec (length lows) period) as [Hlt | _]; [lia |].
  cbn [orb upper lower middle].
  split; [apply max_list_greatest |].
  split; [apply min_list_least | reflexivity].
Qed.

Lemma donchian_bounds_witness :
  calculateDonchianChannels [Fin 3; Fin 9; Fin 5] [Fin 1; Fin 4; Fin 2] 2
  = mkBands (Fin 9) (Fin (11 # 2)) (Fin 2)
  /\ Greatest NInf [Fin 9; Fin 5] (Fin 9)
  /\ Least PInf [Fin 4; Fin 2] (Fin 2).
Proof.
  split; [reflexivity |].
  destruct (@donchian_bounds [Fin 3; Fin 9; Fin 5] [Fin 1; Fin 4; Fin 2]
              2%nat)
    as (Hup & Hlow & _); [cbn; lia | cbn; lia |].
  split; [exact Hup | exact Hlow].
Defined.

(** ** The breakout rule on the closing candle *)

Lemma slice_last_In_last {A : Type} (n : nat) (xs : list A) (x : A) :
  (1 <= n)%nat -> In x (slice_last n (xs ++ [x])).
Proof.
  intros Hn. rewrite slice_last_skipn by lia.
  rewrite length_app, skipn_app.
  cbn [length].
  replace (length xs + 1 - n - length xs)%nat with 0%nat by lia.
  apply in_or_app. right. left. reflexivity.
Qed.

Lemma wellFormed_bounds (c : MarketData) :
  wellFormed c = true ->
  le (low c) (close c) = true /\ le (close c) (high c) = true.
Proof. unfold wellFormed. intros H. apply andb_prop in H. exact H. Qed.

(** The channel of a window that ends on a well-formed candle encloses
    the close of that candle. *)
Lemma donchian_encloses_close (init : list MarketData) (c : MarketData) :
  wellFormed c = true ->
  (20 <= length (init ++ [c]))%nat ->
  let data := init ++ [c] in
  let dc := calculateDonchianChannels (map high data) (map low data) 20 in
  lt (upper dc) (close c) = false /\ lt (close c) (lower dc) = false.
Proof.
  intros Hwf Hlen data dc.
  destruct (wellFormed_bounds c Hwf) as [Hlow Hhigh].
  assert (Hdc : dc = mkBands
                       (max_list (slice_last 20 (map high data)))
                       (((max_list (slice_last 20 (map high data)))
                         + min_list (slice_last 20 (map low data))) / Fin 2)
                       (min_list (slice_last 20 (map low data)))).
  { subst dc. unfold calculateDonchianChannels.
    destruct (Nat.ltb_spec (length (map high data)) 20) as [Hlt | _];
      [subst data; rewrite length_map in Hlt; lia |].
    destruct (Nat.ltb_spec (length (map low data)) 20) as [Hlt | _];
      [subst data; rewrite length_map in Hlt; lia |].
    reflexivity. }
  pose proof (max_list_bounds (slice_last 20 (map high data))) as Hup.
  pose proof (min_list_bounds (slice_last 20 (map low data))) as Hlo.
  rewrite Hdc. cbn [upper lower]. split.
  - destruct Hup as [Hnan | Hall]; [rewrite Hnan; reflexivity |].
    apply le_not_lt. apply le_trans_num with (b := high c); [exact Hhigh |].
    rewrite Forall_forall in Hall. apply Hall.
    subst data. rewrite map_app. cbn [map].
    apply slice_last_In_last. lia.
  - destruct Hlo as [Hnan | Hall].
    + rewrite Hnan. apply lt_NaN_r.
    + apply le_not_lt. apply le_trans_num with (b := low c); [| exact Hlow].
      rewrite Forall_forall in Hall. apply Hall.
      subst data. rewrite map_app. cbn [map].
      apply slice_last_In_last. lia.
Qed.

Lemma generateBreakoutSignal_closing
    {TI : TechnicalIndicators} {JM : JsMath}
    (init : list MarketData) (c : MarketData) (strategy : StrategyConfig) :
  style strategy = BREAKOUT ->
  wellFormed c = true ->
  generateBreakoutSignal c (calculateIndicators (init ++ [c]) strategy)
  = NEUTRAL.
Proof.
  intros Hstyle Hwf.
  unfold generateBreakoutSignal, calculateIndicators.
  destruct (Nat.ltb_spec (length (init ++ [c])) 50) as [Hshort | Hlong];
    [reflexivity |].
  rewrite Hstyle. cbn [donchian volumeChange style_eqb].
  destruct (donchian_encloses_close init c Hwf) as [Hup Hlo]; [lia |].
  cbn zeta in Hup, Hlo. unfold gt. rewrite Hup, Hlo. cbn [andb].
  destruct (otruthy _); reflexivity.
Qed.

(** X2. On the bag computed from a window that ends on a well-formed
    candle, the breakout rule is NEUTRAL for that candle, whatever the
    indicator package returns: the close cannot lie outside a channel that
    contains its own high and low. *)
Theorem breakout_neutral_on_closing_candle
    {TI : TechnicalIndicators} {JM : JsMath}
    (init : list MarketData) (c : MarketData) (strategy : StrategyConfig) :
  style strategy = BREAKOUT ->
  wellFormed c = true ->
  generateSignal c (calculateIndicators (init ++ [c]) strategy) strategy
  = NEUTRAL.
Proof.
  intros Hstyle Hwf. unfold generateSignal. rewrite Hstyle.
  apply generateBreakoutSignal_closing; assumption.
Qed.

Lemma breakout_neutral_on_closing_candle_witness :
  generateSignal (candle 50 112 108 110)
    (calculateIndicators (warmup 50 ++ [candle 50 112 108 110]) breakout)
    breakout
  = NEUTRAL.
Proof.
  apply breakout_neutral_on_closing_candle; reflexivity.
Defined.

(** ** Runs that never trade *)

Section IdleRun.

Context {TI : TechnicalIndicators} {JM : JsMath}.

Variable marketData : list MarketData.
Variable strategy : StrategyConfig.
Variable startCapital : num.

Lemma processCandle_idle i c st :
  generateSignal c (calculateIndicators (firstn (i + 1) marketData) strategy)
    strategy = NEUTRAL ->
  Idle startCapital st ->
  Idle startCapital (processCandle marketData strategy i c st).
Proof.
  intros Hsig (Ht & Hc & Hp & Heq).
  unfold processCandle. rewrite Hp, Hsig. cbn [signal_eqb orb].
  unfold Idle. cbn [trackEquity st_trades st_capital st_position st_equity].
  repeat split; try assumption.
  apply Forall_app. split; [exact Heq |].
  constructor; [symmetry; exact Hc | constructor].
Qed.

Lemma signal_eqb_NEUTRAL (s : TradeSignal) :
  signal_eqb s NEUTRAL = true -> s = NEUTRAL.
Proof. destruct s; intros H; try discriminate H. reflexivity. Qed.

Lemma simulate_idle remaining : forall i st,
  allNeutral marketData strategy i remaining = true ->
  Idle startCapital st ->
  Idle startCapital (simulate marketData strategy i remaining st).
Proof.
  induction remaining as [| c rest IH]; intros i st Hall Hidle;
    cbn [simulate]; [exact Hidle |].
  cbn [allNeutral] in Hall. apply andb_prop in Hall.
  destruct Hall as [Hc Hrest].
  apply IH; [exact Hrest |].
  apply processCandle_idle; [apply signal_eqb_NEUTRAL; exact Hc | exact Hidle].
Qed.

Lemma idle_result (r : BacktestResult) :
  Idle startCapital
    (simulate marketData strategy 50 (skipn 50 marketData)
       (initState startCapital)) ->
  runBacktest marketData strategy startCapital = Ok r ->
  trades r = []
  /\ finalCapital r = startCapital
  /\ Forall (eq startCapital) (equity r).
Proof.
  intros (Ht' & Hc' & Hp' & He') Hr.
  destruct (runBacktest_inv _ _ _ Hr)
    as (_ & lastCandle & _ & Ht & Hc & He & _).
  unfold finalState, closeAtEnd in Ht, Hc, He.
  rewrite Hp' in Ht, Hc, He.
  rewrite Ht, Hc, He. repeat split; assumption.
Qed.

Lemma initState_idle : Idle startCapital (initState startCapital).
Proof.
  unfold Idle. cbn [initState st_trades st_capital st_position st_equity].
  repeat split. constructor; [reflexivity | constructor].
Qed.

End IdleRun.

(** X3. If the rule engine is NEUTRAL on every processed candle, the run
    records no trade, the final capital is the initial capital, and every
    point of the equity curve is the initial capital. *)
Theorem neutral_run_is_idle
    {TI : TechnicalIndicators} {JM : JsMath}
    (marketData : list MarketData) (strategy : StrategyConfig)
    (startCapital : num) (r : BacktestResult) :
  allNeutral marketData strategy 50 (skipn 50 marketData) = true ->
  runBacktest marketData strategy startCapital = Ok r ->
  trades r = []
  /\ finalCapital r = startCapital
  /\ Forall (eq startCapital) (equity r).
Proof.
  intros Hall Hr.
  apply (@idle_result TI JM marketData strategy startCapital r);
    [| exact Hr].
  apply simulate_idle; [exact Hall | apply initState_idle].
Qed.

Lemma neutral_run_is_idle_witness :
  exists r,
    runBacktest (warmup 53) trendFollowing defaultInitialCapital = Ok r
    /\ trades r = []
    /\ finalCapital r = defaultInitialCapital
    /\ Forall (eq defaultInitialCapital) (equity r).
Proof.
  eexists. split; [vm_compute; reflexivity |].
  apply (neutral_run_is_idle (warmup 53) trendFollowing
           defaultInitialCapital).
  - vm_compute. reflexivity.
  - vm_compute. reflexivity.
Defined.

Lemma firstn_prefix_next {A : Type} (done rest : list A) (c : A) :
  firstn (length done + 1) (done ++ c :: rest) = done ++ [c].
Proof.
  rewrite firstn_app.
  replace (length done + 1 - length done)%nat with 1%nat by lia.
  rewrite firstn_all2 by lia. reflexivity.
Qed.

Lemma breakout_allNeutral
    {TI : TechnicalIndicators} {JM : JsMath}
    (marketData : list MarketData) (strategy : StrategyConfig) :
  style strategy = BREAKOUT ->
  forall remaining done,
    marketData = done ++ remaining ->
    forallb wellFormed remaining = true ->
    allNeutral marketData strategy (length done) remaining = true.
Proof.
  intros Hstyle.
  induction remaining as [| c rest IH]; intros done Hdata Hwf;
    cbn [allNeutral]; [reflexivity |].
  cbn [forallb] in Hwf. apply andb_prop in Hwf. destruct Hwf as [Hc Hrest].
  rewrite Hdata at 1. rewrite firstn_prefix_next.
  unfold generateSignal. rewrite Hstyle.
  rewrite (generateBreakoutSignal_closing done c strategy Hstyle Hc).
  cbn [signal_eqb andb].
  replace (S (length done)) with (length (done ++ [c]))
    by (rewrite length_app; cbn; lia).
  apply IH; [rewrite <- app_assoc; exact Hdata | exact Hrest].
Qed.

Lemma firstn_50_length {A : Type} (xs : list A) :
  (50 <= length xs)%nat -> length (firstn 50 xs) = 50%nat.
Proof. intros H. rewrite length_firstn. lia. Qed.

(** X4. A BREAKOUT strategy never trades on well-formed candles: whatever
    the indicator package computes, the run records no trade and returns
    the initial capital. *)
Theorem breakout_never_trades
    {TI : TechnicalIndicators} {JM : JsMath}
    (marketData : list MarketData) (strategy : StrategyConfig)
    (startCapital : num) (r : BacktestResult) :
  style strategy = BREAKOUT ->
  forallb wellFormed (skipn 50 marketData) = true ->
  runBacktest marketData strategy startCapital = Ok r ->
  trades r = [] /\ finalCapital r = startCapital.
Proof.
  intros Hstyle Hwf Hr.
  destruct (runBacktest_inv _ _ _ Hr) as (Hlen & _).
  assert (Hall :
    allNeutral marketData strategy 50 (skipn 50 marketData) = true).
  { rewrite <- (firstn_50_length marketData Hlen) at 1.
    apply breakout_allNeutral; [exact Hstyle | | exact Hwf].
    symmetry. apply firstn_skipn. }
  assert (Hidle :
    Idle startCapital
      (simulate marketData strategy 50 (skipn 50 marketData)
         (initState startCapital)))
    by (apply simulate_idle; [exact Hall | apply initState_idle]).
  destruct (@idle_result TI JM marketData strategy startCapital r Hidle Hr)
    as (Ht & Hc & _).
  split; assumption.
Qed.

Lemma breakout_never_trades_witness :
  exists r,
    runBacktest twoTrades breakout defaultInitialCapital = Ok r
    /\ trades r = []
    /\ finalCapital r = defaultInitialCapital.
Proof.
  eexists. split; [vm_compute; reflexivity |].
  apply (breakout_never_trades twoTrades breakout defaultInitialCapital).
  - reflexivity.
  - vm_compute. reflexivity.
  - vm_compute. reflexivity.
Defined.

(** ** A failing indicator package *)

Lemma calculateVolumeChange_unavailable
    {TI : TechnicalIndicators} (volumes : list num) :
  (forall period values, SMA period values = None) ->
  calculateVolumeChange volumes = zero.
Proof.
  intros Hsma. unfold calculateVolumeChange, calculateSMA, latestOr.
  rewrite !Hsma. destruct (length volumes <? 20)%nat; reflexivity.
Qed.

Lemma signal_unavailable
    {TI : TechnicalIndicators} {JM : JsMath}
    (data : list MarketData) (strategy : StrategyConfig) (c : MarketData) :
  AlwaysThrows TI ->
  generateSignal c (calculateIndicators data strategy) strategy = NEUTRAL.
Proof.
  intros (Hsma & Hema & Hrsi & Hmacd & Hbb & Hatr & Hadx & Hstoch).
  unfold generateSignal, calculateIndicators.
  destruct (style strategy) eqn:Hstyle;
    destruct (length data <? 50)%nat; try reflexivity.
  - unfold generateTrendSignal. cbn [ema20 sma50 style_eqb].
    unfold calculateEMA, latestOr. rewrite Hema. reflexivity.
  - unfold generateMeanReversionSignal.
    cbn [rsi bollinger style_eqb].
    unfold calculateRSI, latestOr. rewrite Hrsi. reflexivity.
  - unfold generateBreakoutSignal.
    cbn [donchian volumeChange style_eqb].
    rewrite (calculateVolumeChange_unavailable _ Hsma). reflexivity.
Qed.

Lemma allNeutral_of_signal
    {TI : TechnicalIndicators} {JM : JsMath}
    (marketData : list MarketData) (strategy : StrategyConfig) :
  (forall data c,
     generateSignal c (calculateIndicators data strategy) strategy
     = NEUTRAL) ->
  forall remaining i, allNeutral marketData strategy i remaining = true.
Proof.
  intros Hsig. induction remaining as [| c rest IH]; intros i;
    cbn [allNeutral]; [reflexivity |].
  rewrite Hsig, IH. reflexivity.
Qed.

(** X5. When every call into the indicator package throws, the fallbacks
    of the indicator service (0 for the averages, 50 for the RSI, 0 for the
    volume change) keep the rule engine NEUTRAL for every style, series
    and candle, so a backtest completes without a trade and returns the
    initial capital. *)
Theorem failing_package_never_signals
    {TI : TechnicalIndicators} {JM : JsMath} :
  AlwaysThrows TI ->
  (forall data strategy c,
     generateSignal c (calculateIndicators data strategy) strategy
     = NEUTRAL)
  /\ (forall marketData strategy startCapital r,
        runBacktest marketData strategy startCapital = Ok r ->
        trades r = [] /\ finalCapital r = startCapital).
Proof.
  intros Hthrows. split.
  - intros data strategy c. apply signal_unavailable. exact Hthrows.
  - intros marketData strategy startCapital r Hr.
    assert (Hidle :
      Idle startCapital
        (simulate marketData strategy 50 (skipn 50 marketData)
           (initState startCapital))).
    { apply simulate_idle; [| apply initState_idle].
      apply allNeutral_of_signal. intros data c.
      apply signal_unavailable. exact Hthrows. }
    destruct (@idle_result TI JM marketData strategy startCapital r Hidle Hr)
      as (Ht & Hc & _).
    split; assumption.
Qed.

Lemma failing_package_never_signals_witness :
  (forall data strategy c,
     @generateSignal c
       (@calculateIndicators failingIndicators fixtureMath data strategy)
       strategy
     = NEUTRAL)
  /\ (forall marketData strategy startCapital r,
        @runBacktest failingIndicators fixtureMath marketData strategy
          startCapital = Ok r ->
        trades r = [] /\ finalCapital r = startCapital).
Proof.
  apply (@failing_package_never_signals failingIndicators fixtureMath).
  unfold AlwaysThrows. repeat split.
Defined.

(** ** Bookkeeping of a run *)

Lemma exitCheck_reason st position signal currentPrice :
  let reason := fst (exitCheck st position signal currentPrice) in
  nonEmpty reason = true ->
  reason = "Stop Loss" \/ reason = "Take Profit"
  \/ reason = "Signal Reversal".
Proof.
  unfold exitCheck.
  repeat match goal with
         | |- context [if ?b then _ else _] => destruct b
         end; cbn [fst]; intros H; auto.
  discriminate H.
Qed.

Section Bookkeeping.

Context {TI : TechnicalIndicators} {JM : JsMath}.

Variable marketData : list MarketData.
Variable strategy : StrategyConfig.

Lemma trackEquity_ledger st :
  length (st_drawdowns st) = length (st_equity st) ->
  st_maxDrawdown st = max_list (st_drawdowns st) ->
  length (st_drawdowns (trackEquity st)) = length (st_equity (trackEquity st))
  /\ st_maxDrawdown (trackEquity st)
     = max_list (st_drawdowns (trackEquity st)).
Proof.
  intros Hlen Hmax.
  cbn [trackEquity st_drawdowns st_equity st_maxDrawdown].
  split; [rewrite !length_app, Hlen; reflexivity |].
  rewrite max_list_push, Hmax. reflexivity.
Qed.

Lemma processCandle_ledger i c st :
  Ledger st -> Ledger (processCandle marketData strategy i c st).
Proof.
  intros (Hlen & Hmax & Hcount & Hreasons).
  unfold processCandle.
  destruct (st_position st) as [position |] eqn:Hpos.
  - unfold managePosition.
    pose proof (exitCheck_reason st position
                  (generateSignal c
                     (calculateIndicators (firstn (i + 1) marketData) strategy)
                     strategy) (close c)) as Hreason.
    destruct (exitCheck st position _ (close c)) as [reason p].
    cbn [fst] in Hreason.
    destruct (nonEmpty reason) eqn:Hne.
    + unfold Ledger.
      cbn [trackEquity st_drawdowns st_equity st_maxDrawdown st_trades
           st_position].
      split; [rewrite !length_app, Hlen; reflexivity |].
      split; [rewrite max_list_push, Hmax; reflexivity |].
      split; [rewrite !length_app; cbn [length]; lia |].
      apply Forall_app. split; [exact Hreasons |].
      constructor; [| constructor].
      unfold loopReason. cbn [closedTrade exitReason].
      apply Hreason. reflexivity.
    + unfold Ledger.
      cbn [trackEquity st_drawdowns st_equity st_maxDrawdown st_trades
           st_position].
      rewrite Hpos.
      split; [rewrite !length_app, Hlen; reflexivity |].
      split; [rewrite max_list_push, Hmax; reflexivity |].
      split; [rewrite !length_app; cbn [length]; lia | exact Hreasons].
  - destruct (signal_eqb _ LONG || signal_eqb _ SHORT); unfold Ledger;
      cbn [trackEquity enterPosition st_drawdowns st_equity st_maxDrawdown
           st_trades st_position];
      (split; [rewrite !length_app, Hlen; reflexivity |]);
      (split; [rewrite max_list_push, Hmax; reflexivity |]);
      (split; [rewrite !length_app; cbn [length]; try rewrite Hpos; lia
              | exact Hreasons]).
Qed.

Lemma simulate_ledger remaining : forall i st,
  Ledger st -> Ledger (simulate marketData strategy i remaining st).
Proof.
  induction remaining as [| c rest IH]; intros i st H; cbn [simulate];
    [exact H |].
  apply IH. apply processCandle_ledger. exact H.
Qed.

Lemma initState_ledger (startCapital : num) : Ledger (initState startCapital).
Proof.
  unfold Ledger.
  cbn [initState st_drawdowns st_equity st_maxDrawdown st_trades st_position].
  split; [reflexivity |]. split; [reflexivity |].
  split; [cbn; lia | constructor].
Qed.

End Bookkeeping.

Section LedgerResult.

Context {TI : TechnicalIndicators} {JM : JsMath}.

Variable marketData : list MarketData.
Variable strategy : StrategyConfig.
Variable startCapital : num.

Lemma runBacktest_maxDrawdown (r : BacktestResult) :
  runBacktest marketData strategy startCapital = Ok r ->
  exists lastCandle,
    last_opt marketData = Some lastCandle
    /\ maxDrawdown r
       = st_maxDrawdown
           (finalState marketData strategy startCapital lastCandle)
    /\ endTime r = timestamp lastCandle.
Proof.
  unfold runBacktest.
  destruct (length marketData <? 50)%nat; [discriminate |].
  destruct marketData as [| firstCandle rest] eqn:Hdata; [discriminate |].
  rewrite <- Hdata.
  destruct (last_opt marketData) as [lastCandle |]; [| discriminate].
  intros Heq. injection Heq as <-. exists lastCandle.
  cbn [maxDrawdown endTime]. repeat split.
Qed.

(** The loop state behind a result. *)
Lemma ledger_result (r : BacktestResult) :
  runBacktest marketData strategy startCapital = Ok r ->
  exists st lastCandle,
    st = simulate marketData strategy 50 (skipn 50 marketData)
           (initState startCapital)
    /\ Ledger st
    /\ trades r = st_trades (closeAtEnd st lastCandle)
    /\ equity r = st_equity st
    /\ drawdowns r = st_drawdowns st
    /\ maxDrawdown r = st_maxDrawdown st
    /\ length (st_equity st) = (length marketData - 49)%nat.
Proof.
  intros Hr.
  destruct (runBacktest_inv _ _ _ Hr)
    as (Hlen & lastCandle & Hlast & Ht & _ & He & Hd & _).
  destruct (runBacktest_maxDrawdown Hr) as (lastCandle' & Hlast' & Hm & _).
  rewrite Hlast in Hlast'. injection Hlast' as <-.
  unfold finalState in Ht, He, Hd, Hm.
  set (st := simulate marketData strategy 50 (skipn 50 marketData)
               (initState startCapital)) in *.
  exists st, lastCandle.
  assert (Hkeep :
    st_equity (closeAtEnd st lastCandle) = st_equity st
    /\ st_drawdowns (closeAtEnd st lastCandle) = st_drawdowns st
    /\ st_maxDrawdown (closeAtEnd st lastCandle) = st_maxDrawdown st).
  { unfold closeAtEnd. destruct (st_position st); repeat split. }
  destruct Hkeep as (Ke & Kd & Km). rewrite Ke in He. rewrite Kd in Hd.
  rewrite Km in Hm.
  split; [reflexivity |].
  split; [subst st; apply simulate_ledger, initState_ledger |].
  repeat (split; [assumption |]).
  subst st.
  destruct (simulate_equity marketData strategy (skipn 50 marketData) 50
              (initState startCapital)) as (pushed & Hpushed & Hpl).
  rewrite Hpushed, length_app, Hpl, length_skipn. cbn. lia.
Qed.

End LedgerResult.

(** X6. The drawdown array runs parallel to the equity curve, and
    [maxDrawdown] is the maximum of the drawdown array,
    [Math.max(...drawdowns)]. *)
Theorem maxDrawdown_is_maximum
    {TI : TechnicalIndicators} {JM : JsMath}
    (marketData : list MarketData) (strategy : StrategyConfig)
    (startCapital : num) (r : BacktestResult) :
  runBacktest marketData strategy startCapital = Ok r ->
  length (drawdowns r) = length (equity r)
  /\ maxDrawdown r = max_list (drawdowns r).
Proof.
  intros Hr.
  destruct (ledger_result _ _ _ Hr)
    as (st & lastCandle & _ & (Hlen & Hmax & _) & _ & He & Hd & Hm & _).
  rewrite He, Hd, Hm. split; assumption.
Qed.

Lemma maxDrawdown_is_maximum_witness :
  exists r,
    runBacktest stoppedOut trendFollowing defaultInitialCapital = Ok r
    /\ drawdowns r = [Fin 0; Fin 0; Fin 1]
    /\ maxDrawdown r = Fin 1
    /\ length (drawdowns r) = length (equity r)
    /\ maxDrawdown r = max_list (drawdowns r).
Proof.
  eexists. split; [vm_compute; reflexivity |].
  split; [reflexivity |]. split; [reflexivity |].
  apply (maxDrawdown_is_maximum stoppedOut trendFollowing
           defaultInitialCapital).
  vm_compute. reflexivity.
Defined.

(** X7. Every trade closed in the loop takes an entry candle and a later
    exit candle, and at most one more trade is closed at the end, so a
    run over [n] candles records at most [(n - 49) / 2] trades. *)
Theorem trade_count_bound
    {TI : TechnicalIndicators} {JM : JsMath}
    (marketData : list MarketData) (strategy : StrategyConfig)
    (startCapital : num) (r : BacktestResult) :
  runBacktest marketData strategy startCapital = Ok r ->
  (2 * length (trades r) <= length marketData - 49)%nat.
Proof.
  intros Hr.
  destruct (ledger_result _ _ _ Hr)
    as (st & lastCandle & _ & (_ & _ & Hcount & _) & Ht & _ & _ & _ & Hlen).
  rewrite Ht, <- Hlen. unfold closeAtEnd.
  destruct (st_position st); cbn [st_trades];
    rewrite ?length_app; cbn [length]; lia.
Qed.

Lemma trade_count_bound_witness :
  exists r,
    runBacktest twoTrades trendFollowing defaultInitialCapital = Ok r
    /\ length (trades r) = 2%nat
    /\ (2 * length (trades r) <= length twoTrades - 49)%nat.
Proof.
  eexists. split; [vm_compute; reflexivity |].
  split; [reflexivity |].
  apply (trade_count_bound twoTrades trendFollowing defaultInitialCapital).
  vm_compute. reflexivity.
Defined.

(** X8. Every recorded trade carries one of the four exit reasons, and
    only the last trade of the log can be an End-of-Test close. *)
Theorem exit_reasons
    {TI : TechnicalIndicators} {JM : JsMath}
    (marketData : list MarketData) (strategy : StrategyConfig)
    (startCapital : num) (r : BacktestResult) :
  runBacktest marketData strategy startCapital = Ok r ->
  (forall t, In t (trades r) ->
     exitReason t = "Stop Loss" \/ exitReason t = "Take Profit"
     \/ exitReason t = "Signal Reversal" \/ exitReason t = "End of Test")
  /\ (forall i t,
        nth_error (trades r) i = Some t ->
        exitReason t = "End of Test" ->
        S i = length (trades r)).
Proof.
  intros Hr.
  destruct (ledger_result _ _ _ Hr)
    as (st & lastCandle & _ & (_ & _ & _ & Hreasons) & Ht & _).
  rewrite Ht. unfold closeAtEnd. rewrite Forall_forall in Hreasons.
  assert (Hloop : forall t, In t (st_trades st) ->
                            exitReason t <> "End of Test").
  { intros t Hin Heq. destruct (Hreasons t Hin) as [H | [H | H]];
      rewrite H in Heq; discriminate Heq. }
  destruct (st_position st); cbn [st_trades].
  - split.
    + intros t Hin. apply in_app_or in Hin. destruct Hin as [Hin | Hin].
      * destruct (Hreasons t Hin) as [H | [H | H]]; auto.
      * destruct Hin as [<- | []]. cbn [exitReason]. auto.
    + intros i t Hnth Hend. rewrite length_app. cbn [length].
      destruct (Nat.lt_ge_cases i (length (st_trades st))) as [Hin | Hout].
      * rewrite nth_error_app1 in Hnth by exact Hin.
        apply nth_error_In in Hnth. contradiction (Hloop t Hnth).
      * rewrite nth_error_app2 in Hnth by exact Hout.
        destruct (i - length (st_trades st))%nat as [| j] eqn:Hj;
          [lia | destruct j; discriminate Hnth].
  - split.
    + intros t Hin. destruct (Hreasons t Hin) as [H | [H | H]]; auto.
    + intros i t Hnth Hend. apply nth_error_In in Hnth.
      contradiction (Hloop t Hnth).
Qed.

Lemma exit_reasons_witness :
  exists r,
    runBacktest twoTrades trendFollowing defaultInitialCapital = Ok r
    /\ map exitReason (trades r) = ["Stop Loss"; "End of Test"]
    /\ (forall i t,
          nth_error (trades r) i = Some t ->
          exitReason t = "End of Test" ->
          S i = length (trades r)).
Proof.
  eexists. split; [vm_compute; reflexivity |].
  split; [reflexivity |].
  apply (exit_reasons twoTrades trendFollowing defaultInitialCapital).
  vm_compute. reflexivity.
Defined.

(** ** Signs and ranges of the performance metrics *)

Lemma of_nat_pos (n : nat) : (0 < n)%nat -> (0 < inject_Z (Z.of_nat n))%Q.
Proof.
  intros H. replace 0%Q with (inject_Z 0) by reflexivity.
  rewrite <- Zlt_Qlt. lia.
Qed.

Lemma ratio_of_counts (w n : nat) :
  (w <= n)%nat -> (0 < n)%nat ->
  exists q, of_nat w / of_nat n = Fin q /\ (0 <= q <= 1)%Q.
Proof.
  intros Hwn Hn. unfold of_nat. cbn [div].
  pose proof (of_nat_pos Hn) as Hpos.
  assert (Hnz : Qeq_bool (inject_Z (Z.of_nat n)) 0 = false)
    by (apply Qeq_bool_false; lra).
  rewrite Hnz. eexists. split; [reflexivity |].
  rewrite Qred_correct.
  assert (Hw0 : (0 <= inject_Z (Z.of_nat w))%Q).
  { replace 0%Q with (inject_Z 0) by reflexivity. rewrite <- Zle_Qle. lia. }
  assert (Hwle : (inject_Z (Z.of_nat w) <= inject_Z (Z.of_nat n))%Q)
    by (rewrite <- Zle_Qle; lia).
  split.
  - apply Qle_shift_div_l; [exact Hpos | lra].
  - apply Qle_shift_div_r; [exact Hpos | lra].
Qed.

Lemma add_nonpos (a b : num) :
  le a zero = true -> le b zero = true -> le (a + b) zero = true.
Proof.
  destruct a, b; cbn [le add zero]; try discriminate; try reflexivity.
  intros H1 H2. apply Qle_bool_iff in H1, H2. apply Qle_bool_iff.
  rewrite Qred_correct. lra.
Qed.

Lemma add_nonneg (a b : num) :
  le zero a = true -> le zero b = true -> le zero (a + b) = true.
Proof.
  destruct a, b; cbn [le add zero]; try discriminate; try reflexivity.
  intros H1 H2. apply Qle_bool_iff in H1, H2. apply Qle_bool_iff.
  rewrite Qred_correct. lra.
Qed.

Lemma div_count_nonpos (a : num) (n : nat) :
  (0 < n)%nat -> le a zero = true -> le (a / of_nat n) zero = true.
Proof.
  intros Hn. pose proof (of_nat_pos Hn) as Hpos. unfold of_nat.
  assert (Hnz : Qeq_bool (inject_Z (Z.of_nat n)) 0 = false)
    by (apply Qeq_bool_false; lra).
  assert (Hnn : Qltb (inject_Z (Z.of_nat n)) 0 = false)
    by (apply Qltb_ge; lra).
  destruct a; cbn [le div zero]; try discriminate;
    rewrite ?Hnz, ?Hnn; try reflexivity.
  cbn [le]. intros Ha. apply Qle_bool_iff in Ha. apply Qle_bool_iff.
  rewrite Qred_correct.
  apply Qle_shift_div_r; [exact Hpos | lra].
Qed.

Lemma div_count_nonneg (a : num) (n : nat) :
  (0 < n)%nat -> le zero a = true -> le zero (a / of_nat n) = true.
Proof.
  intros Hn. pose proof (of_nat_pos Hn) as Hpos. unfold of_nat.
  assert (Hnz : Qeq_bool (inject_Z (Z.of_nat n)) 0 = false)
    by (apply Qeq_bool_false; lra).
  assert (Hnn : Qltb (inject_Z (Z.of_nat n)) 0 = false)
    by (apply Qltb_ge; lra).
  destruct a; cbn [le div zero]; try discriminate;
    rewrite ?Hnz, ?Hnn; try reflexivity.
  cbn [le]. intros Ha. apply Qle_bool_iff in Ha. apply Qle_bool_iff.
  rewrite Qred_correct.
  apply Qle_shift_div_l; [exact Hpos | lra].
Qed.

Lemma lt_le_num (a b : num) : lt a b = true -> le a b = true.
Proof.
  destruct a, b; cbn [lt le]; try discriminate; try reflexivity.
  intros H. apply Qltb_lt in H. apply Qle_bool_iff. lra.
Qed.

Lemma abs_not_negative (a : num) : lt (abs a) zero = false.
Proof.
  destruct a; cbn [abs lt zero]; try reflexivity.
  apply Qltb_ge. apply Qabs_nonneg.
Qed.

Lemma sumPnl_nonpos (ts : list Trade) :
  Forall (fun t => le (pnl t) zero = true) ts -> le (sumPnl ts) zero = true.
Proof.
  unfold sumPnl.
  assert (Hgen : forall acc,
            le acc zero = true ->
            Forall (fun t => le (pnl t) zero = true) ts ->
            le (fold_left (fun a t => a + pnl t) ts acc) zero = true).
  { induction ts as [| t rest IH]; intros acc Hacc Hall; cbn [fold_left];
      [exact Hacc |].
    inversion Hall as [| ? ? Ht Hrest]; subst.
    apply IH; [apply add_nonpos; assumption | exact Hrest]. }
  apply Hgen. apply Qle_bool_iff. lra.
Qed.

Lemma sumPnl_nonneg (ts : list Trade) :
  Forall (fun t => le zero (pnl t) = true) ts -> le zero (sumPnl ts) = true.
Proof.
  unfold sumPnl.
  assert (Hgen : forall acc,
            le zero acc = true ->
            Forall (fun t => le zero (pnl t) = true) ts ->
            le zero (fold_left (fun a t => a + pnl t) ts acc) = true).
  { induction ts as [| t rest IH]; intros acc Hacc Hall; cbn [fold_left];
      [exact Hacc |].
    inversion Hall as [| ? ? Ht Hrest]; subst.
    apply IH; [apply add_nonneg; assumption | exact Hrest]. }
  apply Hgen. apply Qle_bool_iff. lra.
Qed.

Lemma runBacktest_averageWin
    {TI : TechnicalIndicators} {JM : JsMath}
    (marketData : list MarketData) (strategy : StrategyConfig)
    (startCapital : num) (r : BacktestResult) :
  runBacktest marketData strategy startCapital = Ok r ->
  let winningTrades := filter (fun t => gt (pnl t) zero) (trades r) in
  averageWin r
  = (if (0 <? length winningTrades)%nat
     then sumPnl winningTrades / of_nat (length winningTrades)
     else zero).
Proof.
  unfold runBacktest.
  destruct (length marketData <? 50)%nat; [discriminate |].
  destruct marketData as [| firstCandle rest]; [discriminate |].
  destruct (last_opt (firstCandle :: rest)) as [lastCandle |];
    [| discriminate].
  intros Heq. injection Heq as <-. reflexivity.
Qed.

(** X9. A run that records at least one trade returns a win rate that is a
    finite number between 0 and 1. *)
Theorem winRate_range
    {TI : TechnicalIndicators} {JM : JsMath}
    (marketData : list MarketData) (strategy : StrategyConfig)
    (startCapital : num) (r : BacktestResult) :
  runBacktest marketData strategy startCapital = Ok r ->
  trades r <> [] ->
  exists q, winRate r = Fin q /\ (0 <= q <= 1)%Q.
Proof.
  intros Hr Hsome.
  destruct (runBacktest_metrics _ _ _ Hr) as (_ & Hw & _).
  rewrite Hw. apply ratio_of_counts.
  - apply filter_length_le.
  - destruct (trades r); [contradiction Hsome; reflexivity | cbn; lia].
Qed.

Lemma winRate_range_witness :
  exists r,
    runBacktest stoppedOut trendFollowing defaultInitialCapital = Ok r
    /\ winRate r = Fin 0
    /\ exists q, winRate r = Fin q /\ (0 <= q <= 1)%Q.
Proof.
  eexists. split; [vm_compute; reflexivity |].
  split; [reflexivity |].
  apply (winRate_range stoppedOut trendFollowing defaultInitialCapital).
  - vm_compute. reflexivity.
  - discriminate.
Defined.

(** X10. In every completed run the average loss is never positive, the
    average win is never negative, and the profit factor is never
    negative. *)
Theorem average_signs
    {TI : TechnicalIndicators} {JM : JsMath}
    (marketData : list MarketData) (strategy : StrategyConfig)
    (startCapital : num) (r : BacktestResult) :
  runBacktest marketData strategy startCapital = Ok r ->
  le (averageLoss r) zero = true
  /\ le zero (averageWin r) = true
  /\ lt (profitFactor r) zero = false.
Proof.
  intros Hr.
  destruct (runBacktest_metrics _ _ _ Hr) as (_ & _ & Hl & Hp & _).
  pose proof (runBacktest_averageWin _ _ _ Hr) as Hw. cbn zeta in Hw.
  split; [| split].
  - rewrite Hl.
    destruct (Nat.ltb_spec 0
                (length (filter (fun t => le (pnl t) zero) (trades r))))
      as [Hpos | _]; [| apply Qle_bool_iff; lra].
    apply div_count_nonpos; [exact Hpos |].
    apply sumPnl_nonpos. apply Forall_forall. intros t Hin.
    apply filter_In in Hin. exact (proj2 Hin).
  - rewrite Hw.
    destruct (Nat.ltb_spec 0
                (length (filter (fun t => gt (pnl t) zero) (trades r))))
      as [Hpos | _]; [| apply Qle_bool_iff; lra].
    apply div_count_nonneg; [exact Hpos |].
    apply sumPnl_nonneg. apply Forall_forall. intros t Hin.
    apply filter_In in Hin. apply lt_le_num. exact (proj2 Hin).
  - rewrite Hp. destruct (strict_neq (averageLoss r) zero);
      [apply abs_not_negative | reflexivity].
Qed.

Lemma average_signs_witness :
  exists r,
    runBacktest stoppedOut trendFollowing defaultInitialCapital = Ok r
    /\ averageLoss r = Fin (-100)
    /\ le (averageLoss r) zero = true
    /\ le zero (averageWin r) = true
    /\ lt (profitFactor r) zero = false.
Proof.
  eexists. split; [vm_compute; reflexivity |].
  split; [reflexivity |].
  apply (average_signs stoppedOut trendFollowing defaultInitialCapital).
  vm_compute. reflexivity.
Defined.

(** ** Duration of a trade *)

Lemma last_cons_default {A : Type} (a d : A) (xs : list A) :
  last (a :: xs) d = last xs a.
Proof.
  revert a d. induction xs as [| x rest IH]; intros a d; [reflexivity |].
  change (last (a :: x :: rest) d) with (last (x :: rest) d).
  rewrite (IH x d), (IH x a). reflexivity.
Qed.

Lemma last_opt_suffix {A : Type} (front back : list A) (x y : A) :
  last_opt (front ++ back) = Some x ->
  back <> [] ->
  last back y = x.
Proof.
  intros Hlast Hne.
  destruct (exists_last Hne) as (init & z & ->).
  rewrite app_assoc, last_opt_app in Hlast. injection Hlast as <-.
  apply last_last.
Qed.

Lemma last_map {A B : Type} (f : A -> B) (xs : list A) :
  forall d, last (map f xs) (f d) = f (last xs d).
Proof.
  induction xs as [| x rest IH]; intros d; [reflexivity |].
  cbn [map]. rewrite !last_cons_default. apply IH.
Qed.

Section Duration.

Context {TI : TechnicalIndicators} {JM : JsMath}.

Variable marketData : list MarketData.
Variable strategy : StrategyConfig.

Lemma processCandle_timed now i c st :
  (now < timestamp c)%Z ->
  Timed now st ->
  Timed (timestamp c) (processCandle marketData strategy i c st).
Proof.
  intros Hnow (Hall & Hentry). unfold processCandle.
  match goal with
  | |- Timed _ (trackEquity ?s) =>
      cut (Timed (timestamp c) s); [intros H; exact H |]
  end.
  destruct (st_position st) as [position |] eqn:Hpos.
  - assert (Hopen : (st_entryTime st <= now)%Z)
      by (apply Hentry; discriminate).
    unfold managePosition.
    destruct (exitCheck st position _ (close c)) as [reason p].
    destruct (nonEmpty reason).
    + unfold Timed. cbn [st_trades st_position]. split.
      * apply Forall_app. split; [exact Hall |].
        constructor; [cbn [closedTrade entryTime exitTime]; lia
                     | constructor].
      * intros Habs. contradiction Habs. reflexivity.
    + split; [exact Hall | intros _; lia].
  - destruct (signal_eqb _ LONG || signal_eqb _ SHORT).
    + unfold Timed. cbn [enterPosition st_trades st_position st_entryTime].
      split; [exact Hall | intros _; lia].
    + split; [exact Hall |].
      intros Habs. rewrite Hpos in Habs. contradiction Habs. reflexivity.
Qed.

Lemma simulate_timed remaining : forall now i st,
  strictlyIncreasing (now :: map timestamp remaining) = true ->
  Timed now st ->
  Timed (last (map timestamp remaining) now)
    (simulate marketData strategy i remaining st).
Proof.
  induction remaining as [| c rest IH]; intros now i st Hinc Htimed;
    cbn [simulate map].
  - exact Htimed.
  - rewrite last_cons_default.
    cbn [map strictlyIncreasing] in Hinc.
    apply andb_prop in Hinc. destruct Hinc as [Hlt Hrest].
    apply Z.ltb_lt in Hlt.
    apply IH; [exact Hrest |].
    apply processCandle_timed with (now := now); assumption.
Qed.

End Duration.

(** X13. When the candle timestamps are strictly increasing, no trade
    exits before it was entered: [entryTime <= exitTime] for every
    recorded trade, the End-of-Test close included. *)
Theorem trade_duration
    {TI : TechnicalIndicators} {JM : JsMath}
    (marketData : list MarketData) (strategy : StrategyConfig)
    (startCapital : num) (r : BacktestResult) :
  strictlyIncreasing (map timestamp marketData) = true ->
  runBacktest marketData strategy startCapital = Ok r ->
  forall t, In t (trades r) -> (entryTime t <= exitTime t)%Z.
Proof.
  intros Hinc Hr.
  destruct (runBacktest_inv _ _ _ Hr) as (_ & lastCandle & Hlast & Ht & _).
  rewrite Ht. unfold finalState.
  assert (Hsuffix : strictlyIncreasing (map timestamp (skipn 50 marketData))
                    = true).
  { rewrite <- skipn_map. apply strictlyIncreasing_skipn. exact Hinc. }
  assert (Hinit : forall now, Timed now (initState startCapital)).
  { intros now. unfold Timed. cbn [initState st_trades st_position].
    split; [constructor | intros H; contradiction H; reflexivity]. }
  destruct (skipn 50 marketData) as [| c rest] eqn:Hskip.
  - cbn [simulate]. unfold closeAtEnd. cbn [initState st_position].
    intros t Hin. destruct Hin.
  - assert (Htimed :
      Timed (timestamp lastCandle)
        (simulate marketData strategy 50 (c :: rest)
           (initState startCapital))).
    { assert (Hend : last (map timestamp (c :: rest)) (timestamp c - 1)%Z
                     = timestamp lastCandle).
      { rewrite <- (firstn_skipn 50 marketData), Hskip in Hlast.
        assert (Hne : c :: rest <> []) by discriminate.
        rewrite <- (@last_opt_suffix _ (firstn 50 marketData) (c :: rest)
                      lastCandle c Hlast Hne).
        cbn [map]. rewrite !last_cons_default. apply last_map. }
      rewrite <- Hend.
      apply simulate_timed; [| apply Hinit].
      cbn [map strictlyIncreasing] in Hsuffix |- *.
      rewrite Hsuffix, andb_true_r. apply Z.ltb_lt. lia. }
    destruct Htimed as (Hall & Hentry).
    rewrite Forall_forall in Hall.
    unfold closeAtEnd. destruct (st_position _) as [position |] eqn:Hpos;
      cbn [st_trades]; [| exact Hall].
    intros t Hin. apply in_app_or in Hin. destruct Hin as [Hin | Hin].
    + exact (Hall t Hin).
    + destruct Hin as [<- | []]. cbn [entryTime exitTime].
      apply Hentry. discriminate.
Qed.

Lemma trade_duration_witness :
  exists r,
    runBacktest twoTrades trendFollowing defaultInitialCapital = Ok r
    /\ map (fun t => (entryTime t, exitTime t)) (trades r)
       = [(50, 51); (52, 52)]%Z
    /\ forall t, In t (trades r) -> (entryTime t <= exitTime t)%Z.
Proof.
  eexists. split; [vm_compute; reflexivity |].
  split; [reflexivity |].
  apply (trade_duration twoTrades trendFollowing defaultInitialCapital).
  - reflexivity.
  - vm_compute. reflexivity.
Defined.

(** ** Validation and the breakout style *)

Lemma Forall_firstn_wf (n : nat) (xs : list MarketData) :
  forallb wellFormed xs = true -> forallb wellFormed (firstn n xs) = true.
Proof.
  intros H. rewrite <- (firstn_skipn n xs), forallb_app in H.
  apply andb_prop in H. exact (proj1 H).
Qed.

Lemma Forall_skipn_wf (n : nat) (xs : list MarketData) :
  forallb wellFormed xs = true -> forallb wellFormed (skipn n xs) = true.
Proof.
  intros H. rewrite <- (firstn_skipn n xs), forallb_app in H.
  apply andb_prop in H. exact (proj2 H).
Qed.

Lemma generateSignalFromIndicators_breakout
    {TI : TechnicalIndicators} {JM : JsMath}
    (dataSlice : list MarketData) (strategy : StrategyConfig) :
  style strategy = BREAKOUT ->
  forallb wellFormed dataSlice = true ->
  generateSignalFromIndicators strategy
    (calculateIndicators dataSlice strategy) = NEUTRAL.
Proof.
  intros Hstyle Hwf. unfold generateSignalFromIndicators. rewrite Hstyle.
  unfold calculateIndicators.
  destruct (Nat.ltb_spec (length dataSlice) 50) as [Hshort | Hlong].
  - cbn [price donchian option_map]. unfold ogt, olt, gt, unum.
    rewrite lt_NaN_r. reflexivity.
  - rewrite Hstyle. cbn [price donchian style_eqb option_map].
    assert (Hne : dataSlice <> []) by (intros ->; cbn in Hlong; lia).
    destruct (exists_last Hne) as (init & c & ->).
    rewrite forallb_app in Hwf. apply andb_prop in Hwf.
    destruct Hwf as [_ Hc]. cbn [forallb] in Hc. rewrite andb_true_r in Hc.
    destruct (donchian_encloses_close init c Hc) as [Hup Hlo];
      [rewrite length_app in *; cbn [length] in *; lia |].
    cbn zeta in Hup, Hlo.
    assert (Hprice : last_opt (map close (init ++ [c])) = Some (close c))
      by (rewrite map_app; apply last_opt_app).
    rewrite Hprice. unfold ogt, olt, gt, unum.
    rewrite Hup, Hlo. reflexivity.
Qed.

Lemma score_step
    {TI : TechnicalIndicators} {JM : JsMath}
    (strategy : StrategyConfig) (testingData : list MarketData)
    (i : nat) (current next : MarketData) (rest : list MarketData)
    (t : Tally) :
  score strategy testingData i (current :: next :: rest) t
  = score strategy testingData (S i) (next :: rest)
      (scoreCandle strategy testingData i current next t).
Proof. reflexivity. Qed.

Lemma score_breakout
    {TI : TechnicalIndicators} {JM : JsMath}
    (strategy : StrategyConfig) (testingData : list MarketData) :
  style strategy = BREAKOUT ->
  forallb wellFormed testingData = true ->
  forall remaining i t, score strategy testingData i remaining t = t.
Proof.
  intros Hstyle Hwf.
  induction remaining as [| current rest IH]; intros i t; [reflexivity |].
  destruct rest as [| next rest']; [reflexivity |].
  rewrite score_step, IH. unfold scoreCandle.
  rewrite (generateSignalFromIndicators_breakout _ _ Hstyle
             (Forall_firstn_wf i _ Hwf)).
  reflexivity.
Qed.

Lemma backtest_breakout
    {TI : TechnicalIndicators} {JM : JsMath}
    (strategy : StrategyConfig) (marketData : list MarketData) :
  style strategy = BREAKOUT ->
  forallb wellFormed marketData = true ->
  exists m, backtest strategy marketData = Ok m
            /\ gt (bt_expectancy m) zero = false.
Proof.
  intros Hstyle Hwf. unfold backtest.
  rewrite (score_breakout _ _ Hstyle (Forall_skipn_wf _ _ Hwf)).
  eexists. split; reflexivity.
Qed.

Lemma validateEach_no_breakout
    {TI : TechnicalIndicators} {JM : JsMath}
    (marketData : list MarketData) :
  forallb wellFormed marketData = true ->
  forall strategies validated out,
    Forall (fun v => style v <> BREAKOUT) validated ->
    validateEach marketData strategies validated = Ok out ->
    Forall (fun v => style v <> BREAKOUT) out.
Proof.
  intros Hwf.
  induction strategies as [| s rest IH]; intros validated out Hacc Hout;
    cbn [validateEach] in Hout.
  - injection Hout as <-. exact Hacc.
  - destruct (backtest s marketData) as [m | msg] eqn:Hm;
      [| discriminate Hout].
    cbn [bind] in Hout.
    destruct (gt (bt_expectancy m) zero) eqn:Hpos;
      [| exact (IH _ _ Hacc Hout)].
    apply (IH _ _) in Hout; [exact Hout |].
    apply Forall_app. split; [exact Hacc |].
    constructor; [| constructor].
    cbn [withBackTestResult style]. intros Hstyle.
    destruct (backtest_breakout s marketData Hstyle Hwf) as (m' & Hm' & Hno).
    rewrite Hm in Hm'. injection Hm' as <-. congruence.
Qed.

(** X14. On at least 100 well-formed candles, validation never keeps a
    BREAKOUT strategy: its quick backtest compares the last close of each
    slice with the Donchian channel of the same slice, so it never signals
    and the expectancy is 0. *)
Theorem validation_drops_breakout
    {TI : TechnicalIndicators} {JM : JsMath}
    (sym : string) (marketData : list MarketData) (tf : Timeframe)
    (strategies out : list StrategyConfig) :
  (100 <= length marketData)%nat ->
  forallb wellFormed marketData = true ->
  validateStrategies sym marketData tf strategies = Ok out ->
  forall v, In v out -> style v <> BREAKOUT.
Proof.
  intros Hlen Hwf Hout. unfold validateStrategies in Hout.
  destruct (Nat.ltb_spec (length marketData) 100) as [Hlt | _]; [lia |].
  destruct (validateEach marketData strategies []) as [kept | msg] eqn:Hkept;
    [| discriminate Hout].
  cbn [bind] in Hout. injection Hout as <-.
  pose proof (validateEach_no_breakout marketData Hwf strategies
                (Forall_nil _) Hkept) as Hall.
  rewrite Forall_forall in Hall.
  intros v Hv. apply Hall. apply sortBy_In in Hv. exact Hv.
Qed.

Lemma validation_drops_breakout_witness :
  exists out,
    validateStrategies "BTCUSDT" lateRally TF_1h [breakout; trendFollowing]
    = Ok out
    /\ map id out = ["trend-following"]
    /\ forall v, In v out -> style v <> BREAKOUT.
Proof.
  eexists. split; [vm_compute; reflexivity |].
  split; [reflexivity |].
  apply (validation_drops_breakout "BTCUSDT" lateRally TF_1h
           [breakout; trendFollowing]).
  - vm_compute. lia.
  - vm_compute. reflexivity.
  - vm_compute. reflexivity.
Defined.

(** ** Ranking of the validated strategies *)

Lemma byExpectancy_positive (a b : StrategyConfig) :
  positiveExpectancy a -> positiveExpectancy b ->
  gt (byExpectancy a b) zero = lt (expectancyOrZero a) (expectancyOrZero b).
Proof.
  unfold positiveExpectancy, byExpectancy, gt.
  destruct (expectancyOrZero a) as [x | | |],
           (expectancyOrZero b) as [y | | |];
    cbn [lt sub add neg zero]; try discriminate; try reflexivity.
  intros _ _.
  destruct (Qltb x y) eqn:E.
  - apply Qltb_lt in E. apply Qltb_lt. rewrite Qred_correct. lra.
  - apply Qltb_ge in E. apply Qltb_ge. rewrite Qred_correct. lra.
Qed.

Lemma positive_total (a b : StrategyConfig) :
  positiveExpectancy a -> positiveExpectancy b ->
  lt (expectancyOrZero a) (expectancyOrZero b) = false ->
  ranksAbove a b.
Proof.
  unfold positiveExpectancy, ranksAbove, gt, ge.
  destruct (expectancyOrZero a) as [x | | |],
           (expectancyOrZero b) as [y | | |];
    cbn [lt le zero]; try discriminate; try reflexivity.
  intros _ _ H. apply Qltb_ge in H. apply Qle_bool_iff. exact H.
Qed.

Lemma insertSorted_head (x : StrategyConfig) (sorted : list StrategyConfig) :
  exists h t,
    insertSorted byExpectancy x sorted = h :: t
    /\ (h = x \/ exists t', sorted = h :: t').
Proof.
  destruct sorted as [| y rest]; cbn [insertSorted].
  - exists x, []. split; [reflexivity | left; reflexivity].
  - destruct (gt (byExpectancy x y) zero).
    + eexists y, _. split; [reflexivity | right; eexists; reflexivity].
    + eexists x, _. split; [reflexivity | left; reflexivity].
Qed.

Lemma insertSorted_chain (x : StrategyConfig) :
  forall sorted,
    positiveExpectancy x ->
    Forall positiveExpectancy sorted ->
    Chain ranksAbove sorted ->
    Chain ranksAbove (insertSorted byExpectancy x sorted).
Proof.
  induction sorted as [| y rest IH]; intros Hx Hall Hchain;
    cbn [insertSorted]; [exact I |].
  inversion Hall as [| ? ? Hy Hrest]; subst.
  rewrite (byExpectancy_positive Hx Hy).
  destruct (lt (expectancyOrZero x) (expectancyOrZero y)) eqn:Hlt.
  - assert (Htail : Chain ranksAbove rest)
      by (destruct rest; [exact I | exact (proj2 Hchain)]).
    pose proof (IH Hx Hrest Htail) as Hins.
    destruct (insertSorted_head x rest) as (h & t & Heq & Hhead).
    rewrite Heq in Hins |- *. cbn [Chain]. split; [| exact Hins].
    destruct Hhead as [-> | (t' & ->)].
    + unfold ranksAbove, ge. apply lt_le_num. exact Hlt.
    + exact (proj1 Hchain).
  - cbn [Chain]. split; [| exact Hchain].
    apply positive_total; assumption.
Qed.

Lemma sortBy_chain (xs : list StrategyConfig) :
  Forall positiveExpectancy xs ->
  Chain ranksAbove (sortBy byExpectancy xs).
Proof.
  induction xs as [| x rest IH]; intros Hall; [exact I |].
  inversion Hall as [| ? ? Hx Hrest]; subst.
  cbn [sortBy fold_right]. apply insertSorted_chain; [exact Hx | |].
  - apply Forall_forall. intros v Hv. apply sortBy_In in Hv.
    rewrite Forall_forall in Hrest. exact (Hrest v Hv).
  - apply IH. exact Hrest.
Qed.

Lemma Chain_nth {A : Type} (R : A -> A -> Prop) (xs : list A) :
  Chain R xs ->
  forall i a b,
    nth_error xs i = Some a -> nth_error xs (S i) = Some b -> R a b.
Proof.
  induction xs as [| x rest IH]; intros Hchain i a b Ha Hb.
  - destruct i; discriminate Ha.
  - destruct rest as [| y rest'].
    + destruct i; cbn in Hb; [discriminate Hb |].
      destruct i; discriminate Hb.
    + destruct Hchain as [Hxy Hrest]. destruct i as [| j].
      * cbn in Ha, Hb. injection Ha as <-. injection Hb as <-. exact Hxy.
      * exact (IH Hrest j a b Ha Hb).
Qed.

Lemma Kept_positive
    {TI : TechnicalIndicators} {JM : JsMath}
    (marketData : list MarketData) (candidates : list StrategyConfig)
    (v : StrategyConfig) :
  Kept marketData candidates v -> positiveExpectancy v.
Proof.
  intros (s & m & _ & _ & -> & Hpos & _).
  unfold positiveExpectancy, expectancyOrZero.
  cbn [withBackTestResult backTestResult option_map or_else].
  assert (Htruthy : truthy (bt_expectancy m) = true).
  { unfold gt in Hpos. destruct (bt_expectancy m) as [q | | |];
      cbn [lt zero truthy] in *; try discriminate; try reflexivity.
    apply Qltb_lt in Hpos. apply negb_true_iff, Qeq_bool_false. lra. }
  rewrite Htruthy. exact Hpos.
Qed.

(** X15. On at least 100 candles, validation returns the kept strategies
    ranked by expectancy, best first: each returned strategy has an
    expectancy at least that of the next one. *)
Theorem validation_ranks_by_expectancy
    {TI : TechnicalIndicators} {JM : JsMath}
    (sym : string) (marketData : list MarketData) (tf : Timeframe)
    (strategies out : list StrategyConfig) :
  (100 <= length marketData)%nat ->
  validateStrategies sym marketData tf strategies = Ok out ->
  forall i a b,
    nth_error out i = Some a ->
    nth_error out (S i) = Some b ->
    ge (expectancyOrZero a) (expectancyOrZero b) = true.
Proof.
  intros Hlen Hout. unfold validateStrategies in Hout.
  destruct (Nat.ltb_spec (length marketData) 100) as [Hlt | _]; [lia |].
  destruct (@validateEach_kept TI JM marketData strategies strategies []
              (fun s H => H) (Forall_nil _)) as (kept & Hkept & Hall).
  rewrite Hkept in Hout. cbn [bind] in Hout. injection Hout as <-.
  apply (@Chain_nth _ ranksAbove).
  apply sortBy_chain.
  apply Forall_forall. intros v Hv. rewrite Forall_forall in Hall.
  exact (Kept_positive (Hall v Hv)).
Qed.

Lemma validation_ranks_by_expectancy_witness :
  exists out,
    validateStrategies "BTCUSDT" lateRally TF_1h
      [meanReversion; trendFollowing; volatilityTrend] = Ok out
    /\ map id out = ["trend-following"; "volatility-trend"]
    /\ forall i a b,
         nth_error out i = Some a ->
         nth_error out (S i) = Some b ->
         ge (expectancyOrZero a) (expectancyOrZero b) = true.
Proof.
  eexists. split; [vm_compute; reflexivity |].
  split; [reflexivity |].
  apply (validation_ranks_by_expectancy "BTCUSDT" lateRally TF_1h
           [meanReversion; trendFollowing; volatilityTrend]).
  - vm_compute. lia.
  - vm_compute. reflexivity.
Defined.

(** ** Market regime *)

Lemma insertSorted_has (A : Type) (compare : A -> A -> num) (x : A) :
  forall sorted y, y = x \/ In y sorted -> In y (insertSorted compare x sorted).
Proof.
  induction sorted as [| z rest IH]; intros y Hy; cbn [insertSorted].
  - destruct Hy as [-> | []]. left. reflexivity.
  - destruct (gt (compare x z) zero).
    + destruct Hy as [-> | [<- | Hin]].
      * right. apply IH. left. reflexivity.
      * left. reflexivity.
      * right. apply IH. right. exact Hin.
    + destruct Hy as [-> | Hin]; [left; reflexivity | right; exact Hin].
Qed.

Lemma sortBy_has (A : Type) (compare : A -> A -> num) :
  forall xs y, In y xs -> In y (sortBy compare xs).
Proof.
  induction xs as [| x rest IH]; intros y Hy; [exact Hy |].
  cbn [sortBy fold_right]. apply insertSorted_has.
  destruct Hy as [<- | Hin]; [left; reflexivity | right; apply IH; exact Hin].
Qed.

(** What the validation loop keeps: what it had, and every strategy whose
    quick backtest has a positive expectancy, with the metrics attached. *)
Lemma validateEach_members {TI : TechnicalIndicators} {JM : JsMath}
    (marketData : list MarketData) (strategies : list StrategyConfig) :
  forall validated out,
    validateEach marketData strategies validated = Ok out ->
    forall v,
      In v out
      <-> In v validated
          \/ exists s m,
               In s strategies
               /\ backtest s marketData = Ok m
               /\ gt (bt_expectancy m) zero = true
               /\ v = withBackTestResult s m.
Proof.
  induction strategies as [| s rest IH]; intros validated out Hout v;
    cbn [validateEach] in Hout.
  - injection Hout as <-. split; [intros H; left; exact H |].
    intros [H | (s & m & [] & _)]. exact H.
  - destruct (backtest_expectancy marketData s) as (m & Hm & _).
    rewrite Hm in Hout. cbn [bind] in Hout.
    destruct (gt (bt_expectancy m) zero) eqn:Hpos.
    + rewrite (IH _ _ Hout v). rewrite in_app_iff. cbn [In]. split.
      * intros [[H | [<- | []]] | (s' & m' & Hin & Hb & Hp & Hv)].
        -- left. exact H.
        -- right. exists s, m. repeat split; auto.
        -- right. exists s', m'. repeat split; auto.
      * intros [H | (s' & m' & [<- | Hin] & Hb & Hp & Hv)].
        -- left. left. exact H.
        -- rewrite Hm in Hb. injection Hb as <-.
           left. right. left. symmetry. exact Hv.
        -- right. exists s', m'. repeat split; auto.
    + rewrite (IH _ _ Hout v). cbn [In]. split.
      * intros [H | (s' & m' & Hin & Hb & Hp & Hv)]; [left; exact H |].
        right. exists s', m'. repeat split; auto.
      * intros [H | (s' & m' & [<- | Hin] & Hb & Hp & Hv)].
        -- left. exact H.
        -- rewrite Hm in Hb. injection Hb as <-. congruence.
        -- right. exists s', m'. repeat split; auto.
Qed.

(** X16.  [analyzeInstrument] always completes.  On fewer than 100 candles
    it returns the engine's strategies that list the detected regime, in
    the engine's order and as they are.  On 100 candles or more it returns
    exactly those of them whose quick backtest has a positive expectancy,
    each with its metrics attached, ranked by expectancy, best first. *)
Theorem analyzeInstrument_selects_and_validates
    {TI : TechnicalIndicators} {JM : JsMath}
    (strategies : list StrategyConfig) (sym : string)
    (marketData : list MarketData) (tf : Timeframe) :
  let regime := Regime.detectMarketRegime marketData in
  let suited :=
    filter (fun s => includes regime (suitableRegimes s)) strategies in
  exists out,
    Regime.analyzeInstrument strategies sym marketData tf = Ok out
    /\ if (length marketData <? 100)%nat then out = suited
       else (forall v,
               In v out
               <-> exists s m,
                     In s suited
                     /\ backtest s marketData = Ok m
                     /\ gt (bt_expectancy m) zero = true
                     /\ v = withBackTestResult s m)
            /\ Chain ranksAbove out.
Proof.
  cbn zeta. unfold Regime.analyzeInstrument, validateStrategies.
  unfold Regime.getStrategiesForRegime.
  set (suited :=
         filter (fun s =>
                   includes (Regime.detectMarketRegime marketData)
                     (suitableRegimes s)) strategies).
  destruct (length marketData <? 100)%nat.
  - exists suited. split; reflexivity.
  - destruct (@validateEach_kept TI JM marketData suited suited [])
      as (kept & Hkept & Hall);
      [intros s Hs; exact Hs | constructor |].
    rewrite Hkept. cbn [bind].
    eexists. split; [reflexivity |]. split.
    + intros v. split.
      * intros Hv. apply sortBy_In in Hv.
        apply (validateEach_members _ _ _ Hkept) in Hv.
        destruct Hv as [[] | Hv]. exact Hv.
      * intros Hv. apply sortBy_has.
        apply (validateEach_members _ _ _ Hkept). right. exact Hv.
    + apply sortBy_chain.
      apply Forall_forall. intros v Hv. rewrite Forall_forall in Hall.
      exact (Kept_positive (Hall v Hv)).
Qed.


Lemma downMovesOf_step (a b : num) (rest : list num) :
  downMovesOf (a :: b :: rest)
  = (if b - a <? zero then abs (b - a) else zero) :: downMovesOf (b :: rest).
Proof. reflexivity. Qed.




Lemma Forall_skipn_all {A : Type} (P : A -> Prop) (n : nat) :
  forall xs, Forall P xs -> Forall P (skipn n xs).
Proof.
  induction n as [| k IH]; intros xs Hall; [exact Hall |].
  destruct xs as [| x rest]; [constructor |].
  inversion Hall; subst. cbn [skipn]. apply IH. assumption.
Qed.



Lemma div_fin (x y : Q) :
  ~ (y == 0)%Q -> Fin x / Fin y = Fin (Qred (x / y)).
Proof.
  intros Hy. cbn [div].
  assert (Hnz : Qeq_bool y 0 = false) by (apply Qeq_bool_false; exact Hy).
  rewrite Hnz. reflexivity.
Qed.





Lemma downMovesOf_skipn (k : nat) :
  forall xs, downMovesOf (skipn k xs) = skipn k (downMovesOf xs).
Proof.
  induction k as [| k IH]; intros xs; [reflexivity |].
  destruct xs as [| a rest]; [reflexivity |].
  destruct rest as [| b rest'].
  - cbn [skipn downMovesOf]. destruct k; reflexivity.
  - rewrite downMovesOf_step. cbn [skipn]. apply IH.
Qed.

Lemma downMovesOf_length (xs : list num) :
  length (downMovesOf xs) = (length xs - 1)%nat.
Proof.
  induction xs as [| a rest IH]; [reflexivity |].
  destruct rest as [| b rest']; [reflexivity |].
  rewrite downMovesOf_step. cbn [length] in *. rewrite IH. lia.
Qed.

Lemma le_no_fall (a b : num) : le a b = true -> (b - a <? zero) = false.
Proof.
  destruct a as [x | | |], b as [y | | |]; cbn [le sub add neg lt zero];
    try discriminate; try reflexivity.
  intros H. apply Qle_bool_iff in H. apply Qltb_ge.
  rewrite Qred_correct. lra.
Qed.

Lemma neverFalls_down (xs : list num) :
  neverFalls xs = true -> Forall (fun m => m = zero) (downMovesOf xs).
Proof.
  induction xs as [| a rest IH]; intros H; [constructor |].
  destruct rest as [| b rest']; [constructor |].
  change (le a b && neverFalls (b :: rest') = true) in H.
  apply andb_prop in H. destruct H as [Hab Hrest].
  rewrite downMovesOf_step, (le_no_fall _ _ Hab).
  constructor; [reflexivity | apply IH; exact Hrest].
Qed.

Lemma sum_zeros (xs : list num) :
  Forall (fun m => m = zero) xs -> sum xs = zero.
Proof.
  unfold sum. induction xs as [| x rest IH]; intros Hall; [reflexivity |].
  inversion Hall as [| ? ? Hx Hrest]; subst. cbn [fold_left].
  change (zero + zero) with zero. apply IH. exact Hrest.
Qed.

Lemma falls_vanish (closes : list num) :
  (15 <= length closes)%nat ->
  neverFalls (slice_last 15 closes) = true ->
  sum (slice_last 14 (downMovesOf closes)) = zero.
Proof.
  intros Hlen Hrise.
  assert (Hdown : slice_last 14 (downMovesOf closes)
                  = downMovesOf (slice_last 15 closes)).
  { rewrite !slice_last_skipn by lia.
    rewrite downMovesOf_skipn, downMovesOf_length.
    f_equal. lia. }
  rewrite Hdown. apply sum_zeros. apply neverFalls_down. exact Hrise.
Qed.

(** X19.  When none of the last 14 moves of at least 28 closes is a fall,
    the trend strength is exactly 100, however small the rises are. *)
Theorem trendStrength_without_falls (closes : list num) :
  (28 <= length closes)%nat ->
  neverFalls (slice_last 15 closes) = true ->
  Regime.calculateTrendStrength closes = Fin 100.
Proof.
  intros Hlen Hrise. unfold Regime.calculateTrendStrength.
  assert (Hlong : (length closes <? 14 * 2)%nat = false)
    by (apply Nat.ltb_ge; cbn; lia).
  rewrite Hlong.
  rewrite falls_vanish; [reflexivity | lia | exact Hrise].
Qed.

Lemma trendStrength_without_falls_witness :
  Regime.calculateTrendStrength
    (map (fun i => Fin (inject_Z (Z.of_nat (i / 10)))) (seq 0 30))
  = Fin 100.
Proof.
  apply trendStrength_without_falls; [vm_compute; lia | vm_compute].
  reflexivity.
Defined.

Lemma flat_step (c : Q) : ~ (c == 0)%Q -> (Fin c - Fin c) / Fin c = zero.
Proof.
  intros Hc. cbn [sub add neg]. rewrite div_fin by exact Hc.
  unfold zero. f_equal.
  change 0%Q with (Qred 0). apply Qred_complete.
  rewrite Qred_correct. field. exact Hc.
Qed.

Lemma stepReturns_flat (c : Q) (xs : list num) :
  ~ (c == 0)%Q ->
  Forall (fun x => x = Fin c) xs ->
  Forall (fun r => r = zero) (stepReturns xs).
Proof.
  intros Hc. induction xs as [| a rest IH]; intros Hall; [constructor |].
  destruct rest as [| b rest']; [constructor |].
  inversion Hall as [| ? ? Ha Hrest]; subst.
  inversion Hrest as [| ? ? Hb _]; subst.
  change (Forall (fun r => r = zero)
            ((Fin c - Fin c) / Fin c :: stepReturns (Fin c :: rest'))).
  constructor; [apply flat_step; exact Hc | apply IH; exact Hrest].
Qed.

Lemma stepReturns_length (xs : list num) :
  length (stepReturns xs) = (length xs - 1)%nat.
Proof.
  induction xs as [| a rest IH]; [reflexivity |].
  destruct rest as [| b rest']; [reflexivity |].
  change (length ((b - a) / a :: stepReturns (b :: rest'))
          = (length (a :: b :: rest') - 1)%nat).
  cbn [length] in *. rewrite IH. lia.
Qed.

Lemma zero_div_count (n : nat) : (0 < n)%nat -> zero / of_nat n = zero.
Proof.
  intros Hn. pose proof (of_nat_pos Hn) as Hpos. unfold of_nat, zero.
  rewrite div_fin by lra. reflexivity.
Qed.

Lemma sumSqDev_zeros (xs : list num) :
  Forall (fun r => r = zero) xs -> sumSqDev zero xs = zero.
Proof.
  unfold sumSqDev. induction xs as [| x rest IH]; intros Hall;
    [reflexivity |].
  inversion Hall as [| ? ? Hx Hrest]; subst. cbn [fold_left].
  change (zero + sq (zero - zero)) with zero. apply IH. exact Hrest.
Qed.

Lemma neverFalls_flat (c : Q) (xs : list num) :
  Forall (fun x => x = Fin c) xs -> neverFalls xs = true.
Proof.
  induction xs as [| a rest IH]; intros Hall; [reflexivity |].
  destruct rest as [| b rest']; [reflexivity |].
  inversion Hall as [| ? ? Ha Hrest]; subst.
  inversion Hrest as [| ? ? Hb _]; subst.
  change (le (Fin c) (Fin c) && neverFalls (Fin c :: rest') = true).
  rewrite (IH Hrest), andb_true_r. apply Qle_bool_iff. lra.
Qed.

Lemma flat_volatility {JM : JsMath} (c : Q) (closes : list num) :
  sqrt zero = zero ->
  (20 <= length closes)%nat ->
  ~ (c == 0)%Q ->
  Forall (fun x => x = Fin c) closes ->
  Regime.calculateVolatility closes = zero.
Proof.
  intros Hsqrt Hlen Hc Hall. unfold Regime.calculateVolatility.
  assert (Hlong : (length closes <? 20)%nat = false)
    by (apply Nat.ltb_ge; exact Hlen).
  rewrite Hlong.
  pose proof (stepReturns_flat Hc Hall) as Hflat.
  assert (Hcount : (0 < length (stepReturns closes))%nat)
    by (rewrite stepReturns_length; lia).
  rewrite (sum_zeros Hflat), (zero_div_count Hcount).
  rewrite (sumSqDev_zeros Hflat), (zero_div_count Hcount), Hsqrt.
  reflexivity.
Qed.

(** X20.  A market that does not move is classified as TRENDING: with at
    least 50 candles all closing at the same non-zero price, and a square
    root that maps 0 to 0, the trend strength is 100 and the volatility 0. *)
Theorem flat_market_is_trending {JM : JsMath}
    (marketData : list MarketData) (c : Q) :
  sqrt zero = zero ->
  (50 <= length marketData)%nat ->
  ~ (c == 0)%Q ->
  Forall (fun d => close d = Fin c) marketData ->
  Regime.detectMarketRegime marketData = TRENDING.
Proof.
  intros Hsqrt Hlen Hc Hall. unfold Regime.detectMarketRegime.
  assert (Hlong : (length marketData <? 50)%nat = false)
    by (apply Nat.ltb_ge; exact Hlen).
  rewrite Hlong.
  assert (Hcloses : Forall (fun x => x = Fin c) (map close marketData)).
  { apply Forall_forall. intros x Hx. apply in_map_iff in Hx.
    destruct Hx as (d & <- & Hd).
    rewrite Forall_forall in Hall. apply Hall. exact Hd. }
  assert (Hstrength :
            Regime.calculateTrendStrength (map close marketData) = Fin 100).
  { unfold Regime.calculateTrendStrength.
    assert (Henough : (length (map close marketData) <? 14 * 2)%nat = false)
      by (apply Nat.ltb_ge; rewrite length_map; cbn; lia).
    rewrite Henough.
    rewrite falls_vanish; [reflexivity | rewrite length_map; lia |].
    apply (@neverFalls_flat c). unfold slice_last.
    apply Forall_skipn_all. exact Hcloses. }
  assert (Hvol : Regime.calculateVolatility (map close marketData) = zero).
  { apply (@flat_volatility JM c); try assumption.
    rewrite length_map. lia. }
  rewrite Hstrength, Hvol. reflexivity.
Qed.

Lemma flat_market_is_trending_witness :
  @Regime.detectMarketRegime Fixtures.fixtureMath (Fixtures.warmup 50)
  = TRENDING.
Proof.
  apply (@flat_market_is_trending Fixtures.fixtureMath (Fixtures.warmup 50)
           100).
  - reflexivity.
  - vm_compute. lia.
  - intros H. vm_compute in H. discriminate H.
  - vm_compute. repeat constructor.
Defined.

Lemma inf_signed_not_finite (q : Q) : is_finite (inf_signed q) = false.
Proof.
  unfold inf_signed. destruct (Qltb 0 q); [reflexivity |].
  destruct (Qltb q 0); reflexivity.
Qed.

Lemma div_zero_not_finite (x a : num) :
  zeroPrice a = true -> is_finite (x / a) = false.
Proof.
  destruct a as [q | | |]; cbn [zeroPrice isZero]; try discriminate.
  intros Hq. destruct x as [y | | |]; cbn [div]; rewrite ?Hq.
  - apply inf_signed_not_finite.
  - destruct (Qltb q 0); reflexivity.
  - destruct (Qltb q 0); reflexivity.
  - reflexivity.
Qed.

Lemma stepReturns_zero (xs : list num) :
  existsb zeroPrice (removelast xs) = true ->
  exists r, In r (stepReturns xs) /\ is_finite r = false.
Proof.
  induction xs as [| a rest IH]; intros Hz; [discriminate Hz |].
  destruct rest as [| b rest']; [discriminate Hz |].
  change (existsb zeroPrice (a :: removelast (b :: rest')) = true) in Hz.
  cbn [existsb] in Hz. apply orb_prop in Hz.
  change (stepReturns (a :: b :: rest'))
    with ((b - a) / a :: stepReturns (b :: rest')).
  destruct Hz as [Ha | Hrest].
  - exists ((b - a) / a). split; [left; reflexivity |].
    apply div_zero_not_finite. exact Ha.
  - destruct (IH Hrest) as (r & Hin & Hr).
    exists r. split; [right; exact Hin | exact Hr].
Qed.

Lemma add_not_finite (a b : num) :
  is_finite a = false \/ is_finite b = false -> is_finite (a + b) = false.
Proof.
  destruct a, b; cbn [is_finite add]; intros [H | H];
    try discriminate H; reflexivity.
Qed.

Lemma sum_not_finite (xs : list num) :
  (exists r, In r xs /\ is_finite r = false) -> is_finite (sum xs) = false.
Proof.
  unfold sum.
  assert (Hgen : forall acc,
            is_finite acc = false
            \/ (exists r, In r xs /\ is_finite r = false) ->
            is_finite (fold_left add xs acc) = false).
  { induction xs as [| x rest IH]; intros acc H; cbn [fold_left].
    - destruct H as [H | (r & [] & _)]. exact H.
    - apply IH. destruct H as [H | (r & [<- | Hin] & Hr)].
      + left. apply add_not_finite. left. exact H.
      + left. apply add_not_finite. right. exact Hr.
      + right. exists r. split; assumption. }
  intros H. apply Hgen. right. exact H.
Qed.

Lemma fold_add_infinite (inf : num) (xs : list num) :
  inf = PInf \/ inf = NInf ->
  forall acc, fold_left add xs acc = inf -> acc = inf \/ In inf xs.
Proof.
  intros Hinf. induction xs as [| x rest IH]; intros acc H;
    cbn [fold_left] in H; [left; exact H |].
  destruct (IH _ H) as [Hacc | Hin]; [| right; right; exact Hin].
  destruct Hinf as [-> | ->];
    destruct acc, x; cbn [add] in Hacc; try discriminate Hacc;
    solve [left; reflexivity | right; left; reflexivity].
Qed.

Lemma div_count_not_finite (a : num) (n : nat) :
  (0 < n)%nat ->
  is_finite a = false ->
  a / of_nat n = a.
Proof.
  intros Hn Ha. pose proof (of_nat_pos Hn) as Hpos. unfold of_nat.
  assert (Hnn : Qltb (inject_Z (Z.of_nat n)) 0 = false)
    by (apply Qltb_ge; lra).
  destruct a; try discriminate Ha; cbn [div]; rewrite ?Hnn; reflexivity.
Qed.

Lemma add_NaN_r (a : num) : a + NaN = NaN.
Proof. destruct a; reflexivity. Qed.

Lemma sumSqDev_NaN (mean : num) (xs : list num) :
  (exists v, In v xs /\ v - mean = NaN) -> sumSqDev mean xs = NaN.
Proof.
  unfold sumSqDev.
  assert (Hgen : forall acc,
            acc = NaN \/ (exists v, In v xs /\ v - mean = NaN) ->
            fold_left (fun a v => a + sq (v - mean)) xs acc = NaN).
  { induction xs as [| x rest IH]; intros acc H; cbn [fold_left].
    - destruct H as [H | (v & [] & _)]. exact H.
    - apply IH. destruct H as [-> | (v & [<- | Hin] & Hv)].
      + left. reflexivity.
      + left. rewrite Hv. apply add_NaN_r.
      + right. exists v. split; assumption. }
  intros H. apply Hgen. right. exact H.
Qed.

Lemma zero_price_volatility {JM : JsMath} (closes : list num) :
  (20 <= length closes)%nat ->
  existsb zeroPrice (removelast closes) = true ->
  Regime.calculateVolatility closes = NaN.
Proof.
  intros Hlen Hz. unfold Regime.calculateVolatility.
  assert (Hlong : (length closes <? 20)%nat = false)
    by (apply Nat.ltb_ge; exact Hlen).
  rewrite Hlong.
  destruct (stepReturns_zero closes Hz) as (r & Hin & Hr).
  assert (Hcount : (0 < length (stepReturns closes))%nat)
    by (rewrite stepReturns_length; lia).
  pose proof (@sum_not_finite (stepReturns closes)
                (ex_intro _ r (conj Hin Hr))) as Hsum.
  rewrite (@div_count_not_finite _ _ Hcount Hsum).
  assert (Hdev : exists v,
            In v (stepReturns closes)
            /\ v - sum (stepReturns closes) = NaN).
  { destruct (sum (stepReturns closes)) as [q | | |] eqn:Hs;
      [discriminate Hsum | | |].
    - destruct (@fold_add_infinite PInf (stepReturns closes)
                  (or_introl eq_refl) zero Hs) as [Hacc | Hinf];
        [discriminate Hacc |].
      exists PInf. split; [exact Hinf | reflexivity].
    - destruct (@fold_add_infinite NInf (stepReturns closes)
                  (or_intror eq_refl) zero Hs) as [Hacc | Hinf];
        [discriminate Hacc |].
      exists NInf. split; [exact Hinf | reflexivity].
    - exists r. split; [exact Hin | destruct r; reflexivity]. }
  rewrite (@sumSqDev_NaN _ _ Hdev).
  change (NaN / of_nat (length (stepReturns closes))) with NaN.
  rewrite sqrt_NaN. reflexivity.
Qed.

(** X21.  A close of zero anywhere but on the last of at least 50 candles
    makes the volatility NaN, and the regime is then RANGING whatever the
    trend strength and the volume are. *)
Theorem zero_price_is_ranging {JM : JsMath} (marketData : list MarketData) :
  (50 <= length marketData)%nat ->
  existsb zeroPrice (removelast (map close marketData)) = true ->
  Regime.calculateVolatility (map close marketData) = NaN
  /\ Regime.detectMarketRegime marketData = RANGING.
Proof.
  intros Hlen Hz.
  assert (Hvol : Regime.calculateVolatility (map close marketData) = NaN).
  { apply zero_price_volatility; [rewrite length_map; lia | exact Hz]. }
  split; [exact Hvol |].
  unfold Regime.detectMarketRegime.
  assert (Hlong : (length marketData <? 50)%nat = false)
    by (apply Nat.ltb_ge; exact Hlen).
  rewrite Hlong, Hvol.
  unfold gt. rewrite lt_NaN_l, !lt_NaN_r, !andb_false_r. reflexivity.
Qed.

Lemma zero_price_is_ranging_witness :
  @Regime.calculateVolatility Fixtures.fixtureMath
    (map close (Fixtures.candle 0 1 0 0 :: Fixtures.warmup 49)) = NaN
  /\ @Regime.detectMarketRegime Fixtures.fixtureMath
       (Fixtures.candle 0 1 0 0 :: Fixtures.warmup 49) = RANGING.
Proof.
  apply (@zero_price_is_ranging Fixtures.fixtureMath).
  - vm_compute. lia.
  - vm_compute. reflexivity.
Defined.

(** ** The strategy list *)

Lemma filter_length_bound {A : Type} (p : A -> bool) (xs : list A) :
  (length (filter p xs) <= length xs)%nat.
Proof.
  induction xs as [| x rest IH]; [apply Nat.le_refl |].
  cbn [filter]. destruct (p x); cbn [length]; lia.
Qed.

Lemma filter_shorter {A : Type} (p : A -> bool) (xs : list A) :
  (length (filter (fun x => negb (p x)) xs) <? length xs)%nat = existsb p xs.
Proof.
  induction xs as [| x rest IH]; [reflexivity |].
  cbn [filter existsb]. destruct (p x); cbn [negb orb length].
  - apply Nat.ltb_lt.
    pose proof (filter_length_bound (fun y => negb (p y)) rest). lia.
  - exact IH.
Qed.

Lemma filter_keeps_all {A : Type} (p : A -> bool) (xs : list A) :
  existsb p xs = false -> filter (fun x => negb (p x)) xs = xs.
Proof.
  induction xs as [| x rest IH]; intros H; [reflexivity |].
  cbn [existsb] in H. apply orb_false_elim in H. destruct H as [Hx Hrest].
  cbn [filter]. rewrite Hx. cbn [negb]. f_equal. apply IH. exact Hrest.
Qed.

Lemma hasId_true (wanted : string) (s : StrategyConfig) :
  hasId wanted s = true <-> id s = wanted.
Proof. unfold hasId. apply String.eqb_eq. Qed.

Lemma hasId_false (wanted : string) (s : StrategyConfig) :
  hasId wanted s = false <-> id s <> wanted.
Proof. unfold hasId. apply String.eqb_neq. Qed.

(** X22.  [deleteStrategy] answers whether some strategy carried the
    identifier, keeps exactly the strategies with another identifier, and
    writes to storage only when it removed something: on [false] the engine
    and its storage are as before. *)
Theorem deleteStrategy_spec (wanted : string) (engine : Engine) :
  let deleted := fst (deleteStrategy wanted engine) in
  let engine' := snd (deleteStrategy wanted engine) in
  deleted = existsb (hasId wanted) (predefinedStrategies engine)
  /\ (forall s, In s (predefinedStrategies engine')
                <-> In s (predefinedStrategies engine) /\ id s <> wanted)
  /\ (deleted = false -> engine' = engine)
  /\ (deleted = true ->
      storageCalls engine'
      = storageCalls engine
        ++ [SaveItem "strategies" (predefinedStrategies engine')]).
Proof.
  destruct engine as [strategies calls].
  unfold deleteStrategy.
  cbn [predefinedStrategies storageCalls].
  rewrite filter_shorter.
  assert (Hkept : forall s,
            In s (filter (fun x => negb (hasId wanted x)) strategies)
            <-> In s strategies /\ id s <> wanted).
  { intros s. rewrite filter_In, negb_true_iff, hasId_false. reflexivity. }
  destruct (existsb (hasId wanted) strategies) eqn:Hany;
    cbn [fst snd saveStrategies predefinedStrategies storageCalls].
  - split; [reflexivity |]. split; [exact Hkept |].
    split; [discriminate | intros _; reflexivity].
  - split; [reflexivity |]. split; [exact Hkept |].
    split; [| discriminate].
    intros _. rewrite (filter_keeps_all _ _ Hany). reflexivity.
Qed.

Lemma findIndex_first {A : Type} (p : A -> bool) (xs : list A) :
  (findIndex p xs = None /\ forall x, In x xs -> p x = false)
  \/ (exists front s back,
        xs = front ++ s :: back
        /\ (forall x, In x front -> p x = false)
        /\ p s = true
        /\ findIndex p xs = Some (length front)).
Proof.
  induction xs as [| x rest IH].
  - left. split; [reflexivity | intros x []].
  - cbn [findIndex]. destruct (p x) eqn:Hx.
    + right. exists [], x, rest. repeat split; [intros y [] | exact Hx].
    + destruct IH as [[Hnone Hall] | (front & s & back & -> & Hfront & Hs & Hi)].
      * left. rewrite Hnone. split; [reflexivity |].
        intros y [<- | Hy]; [exact Hx | apply Hall; exact Hy].
      * right. exists (x :: front), s, back. rewrite Hi.
        repeat split; [| exact Hs].
        intros y [<- | Hy]; [exact Hx | apply Hfront; exact Hy].
Qed.

Lemma nth_error_middle {A : Type} (front back : list A) (s : A) :
  nth_error (front ++ s :: back) (length front) = Some s.
Proof.
  induction front as [| x rest IH]; [reflexivity | exact IH].
Qed.

Lemma setAt_middle {A : Type} (front back : list A) (s y : A) :
  setAt (length front) y (front ++ s :: back) = front ++ y :: back.
Proof.
  induction front as [| x rest IH]; [reflexivity |].
  cbn [length app setAt]. rewrite IH. reflexivity.
Qed.

(** X23.  [updateStrategy] either finds no strategy with the identifier and
    leaves the engine and its storage untouched, or merges the updates into
    the first strategy that carries it, leaving every other strategy (later
    ones with the same identifier too) in place, and saves the new list. *)
Theorem updateStrategy_spec (wanted : string) (updates : StrategyUpdates)
    (engine : Engine) :
  ((forall s, In s (predefinedStrategies engine) -> id s <> wanted)
   /\ updateStrategy wanted updates engine = engine)
  \/ (exists front s back,
        predefinedStrategies engine = front ++ s :: back
        /\ (forall x, In x front -> id x <> wanted)
        /\ id s = wanted
        /\ updateStrategy wanted updates engine
           = {| predefinedStrategies := front ++ spread s updates :: back;
                storageCalls :=
                  storageCalls engine
                  ++ [SaveItem "strategies"
                        (front ++ spread s updates :: back)] |}).
Proof.
  unfold updateStrategy.
  destruct (findIndex_first (hasId wanted) (predefinedStrategies engine))
    as [[Hnone Hall] | (front & s & back & Heq & Hfront & Hs & Hi)].
  - left. rewrite Hnone. split; [| reflexivity].
    intros s Hin. apply hasId_false. apply Hall. exact Hin.
  - right. exists front, s, back. rewrite Hi, Heq.
    rewrite nth_error_middle, setAt_middle.
    repeat split.
    + intros x Hx. apply hasId_false. apply Hfront. exact Hx.
    + apply hasId_true. exact Hs.
Qed.

Lemma filter_other_ids (wanted : string) (strategies : list StrategyConfig) :
  (forall s, In s strategies -> id s <> wanted) ->
  filter (fun s => negb (hasId wanted s)) strategies = strategies.
Proof.
  intros Hfresh. apply filter_keeps_all.
  destruct (existsb (hasId wanted) strategies) eqn:Hany; [| reflexivity].
  apply existsb_exists in Hany. destruct Hany as (s & Hin & Hs).
  apply hasId_true in Hs. elim (Hfresh s Hin Hs).
Qed.

(** X24.  Creating a strategy and deleting it again restores the list: when
    no strategy carries the new identifier yet, [deleteStrategy] on the
    identifier of the created strategy answers [true] and leaves the list as
    it was before the creation, with both lists saved in turn. *)
Theorem create_then_delete (name : option string) (now : string)
    (engine : Engine) :
  (forall s, In s (predefinedStrategies engine) ->
             id s <> ("strategy-" ++ now)%string) ->
  let created := fst (createStrategy name now engine) in
  deleteStrategy (id created) (snd (createStrategy name now engine))
  = (true,
     {| predefinedStrategies := predefinedStrategies engine;
        storageCalls :=
          storageCalls engine
          ++ [SaveItem "strategies" (predefinedStrategies engine ++ [created]);
              SaveItem "strategies" (predefinedStrategies engine)] |}).
Proof.
  intros Hfresh. destruct engine as [strategies calls].
  cbn [predefinedStrategies storageCalls] in *.
  unfold createStrategy.
  cbn [fst snd]. unfold deleteStrategy, saveStrategies.
  cbn [predefinedStrategies storageCalls].
  match goal with
  | |- context [strategies ++ [?c]] => set (created := c)
  end.
  change (id created) with ("strategy-" ++ now)%string.
  rewrite filter_app, (filter_other_ids _ Hfresh).
  assert (Hself : hasId ("strategy-" ++ now) created = true)
    by (apply hasId_true; reflexivity).
  clearbody created. cbn [filter]. rewrite Hself. cbn [negb]. rewrite app_nil_r.
  assert (Hlt : (length strategies <? length (strategies ++ [created]))%nat
                = true)
    by (apply Nat.ltb_lt; rewrite length_app; cbn [length]; lia).
  rewrite Hlt. cbn [predefinedStrategies storageCalls].
  rewrite <- app_assoc. reflexivity.
Qed.

Lemma create_then_delete_witness :
  deleteStrategy "strategy-1700000000000"
    (snd (createStrategy (Some "Mine") "1700000000000" Fixtures.freshEngine))
  = (true,
     {| predefinedStrategies := Regime.initializeStrategies;
        storageCalls :=
          [SaveItem "strategies"
             (Regime.initializeStrategies ++ [Fixtures.customStrategy]);
           SaveItem "strategies" Regime.initializeStrategies] |}).
Proof.
  refine (@create_then_delete (Some "Mine") "1700000000000"
            Fixtures.freshEngine _).
  intros s Hin.
  repeat (destruct Hin as [<- | Hin]; [discriminate |]).
  destruct Hin.
Defined.

(** ** The storage service *)

Lemma getEntry_put_same (key value : string) (entries : Entries) :
  getEntry key (putEntry key value entries) = Some value.
Proof.
  induction entries as [| [k v] rest IH]; cbn [putEntry getEntry].
  - rewrite String.eqb_refl. reflexivity.
  - destruct (String.eqb k key) eqn:Hk; cbn [getEntry].
    + rewrite String.eqb_refl. reflexivity.
    + rewrite Hk. exact IH.
Qed.

Lemma getEntry_put_other (key other value : string) (entries : Entries) :
  other <> key ->
  getEntry other (putEntry key value entries) = getEntry other entries.
Proof.
  intros Hne.
  assert (Hkey : String.eqb key other = false)
    by (apply String.eqb_neq; congruence).
  induction entries as [| [k v] rest IH]; cbn [putEntry getEntry].
  - rewrite Hkey. reflexivity.
  - destruct (String.eqb k key) eqn:Hk; cbn [getEntry].
    + apply String.eqb_eq in Hk. subst k. rewrite Hkey. reflexivity.
    + rewrite IH. reflexivity.
Qed.

Lemma getEntry_remove_same (key : string) (entries : Entries) :
  getEntry key (removeEntry key entries) = None.
Proof.
  unfold removeEntry.
  induction entries as [| [k v] rest IH]; cbn [filter getEntry fst];
    [reflexivity |].
  destruct (String.eqb k key) eqn:Hk; cbn [negb getEntry]; [exact IH |].
  rewrite Hk. exact IH.
Qed.

Lemma getEntry_remove_other (key other : string) (entries : Entries) :
  other <> key ->
  getEntry other (removeEntry key entries) = getEntry other entries.
Proof.
  intros Hne. unfold removeEntry.
  induction entries as [| [k v] rest IH]; cbn [filter getEntry fst];
    [reflexivity |].
  destruct (String.eqb k key) eqn:Hk; cbn [negb getEntry].
  - apply String.eqb_eq in Hk. subst k.
    assert (Hkey : String.eqb key other = false)
      by (apply String.eqb_neq; congruence).
    rewrite Hkey. exact IH.
  - rewrite IH. reflexivity.
Qed.

Lemma append_cancel (front a b : string) :
  (front ++ a)%string = (front ++ b)%string -> a = b.
Proof.
  induction front as [| c rest IH]; cbn [append]; intros H; [exact H |].
  apply IH. congruence.
Qed.

(** X25.  What is saved can be read back: in a browser that has room for
    the entry, [getItem] after [saveItem] on the same key gives the saved
    value as JSON serialises and parses it, or the default when the
    serialised text does not parse. *)
Theorem save_then_get {T : Type} {J : Json T}
    (withinQuota : Entries -> bool) (prefix key serialized : string)
    (data defaultValue : T) (entries : Entries) :
  stringify data = Some serialized ->
  withinQuota (putEntry (prefix ++ key) serialized entries) = true ->
  getItem prefix key defaultValue
    (saveItem withinQuota prefix key data (Some entries))
  = match parse serialized with
    | Some value => value
    | None => defaultValue
    end.
Proof.
  intros Hjson Hroom. unfold saveItem, getItem.
  rewrite Hjson. cbn zeta. rewrite Hroom, getEntry_put_same. reflexivity.
Qed.

Lemma save_then_get_witness :
  getItem "trading-dashboard-" "dark" false
    (saveItem Fixtures.unlimited "trading-dashboard-" "dark" true
       Fixtures.somePage)
  = true.
Proof.
  apply (@save_then_get bool Fixtures.jsonBool Fixtures.unlimited
           "trading-dashboard-" "dark" "true" true false);
    reflexivity.
Defined.

(** X26.  Saving or removing one key leaves every other key of the service
    as it reads, whether or not the write went through; and a removed key
    reads as the default. *)
Theorem other_keys_untouched {T : Type} {J : Json T}
    (withinQuota : Entries -> bool) (prefix key other : string)
    (data defaultValue : T) (page : option Entries) :
  other <> key ->
  getItem prefix other defaultValue
    (saveItem withinQuota prefix key data page)
  = getItem prefix other defaultValue page
  /\ getItem prefix other defaultValue (removeItem prefix key page)
     = getItem prefix other defaultValue page
  /\ getItem prefix key defaultValue (removeItem prefix key page)
     = defaultValue.
Proof.
  intros Hne.
  assert (Hkeys : (prefix ++ other)%string <> (prefix ++ key)%string)
    by (intros H; apply Hne; exact (append_cancel _ _ _ H)).
  destruct page as [entries |]; [| repeat split; reflexivity].
  unfold saveItem, getItem, removeItem. repeat split.
  - destruct (stringify data) as [serialized |]; [| reflexivity].
    cbn zeta.
    destruct (withinQuota (putEntry (prefix ++ key) serialized entries));
      [| reflexivity].
    rewrite (getEntry_put_other _ _ Hkeys). reflexivity.
  - rewrite (getEntry_remove_other _ Hkeys). reflexivity.
  - rewrite getEntry_remove_same. reflexivity.
Qed.

Lemma other_keys_untouched_witness :
  getItem "trading-dashboard-" "dark" true
    (saveItem Fixtures.unlimited "trading-dashboard-" "compact" true
       Fixtures.somePage)
  = getItem "trading-dashboard-" "dark" true Fixtures.somePage
  /\ getItem "trading-dashboard-" "dark" true
       (removeItem "trading-dashboard-" "compact" Fixtures.somePage)
     = getItem "trading-dashboard-" "dark" true Fixtures.somePage
  /\ getItem "trading-dashboard-" "compact" true
       (removeItem "trading-dashboard-" "compact" Fixtures.somePage)
     = true.
Proof.
  apply (@other_keys_untouched bool Fixtures.jsonBool Fixtures.unlimited
           "trading-dashboard-" "compact" "dark" true true
           Fixtures.somePage).
  discriminate.
Defined.

Lemma getEntry_absent (key : string) (entries : Entries) :
  ~ In key (map fst entries) -> getEntry key entries = None.
Proof.
  induction entries as [| [k v] rest IH]; intros Hout; [reflexivity |].
  cbn [getEntry]. cbn [map fst In] in Hout.
  destruct (String.eqb k key) eqn:Hk.
  - apply String.eqb_eq in Hk. elim Hout. left. exact Hk.
  - apply IH. intros Hin. apply Hout. right. exact Hin.
Qed.

Lemma getEntry_removed (keys : list string) :
  forall (entries : Entries) (key : string),
    getEntry key (fold_left (fun es k => removeEntry k es) keys entries)
    = if existsb (String.eqb key) keys then None else getEntry key entries.
Proof.
  induction keys as [| a rest IH]; intros entries key;
    cbn [fold_left existsb]; [reflexivity |].
  rewrite IH. destruct (String.eqb key a) eqn:Ha; cbn [orb].
  - apply String.eqb_eq in Ha. subst a.
    rewrite getEntry_remove_same. destruct (existsb _ rest); reflexivity.
  - apply String.eqb_neq in Ha.
    rewrite (getEntry_remove_other _ Ha). reflexivity.
Qed.

Lemma existsb_eqb_In (key : string) (keys : list string) :
  existsb (String.eqb key) keys = true <-> In key keys.
Proof.
  rewrite existsb_exists. split.
  - intros (k & Hin & Hk). apply String.eqb_eq in Hk. subst k. exact Hin.
  - intros Hin. exists key. split; [exact Hin | apply String.eqb_refl].
Qed.

(** X27.  [clear] removes the entries of the service and no others: after
    it, every non-empty key that starts with the prefix is absent, and every
    key that does not start with the prefix, and the empty key, reads as
    before. *)
Theorem clear_removes_own_entries (prefix : string) (entries : Entries) :
  exists after,
    clear prefix (Some entries) = Some after
    /\ (forall key, nonEmpty key = true ->
                    String.prefix prefix key = true ->
                    getEntry key after = None)
    /\ (forall key, String.prefix prefix key = false ->
                    getEntry key after = getEntry key entries)
    /\ getEntry EmptyString after = getEntry EmptyString entries.
Proof.
  unfold clear. eexists. split; [reflexivity |].
  set (keysToRemove :=
         filter (fun key => nonEmpty key && String.prefix prefix key)
           (map fst entries)).
  assert (Hkeys : forall key,
            In key keysToRemove
            <-> In key (map fst entries)
                /\ nonEmpty key = true /\ String.prefix prefix key = true).
  { intros key. unfold keysToRemove.
    rewrite filter_In, andb_true_iff. reflexivity. }
  assert (Hkept : forall key,
            ~ In key keysToRemove ->
            getEntry key
              (fold_left (fun es k => removeEntry k es) keysToRemove entries)
            = getEntry key entries).
  { intros key Hout. rewrite getEntry_removed.
    destruct (existsb (String.eqb key) keysToRemove) eqn:Hany;
      [| reflexivity].
    apply existsb_eqb_In in Hany. elim (Hout Hany). }
  split; [| split].
  - intros key Hne Hpre. rewrite getEntry_removed.
    destruct (existsb (String.eqb key) keysToRemove) eqn:Hany;
      [reflexivity |].
    apply getEntry_absent. intros Hin.
    assert (Hk : In key keysToRemove) by (apply Hkeys; auto).
    apply existsb_eqb_In in Hk. congruence.
  - intros key Hpre. apply Hkept. intros Hin.
    apply Hkeys in Hin. destruct Hin as (_ & _ & Htrue). congruence.
  - apply Hkept. intros Hin.
    apply Hkeys in Hin. destruct Hin as (_ & Hne & _). discriminate Hne.
Qed.

(** ** Signal validation *)

Lemma ceiling_push (reasons : list Reason) (reason : Reason) :
  (ceiling (reasons ++ [reason]) == ceiling reasons * penalty reason)%Q.
Proof.
  unfold ceiling. induction reasons as [| r rest IH]; cbn [app fold_right].
  - ring.
  - rewrite IH. ring.
Qed.

Lemma penalty_range (reason : Reason) : (0 < penalty reason <= 1)%Q.
Proof. destruct reason; cbn [penalty]; lra. Qed.

Lemma ceiling_range (reasons : list Reason) : (0 < ceiling reasons <= 1)%Q.
Proof.
  unfold ceiling. induction reasons as [| r rest IH]; cbn [fold_right];
    [lra |].
  pose proof (penalty_range r). nra.
Qed.

Lemma push_not_empty {A : Type} (xs : list A) (x : A) : xs ++ [x] <> [].
Proof. destruct xs; discriminate. Qed.

Lemma flag_graded (reason : Reason) (f : Q) (v : list Reason * num) :
  (0 < f < 1)%Q ->
  (f <= penalty reason)%Q ->
  Graded v -> Graded (flag reason (Fin f) v).
Proof.
  intros Hf Hpen [Hone Hle]. destruct v as [reasons s].
  cbn [fst snd] in *. unfold Graded, flag. cbn [fst snd].
  pose proof (ceiling_range reasons) as Hc.
  pose proof (ceiling_push reasons reason) as Hpush.
  assert (Hs : lt s (Fin 1) = true \/ s = Fin 1)
    by (destruct Hone as [[_ ->] | [_ H]]; auto).
  destruct s as [x | | |]; cbn [le] in Hle; try discriminate Hle.
  - apply Qle_bool_iff in Hle.
    assert (Hx : (x <= 1)%Q).
    { destruct Hs as [H | H]; [apply Qltb_lt in H; lra |].
      injection H as ->. lra. }
    cbn [mul lt le]. split.
    + right. split; [apply push_not_empty |].
      apply Qltb_lt. rewrite Qred_correct. nra.
    + apply Qle_bool_iff. rewrite Qred_correct, Hpush. nra.
  - assert (Hneg : Fin f * NInf = NInf).
    { cbn [mul]. unfold inf_signed.
      assert (H1 : Qltb 0 (- f) = false) by (apply Qltb_ge; lra).
      assert (H2 : Qltb (- f) 0 = true) by (apply Qltb_lt; lra).
      rewrite H1, H2. reflexivity. }
    cbn [mul] in *. rewrite Hneg. split; [| reflexivity].
    right. split; [apply push_not_empty | reflexivity].
Qed.

Lemma checkConfidence_graded (signal : TradingSignalResult) :
  Graded (checkConfidence signal ([], Fin 1)).
Proof.
  unfold checkConfidence. cbn zeta.
  destruct (lt (sig_confidence signal) (Fin 0.75)) eqn:Hlow.
  - unfold Graded, flag. cbn [fst snd app].
    destruct (sig_confidence signal) as [c | | |]; cbn [lt] in Hlow;
      try discriminate Hlow.
    + apply Qltb_lt in Hlow. rewrite div_fin by lra.
      cbn [mul lt le]. split.
      * right. split; [discriminate |].
        apply Qltb_lt. rewrite !Qred_correct.
        assert (H : (c / 0.75 < 1)%Q)
          by (apply Qlt_shift_div_r; lra).
        lra.
      * apply Qle_bool_iff. rewrite !Qred_correct.
        assert (H : (c / 0.75 < 1)%Q)
          by (apply Qlt_shift_div_r; lra).
        unfold ceiling. cbn [fold_right penalty]. lra.
    + split; [right; split; [discriminate | reflexivity] | reflexivity].
  - split; [left; split; reflexivity |].
    apply Qle_bool_iff. unfold ceiling. cbn [fst fold_right]. lra.
Qed.

Lemma checkRegime_graded (strategy : StrategyConfig)
    (marketRegime : MarketRegime) (v : list Reason * num) :
  Graded v -> Graded (checkRegime strategy marketRegime v).
Proof.
  intros Hv. unfold checkRegime.
  repeat match goal with
         | |- Graded (if ?b then _ else _) => destruct b
         end;
    try exact Hv;
    apply flag_graded; try exact Hv; cbn [penalty]; lra.
Qed.

Lemma checkIndicators_graded {TI : TechnicalIndicators} {JM : JsMath}
    (signal : TradingSignalResult) (strategy : StrategyConfig)
    (marketData : list MarketData) (v : list Reason * num) :
  Graded v -> Graded (checkIndicators signal strategy marketData v).
Proof.
  intros Hv. unfold checkIndicators. cbn zeta.
  repeat match goal with
         | |- Graded (if ?b then _ else _) => destruct b
         end;
    try exact Hv;
    apply flag_graded; try exact Hv; cbn [penalty]; lra.
Qed.

Lemma checkLevels_graded (signal : TradingSignalResult)
    (v : list Reason * num) :
  Graded v -> Graded (checkLevels signal v).
Proof.
  intros Hv. unfold checkLevels.
  destruct (negb (otruthy (sig_stopLoss signal))
            || negb (otruthy (sig_takeProfit signal)));
    [| exact Hv].
  apply flag_graded; try exact Hv; cbn [penalty]; lra.
Qed.

Lemma validateSignal_graded {TI : TechnicalIndicators} {JM : JsMath}
    (signal : TradingSignalResult) (strategy : StrategyConfig)
    (marketData : list MarketData) (marketRegime : MarketRegime) :
  let result := validateSignal signal strategy marketData marketRegime in
  Graded (vr_reasons result, vr_score result).
Proof.
  unfold validateSignal.
  destruct (signal_eqb (sig_signal signal) NEUTRAL).
  - cbn [vr_reasons vr_score]. split; [left; split; reflexivity |].
    reflexivity.
  - cbn [vr_reasons vr_score]. rewrite <- surjective_pairing.
    apply checkLevels_graded, checkIndicators_graded, checkRegime_graded,
      checkConfidence_graded.
Qed.

(** X28.  The score of a validation is 1 exactly when no reason is given,
    and it never exceeds the product of the penalties of the reasons given
    (0.8 for a trend or mean-reversion strategy out of its regime, 0.9 for a
    breakout strategy out of its regime, 0.7 for an unconfirmed signal, 0.9
    for missing levels), whatever the confidence. *)
Theorem score_ceiling {TI : TechnicalIndicators} {JM : JsMath}
    (signal : TradingSignalResult) (strategy : StrategyConfig)
    (marketData : list MarketData) (marketRegime : MarketRegime) :
  let result := validateSignal signal strategy marketData marketRegime in
  (vr_reasons result = [] <-> vr_score result = Fin 1)
  /\ le (vr_score result) (Fin (ceiling (vr_reasons result))) = true.
Proof.
  cbn zeta.
  destruct (validateSignal_graded signal strategy marketData marketRegime)
    as [Hone Hle].
  cbn [fst snd] in Hone, Hle. split; [| exact Hle].
  destruct Hone as [[Hnone Hscore] | [Hsome Hscore]].
  - split; intros _; assumption.
  - split; intros H; [elim (Hsome H) |].
    rewrite H in Hscore. discriminate Hscore.
Qed.

Lemma ceiling_regimeFlag (reasons : list Reason) :
  existsb regimeFlag reasons = true -> (ceiling reasons <= 0.8)%Q.
Proof.
  induction reasons as [| r rest IH]; intros H; [discriminate H |].
  cbn [existsb] in H. change (ceiling (r :: rest))
    with (penalty r * ceiling rest)%Q.
  pose proof (penalty_range r) as Hp.
  pose proof (ceiling_range rest) as Hc.
  destruct (regimeFlag r) eqn:Hr.
  - destruct r; try discriminate Hr; cbn [penalty] in *; nra.
  - cbn [orb] in H. specialize (IH H). nra.
Qed.

Lemma ceiling_indicatorFlag (reasons : list Reason) :
  existsb indicatorFlag reasons = true -> (ceiling reasons <= 0.7)%Q.
Proof.
  induction reasons as [| r rest IH]; intros H; [discriminate H |].
  cbn [existsb] in H. change (ceiling (r :: rest))
    with (penalty r * ceiling rest)%Q.
  pose proof (penalty_range r) as Hp.
  pose proof (ceiling_range rest) as Hc.
  destruct (indicatorFlag r) eqn:Hr.
  - destruct r; try discriminate Hr; cbn [penalty] in *; nra.
  - cbn [orb] in H. specialize (IH H). nra.
Qed.

Lemma ceiling_both (reasons : list Reason) :
  existsb regimeFlag reasons = true ->
  existsb indicatorFlag reasons = true ->
  (ceiling reasons <= 0.56)%Q.
Proof.
  induction reasons as [| r rest IH]; intros Hr Hi; [discriminate Hr |].
  cbn [existsb] in Hr, Hi. change (ceiling (r :: rest))
    with (penalty r * ceiling rest)%Q.
  pose proof (penalty_range r) as Hp.
  pose proof (ceiling_range rest) as Hc.
  destruct (regimeFlag r) eqn:Hreg.
  - assert (Hind : indicatorFlag r = false)
      by (destruct r; try discriminate Hreg; reflexivity).
    rewrite Hind in Hi. cbn [orb] in Hi.
    pose proof (ceiling_indicatorFlag rest Hi).
    destruct r; try discriminate Hreg; cbn [penalty] in *; nra.
  - cbn [orb] in Hr. destruct (indicatorFlag r) eqn:Hind.
    + pose proof (ceiling_regimeFlag rest Hr).
      destruct r; try discriminate Hind; cbn [penalty] in *; nra.
    + cbn [orb] in Hi. specialize (IH Hr Hi). nra.
Qed.

(** X29.  A signal flagged both for the regime (a trend or mean-reversion
    strategy outside its regime) and by the indicator check is rejected,
    whatever its confidence and even when these are the only two reasons:
    the score is then at most 0.56. *)
Theorem out_of_regime_and_unconfirmed_is_rejected
    {TI : TechnicalIndicators} {JM : JsMath}
    (signal : TradingSignalResult) (strategy : StrategyConfig)
    (marketData : list MarketData) (marketRegime : MarketRegime) :
  let result := validateSignal signal strategy marketData marketRegime in
  existsb regimeFlag (vr_reasons result) = true ->
  existsb indicatorFlag (vr_reasons result) = true ->
  vr_isValid result = false
  /\ le (vr_score result) (Fin 0.56) = true.
Proof.
  cbn zeta. intros Hreg Hind.
  destruct (validateSignal_graded signal strategy marketData marketRegime)
    as [_ Hle].
  cbn [fst snd] in Hle.
  pose proof (ceiling_both _ Hreg Hind) as Hceil.
  assert (Hlow : le (vr_score (validateSignal signal strategy marketData
                                 marketRegime)) (Fin 0.56) = true).
  { destruct (vr_score _) as [x | | |]; cbn [le] in *;
      try discriminate Hle; try reflexivity.
    apply Qle_bool_iff in Hle. apply Qle_bool_iff. lra. }
  split; [| exact Hlow].
  unfold validateSignal in *.
  destruct (signal_eqb (sig_signal signal) NEUTRAL);
    [discriminate Hreg |].
  cbn [vr_isValid vr_score] in *.
  apply andb_false_iff. left. unfold ge.
  destruct (snd _) as [x | | |]; cbn [le] in *;
    try discriminate Hlow; try reflexivity.
  apply Qle_bool_iff in Hlow.
  destruct (Qle_bool 0.6 x) eqn:Hge; [| reflexivity].
  apply Qle_bool_iff in Hge. lra.
Qed.

Lemma out_of_regime_and_unconfirmed_is_rejected_witness :
  vr_reasons
    (@validateSignal Fixtures.fixtureIndicators Fixtures.fixtureMath
       Fixtures.confidentLong Fixtures.trendFollowing (Fixtures.warmup 50)
       RANGING)
  = [TrendOutOfRegime RANGING; EmaNotAbove]
  /\ vr_isValid
       (@validateSignal Fixtures.fixtureIndicators Fixtures.fixtureMath
          Fixtures.confidentLong Fixtures.trendFollowing (Fixtures.warmup 50)
          RANGING) = false
  /\ le (vr_score
           (@validateSignal Fixtures.fixtureIndicators Fixtures.fixtureMath
              Fixtures.confidentLong Fixtures.trendFollowing
              (Fixtures.warmup 50) RANGING)) (Fin 0.56) = true.
Proof.
  split; [vm_compute; reflexivity |].
  apply (@out_of_regime_and_unconfirmed_is_rejected
           Fixtures.fixtureIndicators Fixtures.fixtureMath
           Fixtures.confidentLong Fixtures.trendFollowing
           (Fixtures.warmup 50) RANGING);
    vm_compute; reflexivity.
Defined.
